(** * blender_renderer: PLY point-cloud loading and camera trajectories

    A shallow embedding of the Python sources

    - [render_full_video.py]            ([load_ply_file]),
    - [ply_processor.py]                ([PLYProcessor.load_ply], [PLYProcessor.get_ply_info]),
    - [camera_trajectory.py]            ([CameraTrajectory]),

    followed by the properties of the specification that are about them.

    Conventions of the embedding.

    - A Python call that may raise is a value of [result]: [Ok v] or
      [Raise e].  Only subclasses of [Exception] are modelled; asynchronous
      [BaseException]s (KeyboardInterrupt, SystemExit) are not.
    - Text is ASCII ([string]).
    - A floating-point number is the rational it denotes, or an infinity, or
      NaN ([num]).  Binary64 rounding is not modelled: for a Python [float]
      and for a [float64] element, a quotient such as [r/255.0] is the exact
      rational, which the program's value is within a relative [2^-53] of.
      Binary32 rounding is modelled ([f32]): the conversion to [float32] and
      the arithmetic of [float32] arrays round to the nearest binary32
      number, which is off by up to a relative [2^-24].  Also modelled are
      the array's element type ([dtype]), non-finite values, and the
      overflow of the conversion of an [int] to a [float].
    - The rotation matrices are over the real numbers.
    - [print] calls are left out; [logger.error] calls are kept as a list
      of log records. *)

From Stdlib Require Import ZArith QArith Qabs Reals Lra Lia String Ascii List Sorted.
From Stdlib Require Import RNsatz.
From stdpp Require Import base option gmap strings list pretty.

Set Warnings "-clear-no-such-hyp".

(** ** The Python runtime used by the sources *)

Module Py.

Inductive exn_class :=
  | FileNotFoundError
  | PermissionError
  | UnicodeDecodeError
  | ValueError
  | OverflowError
  | KeyError
  | IndexError
  | PlyParseError.

(** An exception: its class and, when the sources build the message
    themselves, the message.  Messages of the runtime and of libraries are
    not modelled ([None]). *)
Record exn := Exn { exn_cls : exn_class; exn_msg : option string }.

Definition builtin (c : exn_class) : exn := Exn c None.

Inductive result (A : Type) :=
  | Ok (a : A)
  | Raise (e : exn).
Arguments Ok {A} a.
Arguments Raise {A} e.

#[global] Instance result_ret : MRet result := fun A a => Ok a.
#[global] Instance result_bind : MBind result := fun A B f m =>
  match m with
  | Ok a => f a
  | Raise e => Raise e
  end.

Definition raises {A} (r : result A) : Prop := exists e, r = Raise e.
Definition raises_class {A} (r : result A) (c : exn_class) : Prop :=
  exists e, r = Raise e /\ exn_cls e = c.
Definition raises_in {A} (r : result A) (cs : list exn_class) : Prop :=
  exists e, r = Raise e /\ In (exn_cls e) cs.
Definition returns {A} (r : result A) : Prop := exists a, r = Ok a.

(** *** Floating-point values *)

Inductive num :=
  | Fin (q : Q)
  | Inf (neg : bool)
  | NaN.

(** [2^1024 - 2^970]: the least magnitude that rounds to an infinity in
    binary64. *)
Definition f64_overflow_bound : Q := inject_Z (2 ^ 1024 - 2 ^ 970).

Definition f64_overflows (q : Q) : bool := Qle_bool f64_overflow_bound (Qabs q).

Definition Qneg (q : Q) : bool := (Qnum q <? 0)%Z.

(** [x < y] on floats: false as soon as one side is NaN. *)
Definition num_ltb (x y : num) : bool :=
  match x, y with
  | NaN, _ | _, NaN => false
  | Fin p, Fin q => negb (Qle_bool q p)
  | Fin _, Inf neg => negb neg
  | Inf neg, Fin _ => neg
  | Inf n1, Inf n2 => n1 && negb n2
  end.

Definition num_add (x y : num) : num :=
  match x, y with
  | NaN, _ | _, NaN => NaN
  | Fin p, Fin q => Fin (Qred (p + q))
  | Fin _, Inf n | Inf n, Fin _ => Inf n
  | Inf n1, Inf n2 => if Bool.eqb n1 n2 then Inf n1 else NaN
  end.

(** Division of a float by a positive finite constant. *)
Definition num_div_pos (x : num) (d : Q) : num :=
  match x with
  | Fin p => Fin (Qred (p / d))
  | other => other
  end.

(** [r / 255.0]-style true division of an [int] by a positive float: the
    [int] is converted to a float first, which raises OverflowError when
    it is too large. *)
Definition int_truediv (r : Z) (d : Q) : result num :=
  if f64_overflows (inject_Z r) then Raise (builtin OverflowError)
  else Ok (Fin (Qred (inject_Z r / d))).

(** *** Binary32 numbers *)

(** The integer nearest to a rational, ties to the even one. *)
Definition round_half_even (q : Q) : Z :=
  let n := Qnum q in
  let d := Z.pos (Qden q) in
  let f := (n / d)%Z in
  match (2 * (n mod d) ?= d)%Z with
  | Lt => f
  | Gt => (f + 1)%Z
  | Eq => if Z.even f then f else (f + 1)%Z
  end.

(** The integer part of the binary logarithm of a positive rational. *)
Definition ilog2 (q : Q) : Z :=
  let k := (Z.log2 (Qnum q) - Z.log2 (Z.pos (Qden q)))%Z in
  if Qle_bool (Qpower 2 k) q then k else (k - 1)%Z.

(** The nearest multiple, ties to even, of the unit in the last place of a
    format with [prec] significant bits and least normal exponent [emin]. *)
Definition round_binary (prec emin : Z) (q : Q) : Q :=
  if Qeq_bool q 0 then 0
  else
    let e := (Z.max (ilog2 (Qabs q)) emin - (prec - 1))%Z in
    inject_Z (round_half_even (q / Qpower 2 e)) * Qpower 2 e.

(** The binary32 number nearest to a rational: 24 significant bits,
    exponents from -126 (subnormal numbers are multiples of [2^-149]) to
    127; what rounds to [2^128] is an infinity. *)
Definition f32_of_Q (q : Q) : num :=
  let r := round_binary 24 (-126) q in
  if Qle_bool (Qpower 2 128) (Qabs r) then Inf (Qneg q) else Fin (Qred r).

Definition f32 (x : num) : num :=
  match x with
  | Fin q => f32_of_Q q
  | other => other
  end.

(** The sum of two binary32 numbers. *)
Definition add32 (x y : num) : num := f32 (num_add x y).

(** *** Strings *)

(** [str.isspace] on ASCII: TAB, LF, VT, FF, CR, FS, GS, RS, US, space. *)
Definition is_space (c : ascii) : bool :=
  let n := nat_of_ascii c in
  ((9 <=? n) && (n <=? 13) || (28 <=? n) && (n <=? 32))%nat.

Fixpoint lstrip (s : string) : string :=
  match s with
  | EmptyString => EmptyString
  | String c s' => if is_space c then lstrip s' else s
  end.

Definition rstrip (s : string) : string := String.rev (lstrip (String.rev s)).

Definition strip (s : string) : string := rstrip (lstrip s).

(** [s.split()]: the maximal runs of non-space characters.  [cur] is the
    current run, most recent character first. *)
Fixpoint split_go (cur : option string) (s : string) : list string :=
  match s with
  | EmptyString => option_list (String.rev <$> cur)
  | String c s' =>
      if is_space c then option_list (String.rev <$> cur) ++ split_go None s'
      else split_go (Some (String c (default EmptyString cur))) s'
  end.

Definition split (s : string) : list string := split_go None s.

Definition startswith (s pre : string) : bool := String.prefix pre s.

Definition lower_ascii (c : ascii) : ascii :=
  let n := nat_of_ascii c in
  if ((65 <=? n) && (n <=? 90))%nat then ascii_of_nat (n + 32) else c.

Fixpoint lower (s : string) : string :=
  match s with
  | EmptyString => EmptyString
  | String c s' => String (lower_ascii c) (lower s')
  end.

Definition digit_val (c : ascii) : option Z :=
  let n := nat_of_ascii c in
  if ((48 <=? n) && (n <=? 57))%nat then Some (Z.of_nat n - 48)%Z else None.

(** The rest of a [digitpart] ([digit (["_"] digit)*]) after its first
    digit: the value so far, the number of digits so far, and the input
    left. *)
Fixpoint digits_tail (acc : Z) (n : nat) (s : string) : Z * nat * string :=
  match s with
  | EmptyString => (acc, n, s)
  | String c s' =>
      match digit_val c with
      | Some d => digits_tail (10 * acc + d) (S n) s'
      | None =>
          if Ascii.eqb c "_" then
            match s' with
            | String c2 s'' =>
                match digit_val c2 with
                | Some d => digits_tail (10 * acc + d) (S n) s''
                | None => (acc, n, s)
                end
            | EmptyString => (acc, n, s)
            end
          else (acc, n, s)
      end
  end.

Definition read_digits (s : string) : option (Z * nat * string) :=
  match s with
  | EmptyString => None
  | String c s' =>
      match digit_val c with
      | Some d => Some (digits_tail d 1 s')
      | None => None
      end
  end.

(** An optional sign: [true] for ["-"]. *)
Definition read_sign (s : string) : bool * string :=
  match s with
  | String c s' =>
      if Ascii.eqb c "-" then (true, s')
      else if Ascii.eqb c "+" then (false, s')
      else (false, s)
  | EmptyString => (false, s)
  end.

Definition apply_sign (neg : bool) (z : Z) : Z := if neg then (- z)%Z else z.

(** [sys.get_int_max_str_digits()], as it is by default. *)
Definition int_max_str_digits : nat := 4300.

(** [int(s)] in base 10: ValueError for what is not an integer literal, and
    for a literal of more digits (underscores not counted, leading zeros
    counted) than the limit of the conversion. *)
Definition int (s : string) : result Z :=
  let '(neg, body) := read_sign (strip s) in
  match read_digits body with
  | Some (v, digits, EmptyString) =>
      if (int_max_str_digits <? digits)%nat then Raise (builtin ValueError)
      else Ok (apply_sign neg v)
  | _ => Raise (builtin ValueError)
  end.

(** An optional exponent: [("e" | "E") ["+" | "-"] digitpart]. *)
Definition read_exponent (s : string) : option (Z * string) :=
  match s with
  | String c s' =>
      if Ascii.eqb (lower_ascii c) "e" then
        let '(neg, body) := read_sign s' in
        match read_digits body with
        | Some (v, _, rest) => Some (apply_sign neg v, rest)
        | None => None
        end
      else Some (0%Z, s)
  | EmptyString => Some (0%Z, s)
  end.

(** The mantissa [[digitpart] ["." [digitpart]]] with at least one digit:
    the digits read as one integer, how many of them follow the point,
    and the input left. *)
Definition read_mantissa (s : string) : option (Z * nat * string) :=
  let '(ip, s1) :=
    match read_digits s with
    | Some (v, _, rest) => (Some v, rest)
    | None => (None, s)
    end in
  match s1 with
  | String c s2 =>
      if Ascii.eqb c "." then
        match read_digits s2, ip with
        | Some (f, k, rest), _ => Some ((default 0 ip * 10 ^ Z.of_nat k + f)%Z, k, rest)
        | None, Some v => Some (v, 0%nat, s2)
        | None, None => None
        end
      else (fun v => (v, 0%nat, s1)) <$> ip
  | EmptyString => (fun v => (v, 0%nat, s1)) <$> ip
  end.

Definition float_of_Q (q : Q) : num :=
  if f64_overflows q then Inf (Qneg q) else Fin (Qred q).

(** [float(s)]. *)
Definition float (s : string) : result num :=
  let '(neg, body) := read_sign (strip s) in
  let word := lower body in
  if String.eqb word "inf" || String.eqb word "infinity" then Ok (Inf neg)
  else if String.eqb word "nan" then Ok NaN
  else
    match read_mantissa body with
    | Some (m, k, rest) =>
        match read_exponent rest with
        | Some (e, EmptyString) =>
            Ok (float_of_Q (inject_Z (apply_sign neg m) * Qpower 10 (e - Z.of_nat k)))
        | _ => Raise (builtin ValueError)
        end
    | None => Raise (builtin ValueError)
    end.

End Py.
Export Py.

(** ** numpy arrays *)

Module Np.

(** The element types of PLY properties, and [int64], which promotion can
    produce. *)
Inductive dtype :=
  | int8 | uint8 | int16 | uint16 | int32 | uint32 | int64
  | float32 | float64.

#[global] Instance dtype_eq_dec : EqDecision dtype.
Proof. solve_decision. Defined.

Inductive kind := Signed | Unsigned | Floating.

Definition dtype_kind (d : dtype) : kind :=
  match d with
  | int8 | int16 | int32 | int64 => Signed
  | uint8 | uint16 | uint32 => Unsigned
  | float32 | float64 => Floating
  end.

Definition dtype_bits (d : dtype) : nat :=
  match d with
  | int8 | uint8 => 8
  | int16 | uint16 => 16
  | int32 | uint32 | float32 => 32
  | int64 | float64 => 64
  end.

Definition signed_of_bits (b : nat) : dtype :=
  if (b <=? 8)%nat then int8 else if (b <=? 16)%nat then int16
  else if (b <=? 32)%nat then int32 else int64.

(** [numpy.promote_types] on these types. *)
Definition promote_types (a b : dtype) : dtype :=
  match dtype_kind a, dtype_kind b with
  | Floating, Floating | Signed, Signed | Unsigned, Unsigned =>
      if (dtype_bits a <=? dtype_bits b)%nat then b else a
  | Signed, Unsigned =>
      if (dtype_bits b <? dtype_bits a)%nat then a else signed_of_bits (2 * dtype_bits b)
  | Unsigned, Signed =>
      if (dtype_bits a <? dtype_bits b)%nat then b else signed_of_bits (2 * dtype_bits a)
  | Floating, _ =>
      if (dtype_bits b <=? 16)%nat then a else float64
  | _, Floating =>
      if (dtype_bits a <=? 16)%nat then b else float64
  end.

(** NumPy's type numbers: a type knows how to promote itself with the
    types of a smaller number. *)
Definition type_num (d : dtype) : nat :=
  match d with
  | int8 => 1 | uint8 => 2 | int16 => 3 | uint16 => 4 | int32 => 5 | uint32 => 6
  | int64 => 7 | float32 => 11 | float64 => 12
  end.

(** The type of the largest type number. *)
Definition main_dtype (d : dtype) (ds : list dtype) : dtype :=
  foldl (fun m x => if (type_num m <? type_num x)%nat then x else m) d ds.

(** [numpy.result_type] of a non-empty sequence of arrays: every type is
    promoted with the main one, and these promotions with each other.  The
    result does not depend on the order of the arrays, as a fold of
    [promote_types] would: (int16, uint16, float32) gives float32, not
    float64 by way of int32. *)
Definition result_type (d : dtype) (ds : list dtype) : dtype :=
  let main := main_dtype d ds in
  foldl promote_types main (promote_types main <$> d :: ds).

(** A one-dimensional array of shape [(n,)] or a two-dimensional one of
    shape [(n, ncols)], stored by rows. *)
Inductive ndarray :=
  | Arr1 (dt : dtype) (xs : list num)
  | Arr2 (dt : dtype) (ncols : nat) (rows : list (list num)).

Definition nd_dtype (a : ndarray) : dtype :=
  match a with Arr1 dt _ | Arr2 dt _ _ => dt end.

(** [len(a)] *)
Definition len (a : ndarray) : nat :=
  match a with Arr1 _ xs => length xs | Arr2 _ _ rows => length rows end.

(** All the elements, in row-major order. *)
Definition ravel (a : ndarray) : list num :=
  match a with Arr1 _ xs => xs | Arr2 _ _ rows => concat rows end.


(** [numpy.array(rows)] for a Python list of three-element lists of
    floats: the empty list gives shape [(0,)]. *)
Definition array (rows : list (list num)) : ndarray :=
  match rows with
  | [] => Arr1 float64 []
  | _ => Arr2 float64 3 rows
  end.

(** The rows of [column_stack]: one element of each column per row. *)
Fixpoint zip_columns (n : nat) (cols : list (list num)) : list (list num) :=
  match n with
  | O => []
  | S n' => omap head cols :: zip_columns n' (tail <$> cols)
  end.

(** [numpy.column_stack([c1, ..., ck])] of one-dimensional arrays: they
    must have one length; the element type is the promoted one, and the
    conversion to it keeps every value (the promoted type has every value
    of the types it comes from). *)
Definition column_stack (cols : list ndarray) : result ndarray :=
  match cols with
  | [] => Raise (builtin ValueError)
  | Arr1 dt xs :: rest =>
      if forallb (fun c => match c with
                           | Arr1 _ ys => (length ys =? length xs)%nat
                           | Arr2 _ _ _ => false
                           end) rest
      then Ok (Arr2 (result_type dt (nd_dtype <$> rest)) (length cols)
                    (zip_columns (length xs) (ravel <$> cols)))
      else Raise (builtin ValueError)
  | Arr2 _ _ _ :: _ => Raise (builtin ValueError)
  end.

(** The rows of an array, a one-dimensional one having none. *)
Definition rows (a : ndarray) : list (list num) :=
  match a with Arr1 _ _ => [] | Arr2 _ _ rs => rs end.

Definition finite (x : num) : Prop :=
  match x with Fin _ => True | _ => False end.

(** A finite value in [[0.0, 1.0]]. *)
Definition in_unit (x : num) : Prop :=
  match x with
  | Fin q => (0 <= q <= 1)%Q
  | _ => False
  end.

(** [numpy.maximum] and [numpy.minimum] propagate NaN. *)
Definition maximum (x y : num) : num :=
  match x, y with
  | NaN, _ | _, NaN => NaN
  | _, _ => if num_ltb x y then y else x
  end.

Definition minimum (x y : num) : num :=
  match x, y with
  | NaN, _ | _, NaN => NaN
  | _, _ => if num_ltb y x then y else x
  end.

Definition reduce (f : num -> num -> num) (xs : list num) : result num :=
  match xs with
  | [] => Raise (builtin ValueError)
  | x :: xs' => Ok (foldl f x xs')
  end.

(** [a.max()], [a.min()]: ValueError on an empty array. *)
Definition max (a : ndarray) : result num := reduce maximum (ravel a).
Definition min (a : ndarray) : result num := reduce minimum (ravel a).

(** The eight partial sums of the unrolled loop of NumPy's pairwise
    summation: [r[j] += a[i + j]] for [blocks] blocks of eight elements. *)
Fixpoint unrolled_sums (add : num -> num -> num) (blocks : nat) (r xs : list num)
    : list num :=
  match blocks with
  | O => r
  | S blocks' => unrolled_sums add blocks' (zip_with add r (take 8 xs)) (drop 8 xs)
  end.

(** NumPy's pairwise summation of the elements of a one-dimensional array
    ([pairwise_sum] of its [add] loops): fewer than eight elements are added
    one after the other; up to 128 are added into eight partial sums, which
    are then added in pairs, and the elements left over after the last full
    block are added one after the other; a longer array is cut in two, the
    first part having the multiple of eight below its half.  [fuel] bounds
    the number of cuts. *)
Fixpoint pairwise_sum (add : num -> num -> num) (fuel : nat) (xs : list num) : num :=
  let n := length xs in
  if (n <? 8)%nat then foldl add (Fin 0) xs
  else if (n <=? 128)%nat then
    match unrolled_sums add (n / 8 - 1) (take 8 xs) (drop 8 xs) with
    | [r0; r1; r2; r3; r4; r5; r6; r7] =>
        foldl add (add (add (add r0 r1) (add r2 r3)) (add (add r4 r5) (add r6 r7)))
          (drop (8 * (n / 8)) xs)
    | _ => NaN
    end
  else
    match fuel with
    | O => NaN
    | S fuel' =>
        let n2 := (n / 2 - (n / 2) mod 8)%nat in
        add (pairwise_sum add fuel' (take n2 xs)) (pairwise_sum add fuel' (drop n2 xs))
    end.


(** [numpy.add.reduce] of a [float32] array: the pairwise sum, in binary32,
    added to the initial 0.  The array is taken to be summed by one call of
    the loop.  So it is when it has at most [bufsize] elements, and when the
    iterator needs no buffer for it; an array that is not aligned in memory,
    as a field of packed records can be, needs one and is summed [bufsize]
    elements at a time, which is not modelled. *)
Definition sum32 (xs : list num) : num :=
  add32 (Fin 0) (pairwise_sum add32 (length xs) xs).

(** The element type in which [mean] adds up: [float32] for a [float32]
    array, [float64] for a [float64] array and for an array of integers. *)
Definition mean_dtype (dt : dtype) : dtype :=
  match dt with
  | float32 => float32
  | _ => float64
  end.

(** [a.mean()] of a one-dimensional array: the sum over the count, both in
    the type of [mean_dtype]; NaN (with a warning) on an empty array. *)
Definition mean (a : ndarray) : num :=
  match ravel a with
  | [] => NaN
  | xs =>
      let n := inject_Z (Z.of_nat (length xs)) in
      match mean_dtype (nd_dtype a) with
      | float32 => f32 (num_div_pos (sum32 xs) n)
      | _ => num_div_pos (foldl num_add (Fin 0) xs) n
      end
  end.

(** The conversion of a value to a floating-point element type: to
    [float32] it rounds.  (The sources convert to [float32] only;
    conversions to integer types are not modelled.) *)
Definition cast (dt : dtype) (x : num) : num :=
  match dt with
  | float32 => f32 x
  | _ => x
  end.

(** [a.astype(dt)] for a floating-point type [dt]. *)
Definition astype (a : ndarray) (dt : dtype) : ndarray :=
  match a with
  | Arr1 _ xs => Arr1 dt (cast dt <$> xs)
  | Arr2 _ n rows => Arr2 dt n ((fun row : list num => cast dt <$> row) <$> rows)
  end.

(** [a / d] for a floating-point array [a] and a positive Python float [d]
    that is a binary32 number, as 255.0 is: the element type of [a] is
    kept, and the quotients of a [float32] array are binary32 numbers. *)
Definition divide (a : ndarray) (d : Q) : ndarray :=
  match a with
  | Arr1 dt xs => Arr1 dt ((fun x => cast dt (num_div_pos x d)) <$> xs)
  | Arr2 dt n rows =>
      Arr2 dt n ((fun row : list num => (fun x => cast dt (num_div_pos x d)) <$> row) <$> rows)
  end.

End Np.

(** ** The [plyfile] library and the file system

  [plyfile] is not part of the repository.  What it makes of a file's
  bytes, a [PlyData] or an exception, is a field of the file, next to what
  reading the file as text gives. *)

Module Ply.

Record PlyProperty := { prop_name : string; prop_dtype : Np.dtype }.

(** An element: its name, its number of records and one column of values
    per property, in the order of declaration. *)
Record PlyElement := {
  el_name : string;
  el_count : nat;
  el_data : list (PlyProperty * list num)
}.

Definition PlyData := list PlyElement.

(** [element.properties] *)
Definition properties (el : PlyElement) : list PlyProperty := fst <$> el_data el.

(** [plydata[name]]: KeyError when no element has this name. *)
Definition element (plydata : PlyData) (name : string) : result PlyElement :=
  match List.find (fun el => String.eqb (el_name el) name) plydata with
  | Some el => Ok el
  | None => Raise (builtin KeyError)
  end.

(** [element[name]]: the column of a property, ValueError when the
    records have no such field. *)
Definition field (el : PlyElement) (name : string) : result Np.ndarray :=
  match List.find (fun c => String.eqb (prop_name (fst c)) name) (el_data el) with
  | Some (p, xs) => Ok (Np.Arr1 (prop_dtype p) xs)
  | None => Raise (builtin ValueError)
  end.

(** The records of an element form one structured array: every property
    has one value per record. *)
Definition wf_element (el : PlyElement) : Prop :=
  Forall (fun c : PlyProperty * list num => length c.2 = el_count el) (el_data el).

Definition wf_data (plydata : PlyData) : Prop := Forall wf_element plydata.

Record file := {
  st_size : Z;
  text_lines : result (list string);
  ply_data : result PlyData
}.

(** What [plyfile] returns for the file, if anything, is well formed. *)
Definition wf_file (f : file) : Prop :=
  match ply_data f with
  | Ok plydata => wf_data plydata
  | Raise _ => True
  end.

Definition wf_fs (fs : gmap string file) : Prop := map_Forall (fun _ f => wf_file f) fs.

(** [open(path, 'r')] followed by [f.readlines()] *)
Definition readlines (fs : gmap string file) (path : string) : result (list string) :=
  match fs !! path with
  | Some f => text_lines f
  | None => Raise (builtin FileNotFoundError)
  end.

(** [PlyData.read(path)] *)
Definition PlyData_read (fs : gmap string file) (path : string) : result PlyData :=
  match fs !! path with
  | Some f => ply_data f
  | None => Raise (builtin FileNotFoundError)
  end.

(** [path.stat().st_size] *)
Definition stat_size (fs : gmap string file) (path : string) : result Z :=
  match fs !! path with
  | Some f => Ok (st_size f)
  | None => Raise (builtin FileNotFoundError)
  end.

End Ply.

(** ** render_full_video.py *)

Module RenderFullVideo.
Import Ply.

(** The header loop of [load_ply_file], from line [i] on: the values of
    [header_end], [vertex_count] and [has_colors] when it is left, by
    [break] or at the end of the lines. *)
Fixpoint scan_header (lines : list string) (i : nat)
    (vertex_count : Z) (has_colors : bool) : result (nat * Z * bool) :=
  match lines with
  | [] => Ok (0%nat, vertex_count, has_colors)
  | line :: rest =>
      let line := strip line in
      if startswith line "element vertex" then
        n ← match last (split line) with
            | Some tok => int tok
            | None => Raise (builtin IndexError)
            end;
        scan_header rest (S i) n has_colors
      else if startswith line "property uchar red" then
        scan_header rest (S i) vertex_count true
      else if String.eqb line "end_header" then
        Ok (S i, vertex_count, has_colors)
      else scan_header rest (S i) vertex_count has_colors
  end.

(** [parts[k]], read only where the record is long enough. *)
Definition field_at (parts : list string) (k : nat) : string :=
  default EmptyString (parts !! k).

(** One vertex record, already split: what is appended to [points] and to
    [colors]. *)
Definition parse_record (has_colors : bool) (parts : list string)
    : result (list (list num) * list (list num)) :=
  if (3 <=? length parts)%nat then
    x ← float (field_at parts 0);
    y ← float (field_at parts 1);
    z ← float (field_at parts 2);
    if has_colors && (6 <=? length parts)%nat then
      r ← int (field_at parts 3);
      g ← int (field_at parts 4);
      b ← int (field_at parts 5);
      cr ← int_truediv r 255;
      cg ← int_truediv g 255;
      cb ← int_truediv b 255;
      Ok ([[x; y; z]], [[cr; cg; cb]])
    else if has_colors then
      Ok ([[x; y; z]], [[Fin 1; Fin 1; Fin 1]])
    else Ok ([[x; y; z]], [])
  else Ok ([], []).

(** The vertex loop: [n] iterations are left of
    [range(header_end, header_end + vertex_count)], the next index is [i]. *)
Fixpoint parse_vertices (lines : list string) (has_colors : bool) (i n : nat)
    (points colors : list (list num)) : result (list (list num) * list (list num)) :=
  match n with
  | O => Ok (points, colors)
  | S n' =>
      match lines !! i with
      | None => Ok (points, colors)
      | Some line =>
          '(ps, cs) ← parse_record has_colors (split (strip line));
          parse_vertices lines has_colors (S i) n' (points ++ ps) (colors ++ cs)
      end
  end.

(** The records that the vertex loop visits: those of the [n] lines after
    the header, as far as the file has them. *)
Definition window (lines : list string) (header_end n : nat) : list (list string) :=
  (fun line => split (strip line)) <$> take n (drop header_end lines).

(** The records of the window that have coordinates. *)
Definition with_coordinates (records : list (list string)) : list (list string) :=
  filter (fun parts => 3 <= length parts)%nat records.

(** For comparison with [parse_vertices]: the records parsed one after the
    other. *)
Fixpoint parse_records (has_colors : bool) (records : list (list string))
    : result (list (list num) * list (list num)) :=
  match records with
  | [] => Ok ([], [])
  | parts :: rest =>
      '(ps, cs) ← parse_record has_colors parts;
      '(ps', cs') ← parse_records has_colors rest;
      Ok (ps ++ ps', cs ++ cs')
  end.

Definition is_Ok {A} (r : result A) : bool :=
  match r with Ok _ => true | Raise _ => false end.

(** A record whose fields, as far as the loop reads them, are numbers: the
    first three are accepted by [float] and, when colours are read, the next
    three by [int], with values that convert to a float. *)
Definition numeric_record (has_colors : bool) (parts : list string) : bool :=
  if (3 <=? length parts)%nat then
    is_Ok (float (field_at parts 0)) && is_Ok (float (field_at parts 1))
    && is_Ok (float (field_at parts 2))
    && (if has_colors && (6 <=? length parts)%nat then
          is_Ok (r ← int (field_at parts 3); int_truediv r 255)
          && is_Ok (g ← int (field_at parts 4); int_truediv g 255)
          && is_Ok (b ← int (field_at parts 5); int_truediv b 255)
        else true)
  else true.

(** The colour [[r/255.0, g/255.0, b/255.0]] of the raw channels. *)
Definition normalized (r g b : Z) : list num :=
  [Fin (Qred (inject_Z r / 255)); Fin (Qred (inject_Z g / 255)); Fin (Qred (inject_Z b / 255))].

Definition white : list num := [Fin 1; Fin 1; Fin 1].

(** [load_ply_file], once the lines have been read. *)
Definition load_lines (lines : list string) : result (Np.ndarray * option Np.ndarray) :=
  '(header_end, vertex_count, has_colors) ← scan_header lines 0 0 false;
  '(points, colors) ← parse_vertices lines has_colors header_end (Z.to_nat vertex_count) [] [];
  Ok (Np.array points,
      match colors with
      | [] => None
      | _ => Some (Np.array colors)
      end).

Definition load_ply_file (fs : gmap string file) (file_path : string)
    : result (Np.ndarray * option Np.ndarray) :=
  lines ← readlines fs file_path;
  load_lines lines.

End RenderFullVideo.

(** ** ply_processor.py *)

Module PLYProcessor.
Import Ply.

(** A call of [self.logger.error(f"<text>{file_path}: {e}")]. *)
Record log_record := LogError { log_text : string; log_path : string; log_exn : exn }.

Definition has_name (name : string) (property_names : list string) : bool :=
  bool_decide (name ∈ property_names).

(** The [try] block of [load_ply]. *)
Definition load_ply_try (fs : gmap string file) (file_path : string)
    : result (option Np.ndarray * option Np.ndarray) :=
  plydata ← PlyData_read fs file_path;
  vertices ← element plydata "vertex";
  x ← field vertices "x";
  y ← field vertices "y";
  z ← field vertices "z";
  points ← Np.column_stack [x; y; z];
  let property_names := prop_name <$> properties vertices in
  if has_name "red" property_names && has_name "green" property_names
     && has_name "blue" property_names then
    r ← field vertices "red";
    g ← field vertices "green";
    b ← field vertices "blue";
    colors ← Np.column_stack [r; g; b];
    m ← Np.max colors;
    if num_ltb (Fin 1) m
    then Ok (Some points, Some (Np.divide (Np.astype colors Np.float32) 255))
    else Ok (Some points, Some colors)
  else Ok (Some points, None).

(** [load_ply]: its result and what it logs. *)
Definition load_ply (fs : gmap string file) (file_path : string)
    : result (option Np.ndarray * option Np.ndarray) * list log_record :=
  match load_ply_try fs file_path with
  | Ok r => (Ok r, [])
  | Raise e => (Ok (None, None), [LogError "Error loading PLY file " file_path e])
  end.

Record bounds := {
  min_x : num; max_x : num;
  min_y : num; max_y : num;
  min_z : num; max_z : num;
  center_x : num; center_y : num; center_z : num
}.

Record info := {
  file_path_ : string;
  file_size : Z;
  point_count : nat;
  has_colors : bool;
  has_alpha : bool;
  properties_ : list string;
  bounds_ : option bounds
}.

(** The [bounds] dictionary of three coordinate arrays. *)
Definition bounds_of (x_coords y_coords z_coords : Np.ndarray) : result bounds :=
  x0 ← Np.min x_coords;
  x1 ← Np.max x_coords;
  y0 ← Np.min y_coords;
  y1 ← Np.max y_coords;
  z0 ← Np.min z_coords;
  z1 ← Np.max z_coords;
  Ok {| min_x := x0; max_x := x1; min_y := y0; max_y := y1; min_z := z0; max_z := z1;
        center_x := Np.mean x_coords; center_y := Np.mean y_coords;
        center_z := Np.mean z_coords |}.

(** The [try] block of [get_ply_info]. *)
Definition get_ply_info_try (fs : gmap string file) (file_path : string) : result info :=
  plydata ← PlyData_read fs file_path;
  vertices ← element plydata "vertex";
  let property_names := prop_name <$> properties vertices in
  x_coords ← field vertices "x";
  y_coords ← field vertices "y";
  z_coords ← field vertices "z";
  b ← bounds_of x_coords y_coords z_coords;
  size ← stat_size fs file_path;
  Ok {| file_path_ := file_path;
        file_size := size;
        point_count := el_count vertices;
        has_colors := has_name "red" property_names && has_name "green" property_names
                      && has_name "blue" property_names;
        has_alpha := has_name "alpha" property_names;
        properties_ := property_names;
        bounds_ := Some b |}.

(** The dictionary of the [except] branch; [None] stands for the empty
    [bounds] dictionary. *)
Definition empty_info (file_path : string) : info :=
  {| file_path_ := file_path; file_size := 0; point_count := 0;
     has_colors := false; has_alpha := false; properties_ := [];
     bounds_ := None |}.

Definition get_ply_info (fs : gmap string file) (file_path : string)
    : result info * list log_record :=
  match get_ply_info_try fs file_path with
  | Ok i => (Ok i, [])
  | Raise e => (Ok (empty_info file_path), [LogError "Error getting PLY info for " file_path e])
  end.

(** What the file holds, for comparison with what is returned: the
    coordinate columns of its vertices, and their stacked raw colour
    channels. *)
Definition vertex_columns (fs : gmap string file) (file_path : string)
    : result (Np.ndarray * Np.ndarray * Np.ndarray) :=
  plydata ← PlyData_read fs file_path;
  vertices ← element plydata "vertex";
  x ← field vertices "x";
  y ← field vertices "y";
  z ← field vertices "z";
  Ok (x, y, z).

Definition raw_colors (fs : gmap string file) (file_path : string) : result Np.ndarray :=
  plydata ← PlyData_read fs file_path;
  vertices ← element plydata "vertex";
  r ← field vertices "red";
  g ← field vertices "green";
  b ← field vertices "blue";
  Np.column_stack [r; g; b].




End PLYProcessor.

(** ** camera_trajectory.py *)

Module CameraTrajectory.

(** The Python values that trajectory parameters hold. *)
#[warnings="-register-all"] Inductive pyval :=
  | VNone
  | VBool (b : bool)
  | VInt (z : Z)
  | VFloat (x : num)
  | VStr (s : string)
  | VTuple (items : list pyval)
  | VList (items : list pyval)
  | VDict (items : list (string * pyval)).

(** Truth value of an object, as [or] tests it. *)
Definition truthy (v : pyval) : bool :=
  match v with
  | VNone => false
  | VBool b => b
  | VInt z => negb (z =? 0)%Z
  | VFloat (Fin q) => negb (Qeq_bool q 0)
  | VFloat _ => true
  | VStr s => negb (String.eqb s EmptyString)
  | VTuple items | VList items => negb (bool_decide (length items = 0%nat))
  | VDict items => negb (bool_decide (length items = 0%nat))
  end.

(** [a or b] *)
Definition py_or (a b : pyval) : pyval := if truthy a then a else b.

(** The binary64 value of [2 * math.pi]. *)
Definition two_pi : num := Fin (884279719003555 # 140737488355328).

(** The object's attributes ([logger] left out). *)
Record t := {
  trajectory_type : option string;
  trajectory_params : gmap string pyval
}.

(** [__init__] *)
Definition init : t := {| trajectory_type := None; trajectory_params := ∅ |}.

(** The value bound to a keyword parameter: the keyword argument of this
    name when there is one, the default otherwise.  Keyword arguments
    with other names go to the callee's own [**kwargs] and are dropped. *)
Definition kwarg (kwargs : gmap string pyval) (name : string) (dflt : pyval) : pyval :=
  default dflt (kwargs !! name).

(** [d.update({k1: v1, ...})] *)
Definition update (d : gmap string pyval) (items : list (string * pyval)) : gmap string pyval :=
  foldl (fun d kv => <[kv.1 := kv.2]> d) d items.

Definition linear_items (kwargs : gmap string pyval) : list (string * pyval) :=
  [("start_pos", kwarg kwargs "start_pos" (VTuple [VInt 0; VInt 0; VInt 5]));
   ("end_pos", kwarg kwargs "end_pos" (VTuple [VInt 5; VInt 0; VInt 5]));
   ("look_at", kwarg kwargs "look_at" VNone);
   ("fixed_rotation", kwarg kwargs "fixed_rotation" VNone)]%string.

Definition circular_items (kwargs : gmap string pyval) : list (string * pyval) :=
  let center := kwarg kwargs "center" (VTuple [VInt 0; VInt 0; VInt 0]) in
  [("center", center);
   ("radius", kwarg kwargs "radius" (VFloat (Fin 5)));
   ("height", kwarg kwargs "height" (VFloat (Fin 2)));
   ("start_angle", kwarg kwargs "start_angle" (VFloat (Fin 0)));
   ("end_angle", kwarg kwargs "end_angle" (VFloat two_pi));
   ("look_at", py_or (kwarg kwargs "look_at" VNone) center)]%string.

Definition custom_items (kwargs : gmap string pyval) : list (string * pyval) :=
  let keyframes := kwarg kwargs "keyframes" VNone in
  [("keyframes", match keyframes with VNone => VList [] | v => v end)]%string.

Definition _setup_linear_trajectory (self : t) (kwargs : gmap string pyval) : t :=
  {| trajectory_type := trajectory_type self;
     trajectory_params := update (trajectory_params self) (linear_items kwargs) |}.

Definition _setup_circular_trajectory (self : t) (kwargs : gmap string pyval) : t :=
  {| trajectory_type := trajectory_type self;
     trajectory_params := update (trajectory_params self) (circular_items kwargs) |}.

Definition _setup_custom_trajectory (self : t) (kwargs : gmap string pyval) : t :=
  {| trajectory_type := trajectory_type self;
     trajectory_params := update (trajectory_params self) (custom_items kwargs) |}.

(** [set_trajectory]: the object afterwards, and whether the call
    returned or raised.  ([kwargs] has no key ['self'] or
    ['trajectory_type']: Python binds these to the parameters.) *)
Definition set_trajectory (self : t) (trajectory_type : string)
    (kwargs : gmap string pyval) : t * result unit :=
  let self := {| trajectory_type := Some trajectory_type;
                 trajectory_params := trajectory_params self |} in
  if String.eqb trajectory_type "linear" then
    (_setup_linear_trajectory self kwargs, Ok tt)
  else if String.eqb trajectory_type "circular" then
    (_setup_circular_trajectory self kwargs, Ok tt)
  else if String.eqb trajectory_type "custom" then
    (_setup_custom_trajectory self kwargs, Ok tt)
  else
    (self, Raise (Exn ValueError (Some ("Unknown trajectory type: " ++ trajectory_type)%string))).

Record trajectory_info := {
  info_type : option string;
  info_parameters : gmap string pyval
}.

Definition get_info (self : t) : trajectory_info :=
  {| info_type := trajectory_type self; info_parameters := trajectory_params self |}.

(** A caller that makes the calls one after the other and goes on after
    a call that raised. *)
Definition run (self : t) (calls : list (string * gmap string pyval)) : t :=
  foldl (fun self call => (set_trajectory self call.1 call.2).1) self calls.

(** What the setup of each variant writes, nothing for another name. *)
Definition variant_items (trajectory_type : string) (kwargs : gmap string pyval)
    : list (string * pyval) :=
  if String.eqb trajectory_type "linear" then linear_items kwargs
  else if String.eqb trajectory_type "circular" then circular_items kwargs
  else if String.eqb trajectory_type "custom" then custom_items kwargs
  else [].

(** The keys that each variant's setup writes. *)
Definition variant_keys (trajectory_type : string) : gset string :=
  if String.eqb trajectory_type "linear" then
    {["start_pos"; "end_pos"; "look_at"; "fixed_rotation"]}%string
  else if String.eqb trajectory_type "circular" then
    {["center"; "radius"; "height"; "start_angle"; "end_angle"; "look_at"]}%string
  else if String.eqb trajectory_type "custom" then
    {["keyframes"]}%string
  else ∅.

(** *** Rotation matrices, over the real numbers *)

Definition matrix := list (list R).

Definition dot (u v : list R) : R := foldr Rplus 0%R (zip_with Rmult u v).

(** The columns of a matrix of [n] columns. *)
Fixpoint columns (n : nat) (B : matrix) : list (list R) :=
  match n with
  | O => []
  | S n' => omap head B :: columns n' (tail <$> B)
  end.

(** [A @ B] *)
Definition matmul (A B : matrix) : matrix :=
  let cols := columns (length (default [] (head B))) B in
  (fun row => (fun col => dot row col) <$> cols) <$> A.

(** [A @ v] for a vector [v] *)
Definition matvec (A : matrix) (v : list R) : list R := (fun row => dot row v) <$> A.

Definition euler_to_rotation_matrix (euler_angles : R * R * R) : matrix :=
  let '(pitch, yaw, roll) := euler_angles in
  let Rx := [[1; 0; 0];
             [0; cos pitch; - sin pitch];
             [0; sin pitch; cos pitch]]%R in
  let Ry := [[cos yaw; 0; sin yaw];
             [0; 1; 0];
             [- sin yaw; 0; cos yaw]]%R in
  let Rz := [[cos roll; - sin roll; 0];
             [sin roll; cos roll; 0];
             [0; 0; 1]]%R in
  matmul (matmul Rz Ry) Rx.

(** *** The standard rotations, for comparison

    The right-handed rotation by [theta] about a unit axis [(ux, uy, uz)]
    (Rodrigues' formula): [cos theta I + sin theta [u]x + (1 - cos theta) u u^T]. *)
Definition axis_rotation (u : R * R * R) (theta : R) : matrix :=
  let '(ux, uy, uz) := u in
  let c := cos theta in
  let s := sin theta in
  [[c + (1 - c) * ux * ux; (1 - c) * ux * uy - s * uz; (1 - c) * ux * uz + s * uy];
   [(1 - c) * uy * ux + s * uz; c + (1 - c) * uy * uy; (1 - c) * uy * uz - s * ux];
   [(1 - c) * uz * ux - s * uy; (1 - c) * uz * uy + s * ux; c + (1 - c) * uz * uz]]%R.

Definition Rx_std (theta : R) : matrix := axis_rotation (1, 0, 0)%R theta.
Definition Ry_std (theta : R) : matrix := axis_rotation (0, 1, 0)%R theta.
Definition Rz_std (theta : R) : matrix := axis_rotation (0, 0, 1)%R theta.

End CameraTrajectory.

(** ** The trajectory evaluator of the specification *)

Module Evaluator.

(** Modelled from the spec: the error of the trajectory evaluator
    (section 7). *)
Inductive error := InvalidTrajectoryError.

(** Modelled from the spec: a point or a triple of angles. *)
Definition vec3 := (R * R * R)%type.

(** Modelled from the spec: a keyframe of a custom trajectory (section 3). *)
Record Keyframe := { kf_time : R; kf_position : vec3; kf_rotation : vec3 }.

(** Modelled from the spec: the tagged variant of trajectories (section 3). *)
Inductive TrajectorySpec :=
  | Linear (start_pos end_pos : vec3) (look_at fixed_rotation : option vec3)
  | Circular (center : vec3) (radius height start_angle end_angle : R) (look_at : option vec3)
  | Custom (keyframes : list Keyframe).

(** Modelled from the spec: a position and a rotation (pitch, yaw, roll)
    (section 3). *)
Record CameraPose := { position : vec3; rotation : vec3 }.

(** Modelled from the spec: linear interpolation [a + f (b - a)],
    component by component (section 4.2). *)
Definition lerp (a b : vec3) (f : R) : vec3 :=
  let '(ax, ay, az) := a in
  let '(bx, b_y, bz) := b in
  (ax + f * (bx - ax), ay + f * (b_y - ay), az + f * (bz - az))%R.

(** Modelled from the spec: the two-argument arctangent of the look-at
    rule. *)
Definition atan2 (y x : R) : R :=
  if Rlt_dec 0 x then atan (y / x)
  else if Rlt_dec x 0 then
    (if Rle_dec 0 y then atan (y / x) + PI else atan (y / x) - PI)%R
  else if Rlt_dec 0 y then (PI / 2)%R
  else if Rlt_dec y 0 then (- PI / 2)%R
  else 0%R.

(** Modelled from the spec: the look-at rule, (pitch, yaw, roll) of a
    camera at [P] looking at [T] (section 4.2). *)
Definition look_at_rotation (P T : vec3) : vec3 :=
  let '(px, py, pz) := P in
  let '(tx, ty, tz) := T in
  let yaw := atan2 (ty - py) (tx - px) in
  let pitch := atan2 (tz - pz) (sqrt ((tx - px) * (tx - px) + (ty - py) * (ty - py))) in
  (pitch, yaw, 0%R).

(** Modelled from the spec: keyframes in ascending order of time. *)
Fixpoint insert_keyframe (k : Keyframe) (ks : list Keyframe) : list Keyframe :=
  match ks with
  | [] => [k]
  | k' :: ks' =>
      if Rlt_dec (kf_time k) (kf_time k') then k :: ks
      else k' :: insert_keyframe k ks'
  end.

(** Modelled from the spec: insertion sort of the keyframes by time. *)
Definition sort_keyframes (ks : list Keyframe) : list Keyframe :=
  foldr insert_keyframe [] ks.

(** Modelled from the spec: the pose of a keyframe. *)
Definition pose_of (k : Keyframe) : CameraPose :=
  {| position := kf_position k; rotation := kf_rotation k |}.

(** Modelled from the spec: the pose at [progress] after keyframe [k1],
    the sorted keyframes that follow being [ks]: interpolated inside the
    first bracketing pair, the last keyframe's pose beyond the last one. *)
Fixpoint between (k1 : Keyframe) (ks : list Keyframe) (progress : R) : CameraPose :=
  match ks with
  | [] => pose_of k1
  | k2 :: ks' =>
      if Rle_dec progress (kf_time k2) then
        let f := ((progress - kf_time k1) / (kf_time k2 - kf_time k1))%R in
        {| position := lerp (kf_position k1) (kf_position k2) f;
           rotation := lerp (kf_rotation k1) (kf_rotation k2) f |}
      else between k2 ks' progress
  end.

(** Modelled from the spec: a custom trajectory; no keyframe is a
    configuration error, below the first keyframe its pose is returned. *)
Definition evaluate_custom (keyframes : list Keyframe) (progress : R) : error + CameraPose :=
  match sort_keyframes keyframes with
  | [] => inl InvalidTrajectoryError
  | k1 :: ks =>
      if Rle_dec progress (kf_time k1) then inr (pose_of k1)
      else inr (between k1 ks progress)
  end.

(** Modelled from the spec: the evaluator's state, the trajectory that was
    set, if any. *)
Definition state := option TrajectorySpec.

(** Modelled from the spec: the [set] operation (section 4.2). *)
Definition set (_ : state) (spec : TrajectorySpec) : state := Some spec.

(** Modelled from the spec: the [evaluate] operation of the trajectory
    evaluator (section 4.2).  The class [CameraTrajectory] of the sources
    only stores the parameters; what computes a pose from them is in
    [blender_script_generator.py], which is not among the sources.  The
    height of a circular trajectory is the third axis; on a linear
    trajectory with both a look-at target and a fixed rotation the
    look-at target wins, and one with neither is a configuration error. *)
Definition evaluate (st : state) (progress : R) : error + CameraPose :=
  match st with
  | None => inl InvalidTrajectoryError
  | Some spec =>
      if Rlt_dec progress 0 then inl InvalidTrajectoryError
      else if Rlt_dec 1 progress then inl InvalidTrajectoryError
      else
        match spec with
        | Linear start_pos end_pos look_at fixed_rotation =>
            let p := lerp start_pos end_pos progress in
            match look_at, fixed_rotation with
            | Some target, _ => inr {| position := p; rotation := look_at_rotation p target |}
            | None, Some rot => inr {| position := p; rotation := rot |}
            | None, None => inl InvalidTrajectoryError
            end
        | Circular center radius height start_angle end_angle look_at =>
            let angle := (start_angle + progress * (end_angle - start_angle))%R in
            let '(cx, cy, cz) := center in
            let p := (cx + radius * cos angle, cy + radius * sin angle, cz + height)%R in
            inr {| position := p; rotation := look_at_rotation p (default center look_at) |}
        | Custom keyframes => evaluate_custom keyframes progress
        end
  end.

End Evaluator.

(** ** render_full_video.py: the spheres and the frame loop

    Blender's own operations (scene, camera, lights, materials, the render
    call) are taken to succeed and are left out; what is kept of a frame is
    what the script hands to Blender: the output path and, for every sphere,
    the name, the location and the base colour it assigns. *)

Module RenderFrames.
Import Ply RenderFullVideo.

Definition OUTPUT_DIR : string := "output/full_video_working/".
Definition STEP : nat := 10.

Fixpoint zeros (k : nat) : string :=
  match k with
  | O => EmptyString
  | S k' => String "0" (zeros k')
  end.

(** [f"{n:04d}"] for a natural number: its decimal digits, with zeros in
    front up to four characters. *)
Definition format_04d (n : nat) : string :=
  (zeros (4 - String.length (pretty n)) +:+ pretty n)%string.

Record sphere := {
  sphere_name : string;
  sphere_location : list num;
  sphere_base_color : option (list num)
}.

(** The value given to the ['Base Color'] input for the row [color] of the
    colour array: the row, divided by 255 when its largest component is
    above 1, followed by the alpha 1.0. *)
Definition base_color (color : list num) : result (list num) :=
  m ← Np.reduce Np.maximum color;
  Ok ((if num_ltb (Fin 1) m then (fun x => num_div_pos x 255) <$> color else color)
      ++ [Fin 1]).

(** The loop of [create_sphere_objects], from index [i] on.  [points] and
    [colors] are the rows of two-dimensional arrays, as [load_ply_file]
    returns them. *)
Fixpoint create_spheres (points : list (list num)) (colors : option (list (list num)))
    (i : nat) : result (list sphere) :=
  match points with
  | [] => Ok []
  | point :: rest =>
      c ← match colors with
          | Some cs =>
              match cs !! i with
              | Some color => col ← base_color color; Ok (Some col)
              | None => Ok None
              end
          | None => Ok None
          end;
      spheres ← create_spheres rest colors (S i);
      Ok ({| sphere_name := "Sphere_" +:+ format_04d i;
             sphere_location := point;
             sphere_base_color := c |} :: spheres)
  end.

Definition create_sphere_objects (points : list (list num))
    (colors : option (list (list num))) : result (list sphere) :=
  create_spheres points colors 0.

(** A frame handed to the renderer. *)
Record frame := {
  frame_number : nat;
  frame_file : string;
  frame_filepath : string;
  frame_spheres : list sphere
}.

(** The frame loop of [main] over [enumerate(ply_files)], from index [i]
    on: the frames rendered, in order, and how the loop ended.  An exception
    ends it; the frames rendered before stay rendered. *)
Fixpoint render_loop (fs : gmap string file) (ply_files : list string) (i : nat)
    : list frame * result unit :=
  match ply_files with
  | [] => ([], Ok tt)
  | ply_file :: rest =>
      if negb (i mod STEP =? 0)%nat then render_loop fs rest (S i)
      else
        let frame_number := (i + 1)%nat in
        match load_ply_file fs ply_file with
        | Raise e => ([], Raise e)
        | Ok (points, colors) =>
            if (Np.len points =? 0)%nat then render_loop fs rest (S i)
            else
              match create_sphere_objects (Np.rows points) (Np.rows <$> colors) with
              | Raise e => ([], Raise e)
              | Ok spheres =>
                  let '(frames, r) := render_loop fs rest (S i) in
                  ({| frame_number := frame_number;
                      frame_file := ply_file;
                      frame_filepath := OUTPUT_DIR +:+ "frame_" +:+ format_04d frame_number;
                      frame_spheres := spheres |} :: frames, r)
              end
        end
  end.

(** What a frame of the loop started at index [i] is, for the statements
    about the loop: the frame of a file at an index that [STEP] divides,
    from which points were loaded. *)
Definition frame_ok (fs : gmap string file) (ply_files : list string) (i : nat)
    (fr : frame) : Prop :=
  exists j, frame_number fr = (i + j + 1)%nat /\ ((i + j) mod STEP = 0)%nat /\
       ply_files !! j = Some (frame_file fr) /\
       frame_filepath fr = (OUTPUT_DIR +:+ "frame_" +:+ format_04d (frame_number fr))%string /\
       exists points colors, load_ply_file fs (frame_file fr) = Ok (points, colors) /\
                        (0 < Np.len points)%nat.

(** [main], for the sorted list of the PLY files of the input directory. *)
Definition main (fs : gmap string file) (ply_files : list string)
    : list frame * result unit :=
  render_loop fs ply_files 0.

End RenderFrames.

(** ** point_cloud_renderer.py

    The renderer works on a host: which paths exist, which programs are on
    the search path, the files, what creating a directory, writing the
    script ([blender_script_generator.py] is not among the sources) and
    running a command give.  [__init__], which configures logging, is left
    out; the methods are modelled on the object's fields. *)

Module PointCloudRenderer.
Import Ply.

(** The exceptions that the renderer raises itself, with their messages,
    and those it lets through. *)
Inductive error :=
  | FileNotFound (message : string)
  | Runtime (message : string)
  | Propagated (e : exn).

(** A log record of the renderer's logger; [LogErrorExn text e] is
    [logger.error(f"<text>{e}")]; [PlyLog] is a record of the processor's
    logger. *)
Inductive log_record :=
  | LogInfo (message : string)
  | LogErrorMsg (message : string)
  | LogErrorExn (text : string) (e : error)
  | PlyLog (r : PLYProcessor.log_record).

Record host := {
  path_exists : string -> bool;
  which : string -> bool;
  files : gmap string file;
  mkdir : string -> result unit;
  generate_script : string -> result unit;
  subprocess_run : list string -> string -> result (Z * string)
}.

Definition common_paths : list string :=
  ["blender";
   "/Applications/Blender.app/Contents/MacOS/Blender";
   "/usr/bin/blender";
   "/usr/local/bin/blender";
   "C:\Program Files\Blender Foundation\Blender 4.0\blender.exe";
   "C:\Program Files\Blender Foundation\Blender 3.6\blender.exe"]%string.

(** The loop over the common locations. *)
Fixpoint search_paths (h : host) (paths : list string) : option string :=
  match paths with
  | [] => None
  | path :: rest =>
      if which h path || path_exists h path then Some path
      else search_paths h rest
  end.

(** [_find_blender]; an empty string counts as no path given. *)
Definition _find_blender (h : host) (blender_executable : option string)
    : (error + string) * list log_record :=
  match blender_executable with
  | Some exe =>
      if negb (String.eqb exe EmptyString) then
        if path_exists h exe then (inr exe, [])
        else (inl (FileNotFound ("Blender executable not found: " +:+ exe)), [])
      else
        match search_paths h common_paths with
        | Some path => (inr path, [LogInfo ("Found Blender executable: " +:+ path)])
        | None =>
            (inl (FileNotFound
               "Blender executable not found. Please install Blender or specify the path."), [])
        end
  | None =>
      match search_paths h common_paths with
      | Some path => (inr path, [LogInfo ("Found Blender executable: " +:+ path)])
      | None =>
          (inl (FileNotFound
             "Blender executable not found. Please install Blender or specify the path."), [])
      end
  end.

(** The fields of the object that the methods use. *)
Record t := {
  input_dir : string;
  output_dir : string;
  camera_trajectory : CameraTrajectory.t;
  blender_executable : string
}.

(** An element of the list that [load_point_cloud_sequence] returns. *)
Record point_cloud := {
  pc_frame_number : nat;
  pc_file_path : string;
  pc_data : PLYProcessor.info
}.

(** The loop of [load_point_cloud_sequence] over [enumerate(ply_files)],
    from index [i] on: what is appended and what is logged. *)
Fixpoint load_loop (fs : gmap string file) (ply_files : list string) (i : nat)
    : list point_cloud * list log_record :=
  match ply_files with
  | [] => ([], [])
  | ply_file :: rest =>
      let '(r, ply_logs) := PLYProcessor.get_ply_info fs ply_file in
      let '(point_clouds, logs) := load_loop fs rest (S i) in
      match r with
      | Ok info =>
          ({| pc_frame_number := i + 1; pc_file_path := ply_file; pc_data := info |}
             :: point_clouds,
           (PlyLog <$> ply_logs) ++ logs)
      | Raise e =>
          (point_clouds,
           (PlyLog <$> ply_logs)
           ++ LogErrorExn ("Error loading " +:+ ply_file +:+ ": ") (Propagated e) :: logs)
      end
  end.

(** [load_point_cloud_sequence]; [ply_files] is
    [sorted(self.input_dir.glob("*.ply"))]. *)
Definition load_point_cloud_sequence (h : host) (self : t) (ply_files : list string)
    : (error + list point_cloud) * list log_record :=
  let first := LogInfo ("Loading point cloud files from " +:+ input_dir self +:+ "...") in
  match ply_files with
  | [] => (inl (FileNotFound ("No PLY files found in " +:+ input_dir self)), [first])
  | _ =>
      let '(point_clouds, logs) := load_loop (files h) ply_files 0 in
      (inr point_clouds,
       [first; LogInfo ("Found " +:+ pretty (length ply_files) +:+ " PLY files")]
       ++ logs
       ++ [LogInfo ("Successfully loaded " +:+ pretty (length point_clouds)
                    +:+ " point clouds")])
  end.

(** [set_camera_trajectory] *)
Definition set_camera_trajectory (self : t) (trajectory_type : string)
    (kwargs : gmap string CameraTrajectory.pyval) : t * (error + unit) * list log_record :=
  let '(traj, r) := CameraTrajectory.set_trajectory (camera_trajectory self)
                      trajectory_type kwargs in
  let self := {| input_dir := input_dir self; output_dir := output_dir self;
                 camera_trajectory := traj;
                 blender_executable := blender_executable self |} in
  match r with
  | Ok _ => (self, inr tt, [LogInfo ("Camera trajectory set to: " +:+ trajectory_type)])
  | Raise e => (self, inl (Propagated e), [])
  end.

(** [str(self.output_dir / name)], [output_dir] being the string of a path:
    ["."] for the current directory, no slash at the end but for the
    root. *)
Definition joinpath (dir name : string) : string :=
  if String.eqb dir "." then name
  else if String.eqb dir "/" then ("/" +:+ name)%string
  else (dir +:+ "/" +:+ name)%string.

(** What the renderer does to the outside, in the order it attempts it. *)
Inductive effect :=
  | Mkdir (dir : string)
  | GenerateScript (point_clouds : list point_cloud) (trajectory : CameraTrajectory.t)
      (default_settings : bool) (script_path : string)
  | Run (command : list string) (cwd : string).

Definition blender_cmd (self : t) (background : bool) (script_path : string) : list string :=
  [blender_executable self] ++ (if background then ["--background"%string] else [])
  ++ ["--python"; script_path; "--"]%string.

(** The part of [render_sequence] that starts with the creation of the
    output directory.  [default_settings] tells whether the settings are
    those of [get_default_render_settings]. *)
Definition render_loaded (h : host) (self : t) (point_clouds : list point_cloud)
    (default_settings background : bool)
    : (error + string) * list effect * list log_record :=
  match mkdir h (output_dir self) with
  | Raise e => (inl (Propagated e), [Mkdir (output_dir self)], [])
  | Ok _ =>
      let script_path := joinpath (output_dir self) "render_script.py" in
      let generate := GenerateScript point_clouds (camera_trajectory self)
                        default_settings script_path in
      match generate_script h script_path with
      | Raise e => (inl (Propagated e), [Mkdir (output_dir self); generate], [])
      | Ok _ =>
          let cmd := blender_cmd self background script_path in
          let effects := [Mkdir (output_dir self); generate; Run cmd (output_dir self)] in
          let start := LogInfo "Starting Blender rendering..." in
          match subprocess_run h cmd (output_dir self) with
          | Raise e =>
              (inl (Propagated e), effects,
               [start; LogErrorExn "Error running Blender: " (Propagated e)])
          | Ok (returncode, stderr) =>
              if (returncode =? 0)%Z then
                (inr (output_dir self), effects,
                 [start; LogInfo "Blender rendering completed successfully!"])
              else
                let message := ("Blender rendering failed: " +:+ stderr)%string in
                (inl (Runtime message), effects,
                 [start; LogErrorMsg message;
                  LogErrorExn "Error running Blender: " (Runtime message)])
          end
      end
  end.

(** [render_sequence]; [point_clouds] is [None] when they are to be loaded,
    [ply_files] is the sorted list of the PLY files of the input
    directory. *)
Definition render_sequence (h : host) (self : t) (ply_files : list string)
    (point_clouds : option (list point_cloud)) (default_settings background : bool)
    : (error + string) * list effect * list log_record :=
  match point_clouds with
  | Some pcs => render_loaded h self pcs default_settings background
  | None =>
      match load_point_cloud_sequence h self ply_files with
      | (inl e, logs) => (inl e, [], logs)
      | (inr pcs, logs) =>
          let '(r, effects, logs') := render_loaded h self pcs default_settings background in
          (r, effects, logs ++ logs')
      end
  end.

End PointCloudRenderer.

(** ** Three by three matrices, for the statements about rotations *)

Module Matrix3.
Import CameraTrajectory.

Definition identity : matrix := [[1; 0; 0]; [0; 1; 0]; [0; 0; 1]]%R.

(** [A.T] *)
Definition transpose (A : matrix) : matrix :=
  columns (length (default [] (head A))) A.

(** The determinant of a matrix of three rows of three entries. *)
Definition det (A : matrix) : R :=
  match A with
  | [[a; b; c]; [d; e; f]; [g; h; i]] =>
      (a * (e * i - f * h) - b * (d * i - f * g) + c * (d * h - e * g))%R
  | _ => 0%R
  end.

End Matrix3.

(** ** Sample inputs *)

Module Samples.
Import CameraTrajectory.

(** A linear trajectory, then a circular one, both with the defaults. *)
Definition linear_then_circular : list (string * gmap string pyval) :=
  [("linear", ∅); ("circular", ∅)]%string.

Definition circular_only : list (string * gmap string pyval) :=
  [("circular", ∅)]%string.

(** Text files, as [readlines] gives them: every line ends with a newline. *)
Definition text (ls : list string) : list string :=
  (fun l => l ++ String (ascii_of_nat 10) EmptyString)%string <$> ls.

Definition header (vertex_count : string) (colors : bool) : list string :=
  ["ply"; "format ascii 1.0"; ("element vertex " ++ vertex_count);
   "property float x"; "property float y"; "property float z"]%string
  ++ (if colors then ["property uchar red"; "property uchar green"; "property uchar blue"]
      else [])%string
  ++ ["end_header"]%string.

(** Five vertices declared, four records present, one of them with two
    fields only. *)
Definition truncated_lines : list string :=
  text (header "5" false ++ ["0 0 0"; "1 0.5 0"; "0 1"; "2 2 2"]%string).

Definition colored_lines : list string :=
  text (header "2" true ++ ["0 0 0 255 0 51"; "1 0.5 2 0 128 1"]%string).

(** Colours declared; the second record has no colour fields. *)
Definition partly_colored_lines : list string :=
  text (header "2" true ++ ["0 0 0 255 0 51"; "1 0.5 2"]%string).

(** All the colour channels are 0 or 1. *)
Definition binary_colored_lines : list string :=
  text (header "2" true ++ ["0 0 0 1 0 0"; "1 0.5 2 0 1 0"]%string).

Definition bad_coordinate_lines : list string :=
  text (header "1" false ++ ["0 zero 0"]%string).

Definition prop (name : string) (dt : Np.dtype) : Ply.PlyProperty :=
  {| Ply.prop_name := name; Ply.prop_dtype := dt |}.

(** What [plyfile] reads from [colored_lines] and from
    [binary_colored_lines]. *)
Definition colored_vertices : Ply.PlyElement :=
  {| Ply.el_name := "vertex"; Ply.el_count := 2;
     Ply.el_data :=
       [(prop "x" Np.float32, [Fin 0; Fin 1]); (prop "y" Np.float32, [Fin 0; Fin (1 # 2)]);
        (prop "z" Np.float32, [Fin 0; Fin 2]);
        (prop "red" Np.uint8, [Fin 255; Fin 0]); (prop "green" Np.uint8, [Fin 0; Fin 128]);
        (prop "blue" Np.uint8, [Fin 51; Fin 1])] |}.

Definition binary_colored_vertices : Ply.PlyElement :=
  {| Ply.el_name := "vertex"; Ply.el_count := 2;
     Ply.el_data :=
       [(prop "x" Np.float32, [Fin 0; Fin 1]); (prop "y" Np.float32, [Fin 0; Fin (1 # 2)]);
        (prop "z" Np.float32, [Fin 0; Fin 2]);
        (prop "red" Np.uint8, [Fin 1; Fin 0]); (prop "green" Np.uint8, [Fin 0; Fin 1]);
        (prop "blue" Np.uint8, [Fin 0; Fin 0])] |}.

(** A directory with these files; there is no ["missing.ply"]. *)
Definition fs : gmap string Ply.file :=
  {[ "colored.ply"%string :=
       {| Ply.st_size := 191; Ply.text_lines := Ok colored_lines;
          Ply.ply_data := Ok [colored_vertices] |};
     "binary.ply"%string :=
       {| Ply.st_size := 186; Ply.text_lines := Ok binary_colored_lines;
          Ply.ply_data := Ok [binary_colored_vertices] |};
     "truncated.ply"%string :=
       {| Ply.st_size := 124; Ply.text_lines := Ok truncated_lines;
          Ply.ply_data := Raise (builtin PlyParseError) |};
     "bad.ply"%string :=
       {| Ply.st_size := 109; Ply.text_lines := Ok bad_coordinate_lines;
          Ply.ply_data := Raise (builtin PlyParseError) |} ]}.

(** The bounds of the two vertices of ["colored.ply"]. *)
Definition colored_bounds : PLYProcessor.bounds :=
  {| PLYProcessor.min_x := Fin 0; PLYProcessor.max_x := Fin 1;
     PLYProcessor.min_y := Fin 0; PLYProcessor.max_y := Fin (1 # 2);
     PLYProcessor.min_z := Fin 0; PLYProcessor.max_z := Fin 2;
     PLYProcessor.center_x := Fin (1 # 2); PLYProcessor.center_y := Fin (1 # 4);
     PLYProcessor.center_z := Fin 1 |}.

End Samples.

(** ** More sample inputs *)

Module MoreSamples.

(** A header that never ends. *)
Definition endless_lines : list string :=
  Samples.text ["ply"; "element vertex 1"; "1 2 3"]%string.

(** No vertex element is declared. *)
Definition faces_only_lines : list string :=
  Samples.text ["ply"; "format ascii 1.0"; "element face 1"; "end_header"; "0 0 0"]%string.

(** Colours declared under another name of the type. *)
Definition uint8_colored_lines : list string :=
  Samples.text ["ply"; "format ascii 1.0"; "element vertex 1"; "property float x";
                "property float y"; "property float z"; "property uint8 red";
                "property uint8 green"; "property uint8 blue"; "end_header";
                "0 0 0 255 0 51"]%string.

Definition text_file (lines : list string) : Ply.file :=
  {| Ply.st_size := 0; Ply.text_lines := Ok lines;
     Ply.ply_data := Raise (builtin PlyParseError) |}.

Definition fs : gmap string Ply.file :=
  {[ "endless.ply"%string := text_file endless_lines;
     "faces.ply"%string := text_file faces_only_lines;
     "uint8.ply"%string := text_file uint8_colored_lines ]}.

(** Eleven files of a sequence; those between the first and the last are
    not in [Samples.fs]. *)
Definition eleven_files : list string :=
  ["colored.ply"; "f02.ply"; "f03.ply"; "f04.ply"; "f05.ply"; "f06.ply"; "f07.ply";
   "f08.ply"; "f09.ply"; "f10.ply"; "truncated.ply"]%string.

(** A sequence whose first file has a coordinate that is not a number. *)
Definition bad_first_files : list string := ["bad.ply"; "colored.ply"]%string.

(** The directory of [Samples.fs] with one more file, which cannot be
    loaded, at the second place of the sequence. *)
Definition fs_with_bad_second : gmap string Ply.file :=
  <["f02.ply"%string := text_file Samples.bad_coordinate_lines]> Samples.fs.

(** A file whose vertex element has no record, without and with colour
    properties. *)
Definition no_vertices : Ply.PlyElement :=
  {| Ply.el_name := "vertex"; Ply.el_count := 0;
     Ply.el_data := [(Samples.prop "x" Np.float32, []); (Samples.prop "y" Np.float32, []);
                     (Samples.prop "z" Np.float32, [])] |}.

Definition no_colored_vertices : Ply.PlyElement :=
  {| Ply.el_name := "vertex"; Ply.el_count := 0;
     Ply.el_data := [(Samples.prop "x" Np.float32, []); (Samples.prop "y" Np.float32, []);
                     (Samples.prop "z" Np.float32, []);
                     (Samples.prop "red" Np.uint8, []); (Samples.prop "green" Np.uint8, []);
                     (Samples.prop "blue" Np.uint8, [])] |}.

Definition empty_fs : gmap string Ply.file :=
  {[ "empty.ply"%string :=
       {| Ply.st_size := 95; Ply.text_lines := Ok (Samples.text (Samples.header "0" false));
          Ply.ply_data := Ok [no_vertices] |};
     "empty_colored.ply"%string :=
       {| Ply.st_size := 153; Ply.text_lines := Ok (Samples.text (Samples.header "0" true));
          Ply.ply_data := Ok [no_colored_vertices] |} ]}.




(** A host with Blender in [/usr/bin], on which Blender fails. *)
Definition failing_host : PointCloudRenderer.host :=
  {| PointCloudRenderer.path_exists := fun p => String.eqb p "/usr/bin/blender";
     PointCloudRenderer.which := fun _ => false;
     PointCloudRenderer.files := Samples.fs;
     PointCloudRenderer.mkdir := fun _ => Ok tt;
     PointCloudRenderer.generate_script := fun _ => Ok tt;
     PointCloudRenderer.subprocess_run := fun _ _ => Ok (1%Z, "no GPU"%string) |}.

(** The same host with a Blender that succeeds. *)
Definition working_host : PointCloudRenderer.host :=
  {| PointCloudRenderer.path_exists := fun p => String.eqb p "/usr/bin/blender";
     PointCloudRenderer.which := fun _ => false;
     PointCloudRenderer.files := Samples.fs;
     PointCloudRenderer.mkdir := fun _ => Ok tt;
     PointCloudRenderer.generate_script := fun _ => Ok tt;
     PointCloudRenderer.subprocess_run := fun _ _ => Ok (0%Z, EmptyString) |}.

Definition renderer : PointCloudRenderer.t :=
  {| PointCloudRenderer.input_dir := "full_video";
     PointCloudRenderer.output_dir := "output";
     PointCloudRenderer.camera_trajectory := CameraTrajectory.init;
     PointCloudRenderer.blender_executable := "/usr/bin/blender" |}.

(** A sequence of a good file, a missing one and one that [plyfile]
    rejects. *)
Definition mixed_files : list string := ["colored.ply"; "missing.ply"; "truncated.ply"]%string.

End MoreSamples.

(** * Properties *)

(** ** The camera trajectory *)

Section trajectory_facts.
Import CameraTrajectory.

Lemma update_lookup_notin (d : gmap string pyval) items k :
  k ∉ items.*1 → update d items !! k = d !! k.
Proof.
  revert d. induction items as [|[k' v] items IH]; intros d Hk; [done|].
  cbn in Hk. apply not_elem_of_cons in Hk as [Hne Hk].
  cbn. rewrite IH by done. by apply lookup_insert_ne.
Qed.

Lemma update_lookup_in (d : gmap string pyval) items k v :
  NoDup items.*1 → (k, v) ∈ items → update d items !! k = Some v.
Proof.
  revert d. induction items as [|[k' v'] items IH]; intros d Hnd Hin.
  - by apply elem_of_nil in Hin.
  - cbn in Hnd. apply NoDup_cons in Hnd as [Hk' Hnd].
    apply elem_of_cons in Hin as [Heq|Hin].
    + injection Heq as -> ->. cbn.
      rewrite update_lookup_notin by done. apply lookup_insert_eq.
    + cbn. by apply IH.
Qed.

Lemma dom_update (d : gmap string pyval) items :
  dom (update d items) = dom d ∪ list_to_set items.*1.
Proof.
  revert d. induction items as [|[k v] items IH]; intros d; cbn.
  - set_solver.
  - rewrite IH, dom_insert_L. set_solver.
Qed.

Lemma variant_items_keys ty kwargs :
  list_to_set (variant_items ty kwargs).*1 = variant_keys ty.
Proof.
  unfold variant_items, variant_keys.
  repeat case_match; cbn; set_solver.
Qed.

Lemma variant_items_NoDup ty kwargs : NoDup (variant_items ty kwargs).*1.
Proof.
  unfold variant_items.
  repeat case_match; cbn; repeat (apply NoDup_cons; split; [set_solver|]); apply NoDup_nil_2.
Qed.

Lemma set_trajectory_state self ty kwargs :
  (set_trajectory self ty kwargs).1 =
  {| trajectory_type := Some ty;
     trajectory_params := update (trajectory_params self) (variant_items ty kwargs) |}.
Proof.
  unfold set_trajectory, variant_items. repeat case_match; reflexivity.
Qed.

Lemma run_snoc self calls call :
  run self (calls ++ [call]) = (set_trajectory (run self calls) call.1 call.2).1.
Proof. unfold run. by rewrite foldl_app. Qed.

Lemma dom_run self calls :
  dom (trajectory_params (run self calls)) =
  dom (trajectory_params self) ∪ ⋃ (variant_keys <$> calls.*1).
Proof.
  induction calls as [|call calls IH] using rev_ind.
  - cbn. set_solver.
  - rewrite run_snoc, set_trajectory_state. cbn.
    rewrite dom_update, IH, variant_items_keys, !fmap_app, union_list_app_L.
    cbn. set_solver.
Qed.

End trajectory_facts.

Section trajectory_claims.
Import CameraTrajectory Samples.

(** C9, as stated, fails.  After a linear trajectory and then a circular one
    are set on a fresh object, the parameters that [get_info] exposes still
    hold ["start_pos"], which is no parameter of the circular variant, and
    they differ from those of an object on which only the circular
    trajectory was set. *)
Lemma stale_parameters_after_switch :
  info_type (get_info (run init linear_then_circular)) = Some "circular"%string ∧
  info_parameters (get_info (run init linear_then_circular)) !! "start_pos"%string
    = Some (VTuple [VInt 0; VInt 0; VInt 5]) ∧
  ¬ dom (info_parameters (get_info (run init linear_then_circular))) ⊆ variant_keys "circular" ∧
  get_info (run init linear_then_circular) ≠ get_info (run init circular_only).
Proof.
  assert (Hlook : info_parameters (get_info (run init linear_then_circular)) !! "start_pos"%string
                  = Some (VTuple [VInt 0; VInt 0; VInt 5])) by (vm_compute; reflexivity).
  split; [reflexivity|]. split; [exact Hlook|]. split.
  - intros Hsub.
    assert (Hin : "start_pos"%string ∈ variant_keys "circular").
    { apply Hsub, elem_of_dom. rewrite Hlook. by eexists. }
    unfold variant_keys in Hin. cbn in Hin. set_solver.
  - intros Heq.
    apply (f_equal (fun i => info_parameters i !! "start_pos"%string)) in Heq.
    rewrite Hlook in Heq. vm_compute in Heq. discriminate.
Qed.

(** C9, amended.  After any sequence of [set_trajectory] calls that ends
    with a call for [ty], on any object: the type that [get_info] exposes is
    [ty], the one of the last call; the keys of the exposed parameters are
    those the object had plus those of every variant that was set; every
    parameter of the last call's variant has the value that this call gave
    it; and every other key keeps the value it had before the last call. *)
Theorem set_trajectory_accumulates (self : t) calls ty kwargs :
  info_type (get_info (run self (calls ++ [(ty, kwargs)]))) = Some ty ∧
  dom (info_parameters (get_info (run self (calls ++ [(ty, kwargs)]))))
    = dom (trajectory_params self) ∪ ⋃ (variant_keys <$> (calls ++ [(ty, kwargs)]).*1) ∧
  (∀ k v, (k, v) ∈ variant_items ty kwargs →
     info_parameters (get_info (run self (calls ++ [(ty, kwargs)]))) !! k = Some v) ∧
  (∀ k, k ∉ variant_keys ty →
     info_parameters (get_info (run self (calls ++ [(ty, kwargs)]))) !! k
     = trajectory_params (run self calls) !! k).
Proof.
  split; [|split; [|split]].
  - by rewrite run_snoc, set_trajectory_state.
  - apply dom_run.
  - intros k v Hin. rewrite run_snoc, set_trajectory_state. cbn.
    apply update_lookup_in; [apply variant_items_NoDup | done].
  - intros k Hk. rewrite run_snoc, set_trajectory_state. cbn.
    apply update_lookup_notin.
    rewrite <- (variant_items_keys ty kwargs) in Hk.
    by rewrite elem_of_list_to_set in Hk.
Qed.

Lemma set_trajectory_accumulates_witness :
  info_parameters (get_info (run init linear_then_circular)) !! "radius"%string
    = Some (VFloat (Fin 5)) ∧
  info_parameters (get_info (run init linear_then_circular)) !! "end_pos"%string
    = Some (VTuple [VInt 5; VInt 0; VInt 5]).
Proof.
  destruct (set_trajectory_accumulates init [("linear"%string, ∅)] "circular"%string ∅)
    as (_ & _ & Hnew & Hold).
  split.
  - apply Hnew. vm_compute. set_solver.
  - unfold linear_then_circular. change [("linear"%string, ∅); ("circular"%string, ∅)]
      with ([("linear"%string, (∅ : gmap string pyval))] ++ [("circular"%string, ∅)]).
    rewrite Hold; [reflexivity|].
    unfold variant_keys. cbn. set_solver.
Defined.

(** Keyword arguments that the variant does not name are dropped. *)
Example linear_ignores_radius :
  (set_trajectory init "linear" {[ "radius"%string := VFloat (Fin 9) ]}).1
  = (set_trajectory init "linear" ∅).1.
Proof. reflexivity. Qed.

(** C10.  For a type that is none of ['linear'], ['circular'] and
    ['custom'], [set_trajectory] raises ValueError, and the object is not
    left as it was: [trajectory_type] holds the unknown string, while
    [trajectory_params] is what it was before the call. *)
Theorem set_trajectory_unknown_type (self : t) (ty : string) kwargs :
  ty ≠ "linear"%string → ty ≠ "circular"%string → ty ≠ "custom"%string →
  raises_class (set_trajectory self ty kwargs).2 ValueError ∧
  trajectory_type (set_trajectory self ty kwargs).1 = Some ty ∧
  trajectory_params (set_trajectory self ty kwargs).1 = trajectory_params self.
Proof.
  intros H1 H2 H3. unfold set_trajectory.
  apply String.eqb_neq in H1, H2, H3. rewrite H1, H2, H3. cbn.
  split; [|done]. eexists. split; reflexivity.
Qed.

Lemma set_trajectory_unknown_type_witness :
  raises_class (set_trajectory (run init circular_only) "spiral" ∅).2 ValueError ∧
  trajectory_type (set_trajectory (run init circular_only) "spiral" ∅).1 = Some "spiral"%string ∧
  trajectory_params (set_trajectory (run init circular_only) "spiral" ∅).1
    = trajectory_params (run init circular_only).
Proof.
  apply (set_trajectory_unknown_type (run init circular_only) "spiral" ∅); discriminate.
Defined.

End trajectory_claims.

(** ** The rotation matrix *)

Section rotation_claims.
Import CameraTrajectory.

Lemma Rx_std_entries theta :
  Rx_std theta = [[1; 0; 0]; [0; cos theta; - sin theta]; [0; sin theta; cos theta]]%R.
Proof. unfold Rx_std, axis_rotation. repeat (f_equal; try ring). Qed.

Lemma Ry_std_entries theta :
  Ry_std theta = [[cos theta; 0; sin theta]; [0; 1; 0]; [- sin theta; 0; cos theta]]%R.
Proof. unfold Ry_std, axis_rotation. repeat (f_equal; try ring). Qed.

Lemma Rz_std_entries theta :
  Rz_std theta = [[cos theta; - sin theta; 0]; [sin theta; cos theta; 0]; [0; 0; 1]]%R.
Proof. unfold Rz_std, axis_rotation. repeat (f_equal; try ring). Qed.

(** C8.  For all angles, [euler_to_rotation_matrix (pitch, yaw, roll)] is
    the product [Rz(roll) Ry(yaw) Rx(pitch)] of the standard right-handed
    rotations about the axes, however the product is bracketed; applied to
    a vector it rotates by the pitch about X first, then by the yaw about Y,
    then by the roll about Z. *)
Theorem euler_to_rotation_matrix_Rz_Ry_Rx (pitch yaw roll : R) :
  euler_to_rotation_matrix (pitch, yaw, roll)
    = matmul (matmul (Rz_std roll) (Ry_std yaw)) (Rx_std pitch) ∧
  euler_to_rotation_matrix (pitch, yaw, roll)
    = matmul (Rz_std roll) (matmul (Ry_std yaw) (Rx_std pitch)) ∧
  ∀ x y z : R,
    matvec (euler_to_rotation_matrix (pitch, yaw, roll)) [x; y; z]
    = matvec (Rz_std roll) (matvec (Ry_std yaw) (matvec (Rx_std pitch) [x; y; z])).
Proof.
  rewrite Rx_std_entries, Ry_std_entries, Rz_std_entries.
  split; [reflexivity|]. split.
  - unfold euler_to_rotation_matrix, matmul, dot. cbn.
    repeat (f_equal; try ring).
  - intros x y z. unfold euler_to_rotation_matrix, matmul, matvec, dot. cbn.
    repeat (f_equal; try ring).
Qed.

End rotation_claims.

(** ** The trajectory evaluator *)

Section evaluator_claims.
Import Evaluator.

(** Inside the range, a linear trajectory with a fixed rotation gives the
    interpolated position: the evaluator does not reject everything. *)
Lemma evaluate_linear_fixed start_pos end_pos rot (progress : R) :
  (0 <= progress <= 1)%R →
  evaluate (set None (Linear start_pos end_pos None (Some rot))) progress
  = inr {| position := lerp start_pos end_pos progress; rotation := rot |}.
Proof.
  intros [H0 H1]. unfold evaluate, set.
  destruct (Rlt_dec progress 0) as [Hlt|_]; [lra|].
  destruct (Rlt_dec 1 progress) as [Hgt|_]; [lra|]. reflexivity.
Qed.

(** The end points of a linear trajectory, and its middle. *)
Lemma evaluate_linear_endpoints a b rot :
  evaluate (set None (Linear a b None (Some rot))) 0
    = inr {| position := a; rotation := rot |} ∧
  evaluate (set None (Linear a b None (Some rot))) 1
    = inr {| position := b; rotation := rot |} ∧
  evaluate (set None (Linear a b None (Some rot))) (1 / 2)
    = inr {| position := lerp a b (1 / 2); rotation := rot |}.
Proof.
  destruct a as [[ax ay] az], b as [[bx b_y] bz].
  rewrite !evaluate_linear_fixed by lra. unfold lerp.
  split; [|split]; do 2 f_equal; try reflexivity; repeat f_equal; ring.
Qed.

(** A custom trajectory with one keyframe gives its pose everywhere. *)
Lemma evaluate_single_keyframe k (progress : R) :
  (0 <= progress <= 1)%R →
  evaluate (set None (Custom [k])) progress = inr (pose_of k).
Proof.
  intros [H0 H1]. unfold evaluate, set.
  destruct (Rlt_dec progress 0) as [Hlt|_]; [lra|].
  destruct (Rlt_dec 1 progress) as [Hgt|_]; [lra|].
  unfold evaluate_custom. cbn. by destruct (Rle_dec progress (kf_time k)).
Qed.

(** C3.  When no trajectory has been set, and for every progress value
    below 0 or above 1, [evaluate] fails with InvalidTrajectoryError and
    gives no pose. *)
Theorem evaluate_rejects (st : state) (progress : R) :
  st = None ∨ (progress < 0)%R ∨ (1 < progress)%R →
  evaluate st progress = inl InvalidTrajectoryError.
Proof.
  intros Hbad. unfold evaluate.
  destruct st as [spec|]; [|reflexivity].
  destruct (Rlt_dec progress 0) as [|Hge]; [reflexivity|].
  destruct (Rlt_dec 1 progress) as [|Hle]; [reflexivity|].
  destruct Hbad as [Hnone|[Hlt|Hgt]]; [discriminate | contradiction | contradiction].
Qed.

Lemma evaluate_rejects_witness :
  evaluate (set None (Linear (0, 0, 5) (5, 0, 5) None (Some (0, 0, 0))))%R 1.5
    = inl InvalidTrajectoryError ∧
  evaluate (set None (Linear (0, 0, 5) (5, 0, 5) None (Some (0, 0, 0))))%R (-0.1)
    = inl InvalidTrajectoryError ∧
  evaluate None 0.5 = inl InvalidTrajectoryError.
Proof.
  split; [|split].
  - apply evaluate_rejects. right. right. lra.
  - apply evaluate_rejects. right. left. lra.
  - apply evaluate_rejects. left. reflexivity.
Defined.

End evaluator_claims.

(** ** Loading a text file ([load_ply_file]) *)

Section load_ply_file_facts.
Import Ply RenderFullVideo.

Example split_ex : split " 0.5 1.0 2 " = ["0.5"; "1.0"; "2"]%string.
Proof. reflexivity. Qed.

Example int_ex : int "  -1_000 " = Ok (-1000)%Z ∧ int "1.0" = Raise (builtin ValueError).
Proof. split; reflexivity. Qed.

(** A literal of 4300 digits is converted, one of 4301 digits is not,
    whatever its value. *)
Example int_digit_limit :
  int (RenderFrames.zeros 4299 +:+ "7") = Ok 7%Z ∧
  int (RenderFrames.zeros 4300 +:+ "7") = Raise (builtin ValueError) ∧
  float (RenderFrames.zeros 4300 +:+ "7") = Ok (Fin 7) ∧
  numeric_record true ["0"; "0"; "0"; RenderFrames.zeros 4300 +:+ "7"; "0"; "0"]%string = false ∧
  parse_record true ["0"; "0"; "0"; RenderFrames.zeros 4300 +:+ "7"; "0"; "0"]%string
  = Raise (builtin ValueError).
Proof. repeat split; vm_compute; reflexivity. Qed.

(** Rounding to binary32: to the nearest number, ties to even; past the
    largest number, to an infinity; below the least normal number, to a
    multiple of [2^-149]. *)
Example f32_ex :
  f32_of_Q (1 # 3) = Fin (11184811 # 33554432) ∧
  f32_of_Q (-1 # 3) = Fin (-11184811 # 33554432) ∧
  f32_of_Q 16777217 = Fin 16777216 ∧ f32_of_Q 16777219 = Fin 16777220 ∧
  f32_of_Q 100000001 = Fin 100000000 ∧
  f32_of_Q (inject_Z (2 ^ 128 - 2 ^ 103 - 1)) = Fin (inject_Z (2 ^ 128 - 2 ^ 104)) ∧
  f32_of_Q (inject_Z (2 ^ 128 - 2 ^ 103)) = Inf false ∧
  f32_of_Q (Qpower 2 (-150)) = Fin 0 ∧
  f32_of_Q (3 * Qpower 2 (-150)) = Fin (Qred (Qpower 2 (-148))) ∧
  add32 (add32 (Fin 100000000) (Fin 1)) (Fin (-100000000)) = Fin 0.
Proof. repeat split; vm_compute; reflexivity. Qed.

Example float_ex :
  float "-2.5e-1" = Ok (Fin (-1 # 4)) ∧ float ".5" = Ok (Fin (1 # 2)) ∧
  float "1." = Ok (Fin 1) ∧ float "-Infinity" = Ok (Inf true) ∧
  float "1e400" = Ok (Inf false) ∧ float "e5" = Raise (builtin ValueError) ∧
  float "1_0" = Ok (Fin 10) ∧ float "1__0" = Raise (builtin ValueError) ∧
  float "." = Raise (builtin ValueError).
Proof. repeat split; vm_compute; reflexivity. Qed.

Example load_colored :
  load_ply_file Samples.fs "colored.ply"
  = Ok (Np.Arr2 Np.float64 3 [[Fin 0; Fin 0; Fin 0]; [Fin 1; Fin (1 # 2); Fin 2]],
        Some (Np.Arr2 Np.float64 3 [[Fin 1; Fin 0; Fin (1 # 5)]; [Fin 0; Fin (128 # 255); Fin (1 # 255)]])).
Proof. vm_compute. reflexivity. Qed.

(** A record without colour fields in a file that declares colours is
    white. *)
Example load_partly_colored :
  load_lines Samples.partly_colored_lines
  = Ok (Np.Arr2 Np.float64 3 [[Fin 0; Fin 0; Fin 0]; [Fin 1; Fin (1 # 2); Fin 2]],
        Some (Np.Arr2 Np.float64 3 [[Fin 1; Fin 0; Fin (1 # 5)]; white])).
Proof. vm_compute. reflexivity. Qed.

(** A vertex count that is not a number stops the load in the header. *)
Example load_bad_vertex_count :
  load_lines (Samples.text (Samples.header "many" false)) = Raise (builtin ValueError).
Proof. vm_compute. reflexivity. Qed.

Example get_ply_info_colored :
  PLYProcessor.get_ply_info Samples.fs "colored.ply"
  = (Ok {| PLYProcessor.file_path_ := "colored.ply"; PLYProcessor.file_size := 191;
           PLYProcessor.point_count := 2; PLYProcessor.has_colors := true;
           PLYProcessor.has_alpha := false;
           PLYProcessor.properties_ := ["x"; "y"; "z"; "red"; "green"; "blue"]%string;
           PLYProcessor.bounds_ := Some Samples.colored_bounds |}, []).
Proof. vm_compute. reflexivity. Qed.

End load_ply_file_facts.

Section load_ply_file_loop.
Import Ply RenderFullVideo.

Lemma bind_Ok {A B} (m : result A) (f : A → result B) b :
  m ≫= f = Ok b → ∃ a, m = Ok a ∧ f a = Ok b.
Proof. destruct m as [a|e]; cbn; [eauto | discriminate]. Qed.

Lemma window_end lines i n : lines !! i = None → window lines i n = [].
Proof.
  intros Hi. unfold window. apply lookup_ge_None in Hi.
  by rewrite drop_ge, take_nil.
Qed.

Lemma window_step lines i n line :
  lines !! i = Some line →
  window lines i (S n) = split (strip line) :: window lines (S i) n.
Proof.
  intros Hi. unfold window. by rewrite (drop_S _ _ _ Hi).
Qed.

(** The vertex loop parses the records of its window one after the other. *)
Lemma parse_vertices_records lines has_colors i n points colors :
  parse_vertices lines has_colors i n points colors =
  '(ps, cs) ← parse_records has_colors (window lines i n); Ok (points ++ ps, colors ++ cs).
Proof.
  revert i points colors. induction n as [|n IH]; intros i points colors.
  - unfold window. rewrite take_0. cbn. by rewrite !app_nil_r.
  - cbn [parse_vertices]. destruct (lines !! i) as [line|] eqn:Hi.
    + rewrite (window_step _ _ _ _ Hi). cbn [parse_records].
      destruct (parse_record has_colors (split (strip line))) as [[ps1 cs1]|e]; cbn; [|done].
      rewrite IH.
      destruct (parse_records has_colors (window lines (S i) n)) as [[ps2 cs2]|e]; cbn; [|done].
      by rewrite !app_assoc.
    + rewrite (window_end _ _ _ Hi). cbn. by rewrite !app_nil_r.
Qed.

Lemma window_length lines i n :
  (length (window lines i n) ≤ n)%nat ∧ (length (window lines i n) ≤ length lines - i)%nat.
Proof.
  unfold window. rewrite length_fmap, length_take, length_drop. lia.
Qed.

Lemma with_coordinates_length records :
  (length (with_coordinates records) ≤ length records)%nat.
Proof. apply length_filter. Qed.

(** What one record contributes. *)
Lemma parse_record_Ok has_colors parts ps cs :
  parse_record has_colors parts = Ok (ps, cs) →
  if decide (3 ≤ length parts)%nat then
    (∃ x y z, ps = [[x; y; z]]) ∧
    if has_colors then
      if decide (6 ≤ length parts)%nat then
        ∃ r g b, int (field_at parts 3) = Ok r ∧ int (field_at parts 4) = Ok g ∧
                 int (field_at parts 5) = Ok b ∧ cs = [normalized r g b]
      else cs = [white]
    else cs = []
  else ps = [] ∧ cs = [].
Proof.
  unfold parse_record. intros H.
  destruct (decide (3 ≤ length parts)%nat) as [H3|H3].
  - rewrite (proj2 (Nat.leb_le _ _) H3) in H.
    apply bind_Ok in H as (x & _ & H). apply bind_Ok in H as (y & _ & H).
    apply bind_Ok in H as (z & _ & H).
    destruct has_colors; cbn [andb] in H.
    + destruct (decide (6 ≤ length parts)%nat) as [H6|H6].
      * rewrite (proj2 (Nat.leb_le _ _) H6) in H.
        apply bind_Ok in H as (r & Hr & H). apply bind_Ok in H as (g & Hg & H).
        apply bind_Ok in H as (b & Hb & H).
        apply bind_Ok in H as (cr & Hcr & H). apply bind_Ok in H as (cg & Hcg & H).
        apply bind_Ok in H as (cb & Hcb & H).
        unfold int_truediv in Hcr, Hcg, Hcb.
        destruct (f64_overflows (inject_Z r)); [discriminate|].
        destruct (f64_overflows (inject_Z g)); [discriminate|].
        destruct (f64_overflows (inject_Z b)); [discriminate|].
        injection Hcr as <-. injection Hcg as <-. injection Hcb as <-.
        injection H as <- <-. split; [by eauto|]. by exists r, g, b.
      * rewrite (proj2 (Nat.leb_gt _ _) (proj1 (Nat.nle_gt _ _) H6)) in H.
        injection H as <- <-. split; [by eauto | done].
    + injection H as <- <-. split; [by eauto | done].
  - rewrite (proj2 (Nat.leb_gt _ _) (proj1 (Nat.nle_gt _ _) H3)) in H.
    by injection H as <- <-.
Qed.

Lemma numeric_record_returns has_colors parts :
  numeric_record has_colors parts = true → returns (parse_record has_colors parts).
Proof.
  unfold numeric_record, parse_record, returns.
  destruct (3 <=? length parts)%nat; [|by eauto].
  destruct (has_colors && (6 <=? length parts)%nat).
  - destruct (float (field_at parts 0)) as [x|]; [|done].
    destruct (float (field_at parts 1)) as [y|]; [|done].
    destruct (float (field_at parts 2)) as [z|]; [|done].
    destruct (int (field_at parts 3)) as [r|]; [|done].
    destruct (int (field_at parts 4)) as [g|];
      [|cbn [is_Ok mbind result_bind andb]; by rewrite andb_false_r].
    destruct (int (field_at parts 5)) as [b|];
      [|cbn [is_Ok mbind result_bind andb]; by rewrite !andb_false_r].
    cbn [is_Ok mbind result_bind andb].
    destruct (int_truediv r 255); [|done].
    destruct (int_truediv g 255); [|done].
    destruct (int_truediv b 255); [|done]. by eauto.
  - destruct (float (field_at parts 0)) as [x|]; [|done].
    destruct (float (field_at parts 1)) as [y|]; [|done].
    destruct (float (field_at parts 2)) as [z|]; [|done].
    destruct has_colors; by eauto.
Qed.

Lemma parse_records_returns has_colors records :
  forallb (numeric_record has_colors) records = true →
  returns (parse_records has_colors records).
Proof.
  induction records as [|parts rest IH]; cbn; intros H.
  - by eexists.
  - apply andb_true_iff in H as [H1 H2].
    destruct (numeric_record_returns _ _ H1) as [[ps cs] ->].
    destruct (IH H2) as [[ps' cs'] ->]. cbn. by eexists.
Qed.

(** One point per record with coordinates and, when colours are read, one
    colour per such record. *)
Lemma parse_records_lengths has_colors records ps cs :
  parse_records has_colors records = Ok (ps, cs) →
  length ps = length (with_coordinates records) ∧
  length cs = if has_colors then length (with_coordinates records) else 0%nat.
Proof.
  revert ps cs. induction records as [|parts rest IH]; intros ps cs H.
  - cbn in H. injection H as <- <-. by destruct has_colors.
  - cbn [parse_records] in H.
    apply bind_Ok in H as ([ps1 cs1] & H1 & H).
    apply bind_Ok in H as ([ps2 cs2] & H2 & H). injection H as <- <-.
    destruct (IH _ _ H2) as [IHp IHc]. apply parse_record_Ok in H1.
    unfold with_coordinates in *. rewrite filter_cons. rewrite !length_app.
    destruct (decide (3 ≤ length parts)%nat) as [H3|H3].
    + destruct H1 as [(x & y & z & ->) Hc]. cbn. split; [lia|].
      destruct has_colors; [|by subst].
      destruct (decide (6 ≤ length parts)%nat).
      * destruct Hc as (r & g & b & _ & _ & _ & ->). cbn. lia.
      * subst cs1. cbn. lia.
    + destruct H1 as [-> ->]. cbn. done.
Qed.


End load_ply_file_loop.

Section load_ply_file_claims.
Import Ply RenderFullVideo Samples.

Lemma float_Raise s e : float s = Raise e → exn_cls e = ValueError.
Proof. unfold float. repeat case_match; intros [= <-]; reflexivity. Qed.

Lemma int_Raise s e : int s = Raise e → exn_cls e = ValueError.
Proof. unfold int. repeat case_match; intros [= <-]; reflexivity. Qed.

Lemma int_truediv_Raise r d e : int_truediv r d = Raise e → exn_cls e = OverflowError.
Proof. unfold int_truediv. case_match; intros [= <-]; reflexivity. Qed.

Lemma numeric_record_raises has_colors parts :
  numeric_record has_colors parts = false →
  raises_in (parse_record has_colors parts) [ValueError; OverflowError].
Proof.
  assert (Hv : ∀ (A : Type) (e : exn), exn_cls e = ValueError →
            raises_in (Raise e : result A) [ValueError; OverflowError]).
  { intros A e He. exists e. split; [done|]. rewrite He. by left. }
  assert (Ho : ∀ (A : Type) (e : exn), exn_cls e = OverflowError →
            raises_in (Raise e : result A) [ValueError; OverflowError]).
  { intros A e He. exists e. split; [done|]. rewrite He. right. by left. }
  unfold numeric_record, parse_record.
  destruct (3 <=? length parts)%nat; [|done].
  destruct (has_colors && (6 <=? length parts)%nat).
  - destruct (float (field_at parts 0)) as [x|] eqn:Ex; [|intros _; by eapply Hv, float_Raise].
    destruct (float (field_at parts 1)) as [y|] eqn:Ey; [|intros _; by eapply Hv, float_Raise].
    destruct (float (field_at parts 2)) as [z|] eqn:Ez; [|intros _; by eapply Hv, float_Raise].
    destruct (int (field_at parts 3)) as [r|] eqn:Er; [|intros _; by eapply Hv, int_Raise].
    destruct (int (field_at parts 4)) as [g|] eqn:Eg; [|intros _; by eapply Hv, int_Raise].
    destruct (int (field_at parts 5)) as [b|] eqn:Eb; [|intros _; by eapply Hv, int_Raise].
    cbn [is_Ok mbind result_bind andb].
    destruct (int_truediv r 255) eqn:Cr; [|intros _; by eapply Ho, int_truediv_Raise].
    destruct (int_truediv g 255) eqn:Cg; [|intros _; by eapply Ho, int_truediv_Raise].
    destruct (int_truediv b 255) eqn:Cb; [|intros _; by eapply Ho, int_truediv_Raise].
    done.
  - destruct (float (field_at parts 0)) as [x|] eqn:Ex; [|intros _; by eapply Hv, float_Raise].
    destruct (float (field_at parts 1)) as [y|] eqn:Ey; [|intros _; by eapply Hv, float_Raise].
    destruct (float (field_at parts 2)) as [z|] eqn:Ez; [|intros _; by eapply Hv, float_Raise].
    done.
Qed.

Lemma raises_in_bind {A B} (m : result A) (f : A → result B) cs :
  raises_in m cs → raises_in (m ≫= f) cs.
Proof. intros (e & -> & He). by exists e. Qed.

Lemma parse_records_raises has_colors records :
  forallb (numeric_record has_colors) records = false →
  raises_in (parse_records has_colors records) [ValueError; OverflowError].
Proof.
  induction records as [|parts rest IH]; cbn [forallb parse_records]; intros H; [done|].
  apply andb_false_iff in H as [H|H].
  - by apply raises_in_bind, numeric_record_raises.
  - destruct (parse_record has_colors parts) as [[ps cs]|e] eqn:Hp.
    + cbn [mbind result_bind]. by apply raises_in_bind, IH.
    + destruct (decide (numeric_record has_colors parts = true)) as [Hn|Hn].
      * destruct (numeric_record_returns _ _ Hn) as [a Ha]. congruence.
      * apply not_true_is_false, numeric_record_raises in Hn. by rewrite Hp in Hn.
Qed.

Lemma len_array rows : Np.len (Np.array rows) = length rows.
Proof. by destruct rows. Qed.

Lemma load_lines_header lines header_end vertex_count has_colors :
  scan_header lines 0 0 false = Ok (header_end, vertex_count, has_colors) →
  load_lines lines =
  '(points, colors) ← parse_records has_colors (window lines header_end (Z.to_nat vertex_count));
  Ok (Np.array points, match colors with [] => None | _ => Some (Np.array colors) end).
Proof.
  intros H. unfold load_lines. rewrite H. cbn [mbind result_bind].
  rewrite parse_vertices_records.
  by destruct (parse_records _ _) as [[ps cs]|e].
Qed.

Lemma load_ply_file_lines (fs : gmap string file) path lines :
  readlines fs path = Ok lines → load_ply_file fs path = load_lines lines.
Proof. intros H. unfold load_ply_file. by rewrite H. Qed.

(** C2, as stated, fails.  The file declares five vertices and has four
    records, one of them with two fields: the load returns the three points
    it found and raises nothing. *)
Lemma truncated_file_loads_partial_cloud :
  scan_header truncated_lines 0 0 false = Ok (7%nat, 5%Z, false) ∧
  load_ply_file fs "truncated.ply"
  = Ok (Np.Arr2 Np.float64 3 [[Fin 0; Fin 0; Fin 0]; [Fin 1; Fin (1 # 2); Fin 0];
                              [Fin 2; Fin 2; Fin 2]], None) ∧
  ¬ raises (load_ply_file fs "truncated.ply").
Proof.
  assert (H : load_ply_file fs "truncated.ply"
    = Ok (Np.Arr2 Np.float64 3 [[Fin 0; Fin 0; Fin 0]; [Fin 1; Fin (1 # 2); Fin 0];
                                [Fin 2; Fin 2; Fin 2]], None)) by (vm_compute; reflexivity).
  split; [vm_compute; reflexivity|]. split; [exact H|].
  intros [e He]. rewrite H in He. discriminate.
Qed.

(** C2, amended.  When the header has been read and every record that the
    vertex loop visits has numeric fields, [load_ply_file] returns, also
    when the body has fewer records than the header declares and when
    records have fewer than three fields: the points are those of the
    visited records with at least three fields, so there are at most as
    many as declared and at most as many as the file has lines after the
    header. *)
Theorem load_ply_file_short_input (fs : gmap string file) path lines
    header_end vertex_count has_colors :
  readlines fs path = Ok lines →
  scan_header lines 0 0 false = Ok (header_end, vertex_count, has_colors) →
  forallb (numeric_record has_colors) (window lines header_end (Z.to_nat vertex_count)) = true →
  ∃ points colors,
    load_ply_file fs path = Ok (points, colors) ∧
    Np.len points = length (with_coordinates (window lines header_end (Z.to_nat vertex_count))) ∧
    (Np.len points ≤ Z.to_nat vertex_count)%nat ∧
    (Np.len points ≤ length lines - header_end)%nat.
Proof.
  intros Hr Hh Hnum. rewrite (load_ply_file_lines _ _ _ Hr), (load_lines_header _ _ _ _ Hh).
  destruct (parse_records_returns _ _ Hnum) as [[ps cs] Hp]. rewrite Hp. cbn.
  eexists _, _. split; [reflexivity|].
  apply parse_records_lengths in Hp as [Hlen _]. rewrite len_array, Hlen.
  pose proof (with_coordinates_length (window lines header_end (Z.to_nat vertex_count))).
  pose proof (window_length lines header_end (Z.to_nat vertex_count)). lia.
Qed.

Lemma load_ply_file_short_input_witness :
  ∃ points colors,
    load_ply_file Samples.fs "truncated.ply" = Ok (points, colors) ∧ Np.len points = 3%nat.
Proof.
  destruct (load_ply_file_short_input Samples.fs "truncated.ply" truncated_lines 7 5 false)
    as (points & colors & Hload & Hlen & _).
  - vm_compute. reflexivity.
  - vm_compute. reflexivity.
  - vm_compute. reflexivity.
  - exists points, colors. split; [exact Hload|]. rewrite Hlen. vm_compute. reflexivity.
Defined.

End load_ply_file_claims.

(** ** Loading through [plyfile] ([PLYProcessor]) *)

Section ply_processor_facts.
Import Ply PLYProcessor.

Lemma zip_columns3_cons n x xs y ys z zs :
  Np.zip_columns (S n) [x :: xs; y :: ys; z :: zs]
  = [x; y; z] :: Np.zip_columns n [xs; ys; zs].
Proof. reflexivity. Qed.

Lemma zip_columns3_lookup xs ys zs j x y z :
  xs !! j = Some x → ys !! j = Some y → zs !! j = Some z →
  Np.zip_columns (length xs) [xs; ys; zs] !! j = Some [x; y; z].
Proof.
  revert ys zs j. induction xs as [|x0 xs IH]; intros ys zs j Hx Hy Hz.
  - by rewrite lookup_nil in Hx.
  - destruct ys as [|y0 ys]; [by rewrite lookup_nil in Hy|].
    destruct zs as [|z0 zs]; [by rewrite lookup_nil in Hz|].
    cbn [length]. rewrite zip_columns3_cons. destruct j as [|j]; cbn in *.
    + congruence.
    + by apply IH.
Qed.


Lemma zip_columns3_concat_nil xs ys zs :
  concat (Np.zip_columns (length xs) [xs; ys; zs]) = [] → xs = [].
Proof. destruct xs as [|x xs]; [done|]. destruct ys, zs; cbn; discriminate. Qed.

(** A column read from an element is a one-dimensional array of one of its
    properties. *)
Lemma field_Ok el name a :
  field el name = Ok a →
  ∃ p xs, a = Np.Arr1 (prop_dtype p) xs ∧ (p, xs) ∈ el_data el ∧ prop_name p = name.
Proof.
  unfold field. destruct (List.find _ _) as [[p xs]|] eqn:Hf; [|discriminate].
  intros [= <-]. apply find_some in Hf as [Hin Hn].
  exists p, xs. split; [done|]. split; [by apply list_elem_of_In|].
  by apply String.eqb_eq in Hn.
Qed.

Lemma field_declared el name :
  has_name name (prop_name <$> properties el) = true → returns (field el name).
Proof.
  unfold has_name, properties, field, returns. intros H.
  apply bool_decide_eq_true in H. apply list_elem_of_fmap in H as (p & -> & Hp).
  apply list_elem_of_fmap in Hp as ([p' xs] & -> & Hin). cbn.
  destruct (List.find _ _) as [[q ys]|] eqn:Hf; [by eauto|].
  apply list_elem_of_In in Hin.
  apply (find_none _ _ Hf) in Hin. cbn in Hin. by rewrite String.eqb_refl in Hin.
Qed.

Lemma element_Ok plydata name el :
  element plydata name = Ok el → el ∈ plydata.
Proof.
  unfold element. destruct (List.find _ _) as [el'|] eqn:Hf; [|discriminate].
  intros [= <-]. apply find_some in Hf as [Hin _]. by apply list_elem_of_In.
Qed.

Lemma wf_column el p xs :
  wf_element el → (p, xs) ∈ el_data el → length xs = el_count el.
Proof.
  unfold wf_element. rewrite Forall_forall. intros Hwf Hin. by apply (Hwf _ Hin).
Qed.

Lemma column_stack3 dx xs dy ys dz zs :
  length ys = length xs → length zs = length xs →
  Np.column_stack [Np.Arr1 dx xs; Np.Arr1 dy ys; Np.Arr1 dz zs]
  = Ok (Np.Arr2 (Np.result_type dx [dy; dz]) 3 (Np.zip_columns (length xs) [xs; ys; zs])).
Proof.
  intros Hy Hz. unfold Np.column_stack. cbn [forallb].
  by rewrite Hy, Hz, Nat.eqb_refl.
Qed.





(** On finite values, [num_ltb] is the strict order of the rationals. *)
Lemma num_ltb_false p q : num_ltb (Fin p) (Fin q) = false ↔ (q <= p)%Q.
Proof. cbn. by rewrite negb_false_iff, Qle_bool_iff. Qed.

(** The reductions of [min] and [max] give an element of the array that no
    element is below, and that no element is above. *)
Lemma foldl_minimum_least a xs :
  Np.finite a → Forall Np.finite xs →
  Np.finite (foldl Np.minimum a xs) ∧ foldl Np.minimum a xs ∈ a :: xs ∧
  Forall (fun v => num_ltb v (foldl Np.minimum a xs) = false) (a :: xs).
Proof.
  intros Ha Hxs. revert a Ha. induction Hxs as [|x xs Hx Hxs IH]; intros a Ha.
  - cbn. split; [done|]. split; [by left|]. constructor; [|constructor].
    destruct a as [p| |]; try done. apply num_ltb_false, Qle_refl.
  - cbn [foldl]. destruct a as [p| |]; try done. destruct x as [q| |]; try done.
    assert (Hm : ∃ r, Np.minimum (Fin p) (Fin q) = Fin r ∧ (r <= p)%Q ∧ (r <= q)%Q ∧
                      (r = p ∨ r = q)).
    { unfold Np.minimum. destruct (num_ltb (Fin q) (Fin p)) eqn:E.
      - exists q. split; [done|]. split; [|split; [apply Qle_refl | by right]].
        cbn in E. apply negb_true_iff in E. apply Qlt_le_weak, Qnot_le_lt.
        intros H. apply Qle_bool_iff in H. congruence.
      - exists p. split; [done|]. split; [apply Qle_refl|]. split; [|by left].
        by apply num_ltb_false in E. }
    destruct Hm as (r & -> & Hrp & Hrq & Hr).
    destruct (IH (Fin r) I) as (Hfin & Hin & Hall).
    split; [done|]. destruct (foldl Np.minimum (Fin r) xs) as [m| |] eqn:Em; try done.
    apply Forall_cons in Hall as [Hmr Hall]. apply num_ltb_false in Hmr.
    split.
    + apply elem_of_cons in Hin as [Hin|Hin].
      * injection Hin as ->. destruct Hr as [->| ->]; [by left | right; by left].
      * right. by right.
    + constructor; [apply num_ltb_false; by apply (Qle_trans _ r)|].
      constructor; [apply num_ltb_false; by apply (Qle_trans _ r) | done].
Qed.

Lemma foldl_maximum_greatest a xs :
  Np.finite a → Forall Np.finite xs →
  Np.finite (foldl Np.maximum a xs) ∧ foldl Np.maximum a xs ∈ a :: xs ∧
  Forall (fun v => num_ltb (foldl Np.maximum a xs) v = false) (a :: xs).
Proof.
  intros Ha Hxs. revert a Ha. induction Hxs as [|x xs Hx Hxs IH]; intros a Ha.
  - cbn. split; [done|]. split; [by left|]. constructor; [|constructor].
    destruct a as [p| |]; try done. apply num_ltb_false, Qle_refl.
  - cbn [foldl]. destruct a as [p| |]; try done. destruct x as [q| |]; try done.
    assert (Hm : ∃ r, Np.maximum (Fin p) (Fin q) = Fin r ∧ (p <= r)%Q ∧ (q <= r)%Q ∧
                      (r = p ∨ r = q)).
    { unfold Np.maximum. destruct (num_ltb (Fin p) (Fin q)) eqn:E.
      - exists q. split; [done|]. split; [|split; [apply Qle_refl | by right]].
        cbn in E. apply negb_true_iff in E. apply Qlt_le_weak, Qnot_le_lt.
        intros H. apply Qle_bool_iff in H. congruence.
      - exists p. split; [done|]. split; [apply Qle_refl|]. split; [|by left].
        by apply num_ltb_false in E. }
    destruct Hm as (r & -> & Hrp & Hrq & Hr).
    destruct (IH (Fin r) I) as (Hfin & Hin & Hall).
    split; [done|]. destruct (foldl Np.maximum (Fin r) xs) as [m| |] eqn:Em; try done.
    apply Forall_cons in Hall as [Hmr Hall]. apply num_ltb_false in Hmr.
    split.
    + apply elem_of_cons in Hin as [Hin|Hin].
      * injection Hin as ->. destruct Hr as [->| ->]; [by left | right; by left].
      * right. by right.
    + constructor; [apply num_ltb_false; by apply (Qle_trans _ r)|].
      constructor; [apply num_ltb_false; by apply (Qle_trans _ r) | done].
Qed.

(** The promoted type of three columns does not depend on their order. *)
Lemma result_type_order a b c :
  Np.result_type a [b; c] = Np.result_type b [a; c] ∧
  Np.result_type a [b; c] = Np.result_type a [c; b].
Proof. by destruct a, b, c. Qed.

(** The length of the array is fuel enough for its pairwise summation. *)
Lemma pairwise_sum_fuel add fuel fuel' xs :
  (length xs ≤ fuel)%nat → (length xs ≤ fuel')%nat →
  Np.pairwise_sum add fuel xs = Np.pairwise_sum add fuel' xs.
Proof.
  revert fuel' xs. induction fuel as [|fuel IH]; intros fuel' xs H H'.
  - destruct xs; [|cbn in H; lia]. by destruct fuel'.
  - destruct fuel' as [|fuel'].
    + destruct xs; [|cbn in H'; lia]. reflexivity.
    + cbn [Np.pairwise_sum]. destruct (length xs <? 8)%nat; [done|].
      destruct (length xs <=? 128)%nat eqn:E128; [done|].
      apply Nat.leb_gt in E128.
      set (n := length xs) in *. set (h := (n / 2)%nat).
      assert (64 ≤ h)%nat by (apply Nat.div_le_lower_bound; lia).
      assert (2 * h ≤ n)%nat by apply Nat.Div0.mul_div_le.
      assert (h mod 8 < 8)%nat by (apply Nat.mod_upper_bound; lia).
      assert (h mod 8 ≤ h)%nat by apply Nat.Div0.mod_le.
      assert (Hn : length xs = n) by reflexivity.
      rewrite (IH fuel' (take (h - h mod 8) xs)), (IH fuel' (drop (h - h mod 8) xs));
        [done|..]; rewrite ?length_take, ?length_drop, ?Hn; clearbody n h; lia.
Qed.

Lemma bounds_of_Ok_nonempty dx dy dz xs ys zs b :
  bounds_of (Np.Arr1 dx xs) (Np.Arr1 dy ys) (Np.Arr1 dz zs) = Ok b → xs ≠ [].
Proof. intros H ->. discriminate. Qed.

End ply_processor_facts.

Section ply_processor_inversion.
Import Ply PLYProcessor.

(** What a successful [try] block of [load_ply] has done. *)
Lemma load_ply_try_Ok fs path points colors :
  load_ply_try fs path = Ok (points, colors) →
  ∃ x y z pts,
    vertex_columns fs path = Ok (x, y, z) ∧ Np.column_stack [x; y; z] = Ok pts ∧
    points = Some pts ∧
    (colors = None ∨
     ∃ raw m, raw_colors fs path = Ok raw ∧ Np.max raw = Ok m ∧
       colors = Some (if num_ltb (Fin 1) m
                      then Np.divide (Np.astype raw Np.float32) 255 else raw)).
Proof.
  unfold load_ply_try, vertex_columns, raw_colors. intros H.
  apply bind_Ok in H as (d & Hd & H). apply bind_Ok in H as (el & Hel & H).
  apply bind_Ok in H as (x & Hx & H). apply bind_Ok in H as (y & Hy & H).
  apply bind_Ok in H as (z & Hz & H). apply bind_Ok in H as (pts & Hpts & H).
  exists x, y, z, pts. rewrite Hd. cbn [mbind result_bind]. rewrite Hel.
  cbn [mbind result_bind]. rewrite Hx, Hy, Hz. cbn [mbind result_bind].
  split; [done|]. split; [done|].
  destruct (_ && _).
  - apply bind_Ok in H as (r & Hr & H). apply bind_Ok in H as (g & Hg & H).
    apply bind_Ok in H as (b & Hb & H). apply bind_Ok in H as (raw & Hraw & H).
    apply bind_Ok in H as (m & Hm & H). rewrite Hr, Hg, Hb. cbn [mbind result_bind].
    assert (Hres : points = Some pts ∧
      colors = Some (if num_ltb (Fin 1) m
                     then Np.divide (Np.astype raw Np.float32) 255 else raw))
      by (destruct (num_ltb (Fin 1) m); by injection H as <- <-).
    destruct Hres as [-> ->]. split; [done|]. right. by exists raw, m.
  - injection H as <- <-. split; [done|]. by left.
Qed.


(** An 8-bit channel [r] is a binary32 number, and its quotient by 255 in
    binary32 is the binary32 number nearest to [r/255]: a number of
    [[0.0, 1.0]] within [2^-25] of [r/255], which it is only for 0 and
    255. *)
Lemma byte_quotient (r : Z) :
  (0 ≤ r ≤ 255)%Z →
  f32 (num_div_pos (f32 (Fin (inject_Z r))) 255) = f32_of_Q (inject_Z r / 255) ∧
  ∃ q, f32_of_Q (inject_Z r / 255) = Fin q ∧ (0 <= q <= 1)%Q ∧
       (Qabs (q - inject_Z r / 255) <= Qpower 2 (-25))%Q ∧
       ((q == inject_Z r / 255)%Q ↔ r = 0%Z ∨ r = 255%Z).
Proof.
  intros Hr. assert (Hn : ∃ n, (n < 256)%nat ∧ r = Z.of_nat n)
    by (exists (Z.to_nat r); lia).
  destruct Hn as (n & Hn & ->). clear Hr.
  do 256 (destruct n as [|n];
    [split; [vm_compute; reflexivity|];
     eexists; split; [vm_compute; reflexivity|];
     split; [split; vm_compute; discriminate|];
     split; [vm_compute; discriminate|];
     split; [vm_compute; try discriminate; intros _; (by left) || (by right)
            | intros [H|H]; try discriminate H; vm_compute; reflexivity]|]).
  lia.
Qed.

End ply_processor_inversion.

(** ** How the loaders and [get_ply_info] treat errors *)

Section error_claims.
Import Ply RenderFullVideo PLYProcessor Samples.

Lemma load_lines_raises lines header_end vertex_count has_colors :
  scan_header lines 0 0 false = Ok (header_end, vertex_count, has_colors) →
  forallb (numeric_record has_colors) (window lines header_end (Z.to_nat vertex_count)) = false →
  raises_in (load_lines lines) [ValueError; OverflowError].
Proof.
  intros Hh Hbad. rewrite (load_lines_header _ _ _ _ Hh).
  by apply raises_in_bind, parse_records_raises.
Qed.

(** C1, as stated, fails.  For a path that does not exist,
    [PLYProcessor.load_ply] raises nothing: it logs the FileNotFoundError
    and returns [(None, None)]; so it does for a file that [plyfile] cannot
    parse. *)
Lemma missing_file_gives_none :
  fs !! "missing.ply"%string = None ∧
  load_ply fs "missing.ply"
  = (Ok (None, None),
     [LogError "Error loading PLY file " "missing.ply" (builtin FileNotFoundError)]) ∧
  ¬ raises (load_ply fs "missing.ply").1 ∧
  load_ply fs "truncated.ply"
  = (Ok (None, None),
     [LogError "Error loading PLY file " "truncated.ply" (builtin PlyParseError)]).
Proof.
  split; [vm_compute; reflexivity|]. split; [vm_compute; reflexivity|].
  split; [|vm_compute; reflexivity].
  intros [e He]. vm_compute in He. discriminate.
Qed.

(** C1, amended.  [PLYProcessor.load_ply] never raises: whatever exception
    its [try] block meets (the path does not exist, [plyfile] rejects the
    file, the vertex element or a coordinate property is missing), it logs
    it and returns [(None, None)].  [load_ply_file] raises FileNotFoundError
    for a path that does not exist, and ValueError or OverflowError when a
    record that the vertex loop visits has a field that [float] or [int]
    rejects, or a colour channel too large for a float. *)
Theorem load_error_behaviour (fs : gmap string file) (path : string) :
  returns (load_ply fs path).1 ∧
  (∀ e, load_ply_try fs path = Raise e →
     load_ply fs path = (Ok (None, None), [LogError "Error loading PLY file " path e])) ∧
  (fs !! path = None →
     load_ply_try fs path = Raise (builtin FileNotFoundError) ∧
     load_ply_file fs path = Raise (builtin FileNotFoundError)) ∧
  (∀ f e, fs !! path = Some f → ply_data f = Raise e → load_ply_try fs path = Raise e) ∧
  (∀ f lines header_end vertex_count has_colors,
     fs !! path = Some f → text_lines f = Ok lines →
     scan_header lines 0 0 false = Ok (header_end, vertex_count, has_colors) →
     forallb (numeric_record has_colors)
       (window lines header_end (Z.to_nat vertex_count)) = false →
     raises_in (load_ply_file fs path) [ValueError; OverflowError]).
Proof.
  split; [|split; [|split; [|split]]].
  - unfold load_ply. destruct (load_ply_try fs path); by eexists.
  - intros e He. unfold load_ply. by rewrite He.
  - intros Hnone. unfold load_ply_try, load_ply_file, PlyData_read, readlines.
    by rewrite Hnone.
  - intros f e Hf He. unfold load_ply_try, PlyData_read. by rewrite Hf, He.
  - intros f lines h n hc Hf Hl Hh Hbad. unfold load_ply_file, readlines.
    rewrite Hf, Hl. cbn [mbind result_bind]. by apply (load_lines_raises _ h n hc).
Qed.

Lemma load_error_behaviour_witness :
  load_ply Samples.fs "missing.ply"
  = (Ok (None, None),
     [LogError "Error loading PLY file " "missing.ply" (builtin FileNotFoundError)]) ∧
  load_ply_file Samples.fs "missing.ply" = Raise (builtin FileNotFoundError) ∧
  load_ply_try Samples.fs "truncated.ply" = Raise (builtin PlyParseError) ∧
  raises_in (load_ply_file Samples.fs "bad.ply") [ValueError; OverflowError].
Proof.
  destruct (load_error_behaviour Samples.fs "missing.ply") as (_ & Hlog & Hmissing & _).
  destruct Hmissing as [Htry Hfile]; [vm_compute; reflexivity|].
  split; [by apply Hlog|]. split; [exact Hfile|]. split.
  - destruct (load_error_behaviour Samples.fs "truncated.ply") as (_ & _ & _ & Hply & _).
    eapply Hply; vm_compute; reflexivity.
  - destruct (load_error_behaviour Samples.fs "bad.ply") as (_ & _ & _ & _ & Htext).
    eapply (Htext _ bad_coordinate_lines 7%nat 1%Z false); vm_compute; reflexivity.
Defined.

(** C6.  For every directory and path, [get_ply_info] returns and does not
    raise; when its [try] block has failed, whatever the exception, it
    returns the record of zeros (no points, size 0, no colours, no
    properties, no bounds) and logs one error; a path that does not exist
    and a file that [plyfile] rejects are such failures. *)
Theorem get_ply_info_never_raises (fs : gmap string file) (path : string) :
  returns (get_ply_info fs path).1 ∧
  (∀ e, get_ply_info_try fs path = Raise e →
     get_ply_info fs path
     = (Ok {| file_path_ := path; file_size := 0; point_count := 0; has_colors := false;
              has_alpha := false; properties_ := []; bounds_ := None |},
        [LogError "Error getting PLY info for " path e])) ∧
  (fs !! path = None → get_ply_info_try fs path = Raise (builtin FileNotFoundError)) ∧
  (∀ f e, fs !! path = Some f → ply_data f = Raise e → get_ply_info_try fs path = Raise e).
Proof.
  split; [|split; [|split]].
  - unfold get_ply_info. destruct (get_ply_info_try fs path); by eexists.
  - intros e He. unfold get_ply_info. by rewrite He.
  - intros Hnone. unfold get_ply_info_try, PlyData_read. by rewrite Hnone.
  - intros f e Hf He. unfold get_ply_info_try, PlyData_read. by rewrite Hf, He.
Qed.

Lemma get_ply_info_never_raises_witness :
  get_ply_info Samples.fs "missing.ply"
  = (Ok (empty_info "missing.ply"),
     [LogError "Error getting PLY info for " "missing.ply" (builtin FileNotFoundError)]) ∧
  get_ply_info Samples.fs "truncated.ply"
  = (Ok (empty_info "truncated.ply"),
     [LogError "Error getting PLY info for " "truncated.ply" (builtin PlyParseError)]).
Proof.
  split.
  - destruct (get_ply_info_never_raises Samples.fs "missing.ply") as (_ & Hlog & Hmissing & _).
    apply Hlog, Hmissing. vm_compute. reflexivity.
  - destruct (get_ply_info_never_raises Samples.fs "truncated.ply") as (_ & Hlog & _ & Hply).
    apply Hlog. eapply Hply; vm_compute; reflexivity.
Defined.

End error_claims.

(** ** The bounds of [get_ply_info] and the positions of [load_ply] *)

Section bounds_claims.
Import Ply PLYProcessor Samples.

Lemma PlyData_read_Ok fs path d :
  PlyData_read fs path = Ok d → ∃ f, fs !! path = Some f ∧ ply_data f = Ok d.
Proof.
  unfold PlyData_read. destruct (fs !! path) as [f|]; [|discriminate]. by eauto.
Qed.




Lemma max_stack dt rs gs bs :
  rs ≠ [] → returns (Np.max (Np.Arr2 dt 3 (Np.zip_columns (length rs) [rs; gs; bs]))).
Proof.
  intros Hne. unfold Np.max, Np.reduce, returns. cbn [Np.ravel].
  destruct (concat _) as [|v vs] eqn:Hc; [|by eauto].
  by apply zip_columns3_concat_nil in Hc.
Qed.





End bounds_claims.

Section bounds_witness.
Import Ply PLYProcessor Samples.



End bounds_witness.

(** ** Element types and colours of what the loaders return *)

Section array_claims.
Import Ply RenderFullVideo PLYProcessor Samples.

Lemma load_lines_Ok lines points colors :
  load_lines lines = Ok (points, colors) →
  ∃ header_end vertex_count has_colors ps cs,
    scan_header lines 0 0 false = Ok (header_end, vertex_count, has_colors) ∧
    parse_records has_colors (window lines header_end (Z.to_nat vertex_count)) = Ok (ps, cs) ∧
    points = Np.array ps ∧
    colors = match cs with [] => None | _ => Some (Np.array cs) end.
Proof.
  intros H. destruct (scan_header lines 0 0 false) as [[[h n] hc]|e] eqn:Hh.
  - rewrite (load_lines_header _ _ _ _ Hh) in H.
    apply bind_Ok in H as ([ps cs] & Hp & H). injection H as <- <-.
    by exists h, n, hc, ps, cs.
  - unfold load_lines in H. rewrite Hh in H. discriminate.
Qed.

Lemma array_dtype rows : Np.nd_dtype (Np.array rows) = Np.float64.
Proof. by destruct rows. Qed.

Lemma rows_array rows : Np.rows (Np.array rows) = rows.
Proof. by destruct rows. Qed.

Lemma column_stack_dtype a rest r :
  Np.column_stack (a :: rest) = Ok r →
  Np.nd_dtype r = Np.result_type (Np.nd_dtype a) (Np.nd_dtype <$> rest).
Proof.
  unfold Np.column_stack. destruct a as [dt xs|]; [|discriminate].
  destruct (forallb _ rest); [|discriminate]. by intros [= <-].
Qed.

Lemma divide_dtype a dt d : Np.nd_dtype (Np.divide (Np.astype a dt) d) = dt.
Proof. by destruct a. Qed.

(** C5, as stated, fails.  For a file with [float] coordinates and [uchar]
    colours, [PLYProcessor.load_ply] returns a position array and a colour
    array of 32-bit floats; when all the channels are 0 or 1, the colour
    array is one of 8-bit integers. *)
Lemma load_ply_gives_float32 :
  (load_ply Samples.fs "colored.ply").1
  = Ok (Some (Np.Arr2 Np.float32 3 [[Fin 0; Fin 0; Fin 0]; [Fin 1; Fin (1 # 2); Fin 2]]),
        Some (Np.Arr2 Np.float32 3 [[Fin 1; Fin 0; Fin (13421773 # 67108864)];
                                    [Fin 0; Fin (8421505 # 16777216); Fin (8421505 # 2147483648)]])) ∧
  Np.float32 ≠ Np.float64 ∧
  (load_ply Samples.fs "binary.ply").1
  = Ok (Some (Np.Arr2 Np.float32 3 [[Fin 0; Fin 0; Fin 0]; [Fin 1; Fin (1 # 2); Fin 2]]),
        Some (Np.Arr2 Np.uint8 3 [[Fin 1; Fin 0; Fin 0]; [Fin 0; Fin 1; Fin 0]])).
Proof. split; [vm_compute; reflexivity|]. split; [discriminate|]. vm_compute. reflexivity. Qed.

(** C5, amended.  The arrays that [load_ply_file] returns, positions and
    colours, are of 64-bit floats.  The position array that
    [PLYProcessor.load_ply] returns has the promoted type of the file's [x],
    [y] and [z] properties, and its colour array is of 32-bit floats when
    the colours are normalized and has the promoted type of the file's
    colour properties otherwise. *)
Theorem loaded_array_dtypes :
  (∀ (fs : gmap string file) path points colors,
     load_ply_file fs path = Ok (points, colors) →
     Np.nd_dtype points = Np.float64 ∧
     ∀ c, colors = Some c → Np.nd_dtype c = Np.float64) ∧
  (∀ (fs : gmap string file) path points colors,
     load_ply_try fs path = Ok (Some points, colors) →
     ∃ x y z,
       vertex_columns fs path = Ok (x, y, z) ∧
       Np.nd_dtype points = Np.result_type (Np.nd_dtype x) [Np.nd_dtype y; Np.nd_dtype z] ∧
       ∀ c, colors = Some c →
         ∃ raw m, raw_colors fs path = Ok raw ∧ Np.max raw = Ok m ∧
           Np.nd_dtype c = if num_ltb (Fin 1) m then Np.float32 else Np.nd_dtype raw).
Proof.
  split.
  - intros fs path points colors H. unfold load_ply_file in H.
    apply bind_Ok in H as (lines & _ & H).
    apply load_lines_Ok in H as (h & n & hc & ps & cs & _ & _ & -> & ->).
    split; [apply array_dtype|]. intros c Hc. destruct cs; [discriminate|].
    injection Hc as <-. reflexivity.
  - intros fs path points colors H.
    apply load_ply_try_Ok in H as (x & y & z & pts & Hcols & Hstack & Hpts & Hc).
    injection Hpts as ->. exists x, y, z. split; [done|].
    split; [by rewrite (column_stack_dtype _ _ _ Hstack)|].
    intros c ->. destruct Hc as [|(raw & m & Hraw & Hm & Hc)]; [discriminate|].
    exists raw, m. split; [exact Hraw|]. split; [exact Hm|].
    assert (Ec : c = if num_ltb (Fin 1) m
                     then Np.divide (Np.astype raw Np.float32) 255 else raw) by congruence.
    rewrite Ec. destruct (num_ltb (Fin 1) m); [apply divide_dtype | reflexivity].
Qed.

Lemma loaded_array_dtypes_witness :
  (∃ points c, load_ply_file Samples.fs "colored.ply" = Ok (points, Some c) ∧
     Np.nd_dtype points = Np.float64 ∧ Np.nd_dtype c = Np.float64) ∧
  (∃ points colors, load_ply_try Samples.fs "colored.ply" = Ok (Some points, colors) ∧
     Np.nd_dtype points = Np.float32).
Proof.
  destruct loaded_array_dtypes as [Htext Hply]. split.
  - assert (H : load_ply_file Samples.fs "colored.ply"
      = Ok (Np.Arr2 Np.float64 3 [[Fin 0; Fin 0; Fin 0]; [Fin 1; Fin (1 # 2); Fin 2]],
            Some (Np.Arr2 Np.float64 3 [[Fin 1; Fin 0; Fin (1 # 5)];
                                        [Fin 0; Fin (128 # 255); Fin (1 # 255)]])))
      by (vm_compute; reflexivity).
    destruct (Htext _ _ _ _ H) as [Hp Hc].
    eexists _, _. split; [exact H|]. split; [exact Hp | by apply Hc].
  - assert (H : load_ply_try Samples.fs "colored.ply"
      = Ok (Some (Np.Arr2 Np.float32 3 [[Fin 0; Fin 0; Fin 0]; [Fin 1; Fin (1 # 2); Fin 2]]),
            Some (Np.Arr2 Np.float32 3 [[Fin 1; Fin 0; Fin (13421773 # 67108864)];
                                        [Fin 0; Fin (8421505 # 16777216); Fin (8421505 # 2147483648)]])))
      by (vm_compute; reflexivity).
    destruct (Hply _ _ _ _ H) as (x & y & z & Hcols & Hdt & _).
    eexists _, _. split; [exact H|]. rewrite Hdt.
    assert (Hv : vertex_columns Samples.fs "colored.ply"
      = Ok (Np.Arr1 Np.float32 [Fin 0; Fin 1], Np.Arr1 Np.float32 [Fin 0; Fin (1 # 2)],
            Np.Arr1 Np.float32 [Fin 0; Fin 2])) by (vm_compute; reflexivity).
    rewrite Hv in Hcols. injection Hcols as <- <- <-. reflexivity.
Defined.

End array_claims.

Section color_claims.
Import Ply RenderFullVideo PLYProcessor Samples.


Lemma num_ltb_maximum q a v :
  Np.finite a → Np.finite v →
  Np.finite (Np.maximum a v) ∧
  (num_ltb (Fin q) (Np.maximum a v) = true ↔
   num_ltb (Fin q) a = true ∨ num_ltb (Fin q) v = true).
Proof.
  destruct a as [a| |], v as [v| |]; cbn; try done. intros _ _.
  destruct (Qle_bool v a) eqn:Hva; cbn; (split; [done|]).
  - apply Qle_bool_iff in Hva. split; [by left|]. intros [H|H]; [done|].
    rewrite negb_true_iff in *. apply not_true_iff_false. rewrite Qle_bool_iff.
    apply not_true_iff_false in H. rewrite Qle_bool_iff in H.
    intros Haq. apply H. by apply (Qle_trans _ a).
  - split; [by right|]. intros [H|H]; [|done].
    rewrite negb_true_iff in *. apply not_true_iff_false. rewrite Qle_bool_iff.
    apply not_true_iff_false in H. rewrite Qle_bool_iff in H.
    apply not_true_iff_false in Hva. rewrite Qle_bool_iff in Hva.
    intros Hvq. apply Hva. apply (Qle_trans _ q); [done|].
    apply Qlt_le_weak. by apply Qnot_le_lt.
Qed.

Lemma num_ltb_foldl_maximum q a xs :
  Np.finite a → Forall Np.finite xs →
  num_ltb (Fin q) (foldl Np.maximum a xs) = true ↔
  num_ltb (Fin q) a = true ∨ Exists (fun v => num_ltb (Fin q) v = true) xs.
Proof.
  revert a. induction xs as [|x xs IH]; intros a Ha Hxs; cbn.
  - rewrite Exists_nil. tauto.
  - apply Forall_cons in Hxs as [Hx Hxs].
    destruct (num_ltb_maximum q a x Ha Hx) as [Hfin Hmax].
    rewrite (IH _ Hfin Hxs), Hmax, Exists_cons. tauto.
Qed.

(** The maximum of finite values exceeds a bound exactly when one of them
    does. *)
Lemma max_exceeds q raw m :
  Forall Np.finite (Np.ravel raw) → Np.max raw = Ok m →
  num_ltb (Fin q) m = true ↔ Exists (fun v => num_ltb (Fin q) v = true) (Np.ravel raw).
Proof.
  unfold Np.max, Np.reduce. destruct (Np.ravel raw) as [|x xs]; [discriminate|].
  intros Hfin [= <-]. apply Forall_cons in Hfin as [Hx Hxs].
  rewrite (num_ltb_foldl_maximum q x xs Hx Hxs), Exists_cons. tauto.
Qed.

End color_claims.

Section color_theorems.
Import Ply RenderFullVideo PLYProcessor Samples.




End color_theorems.

(** * Further properties of the code *)

(** ** The header scan of [load_ply_file] *)

Section header_scan.
Import Ply RenderFullVideo.

Lemma scan_header_after_end pre l post i n hc :
  strip l = "end_header"%string →
  scan_header (pre ++ l :: post) i n hc = scan_header (pre ++ [l]) i n hc.
Proof.
  intros Hl. revert i n hc. induction pre as [|x pre IH]; intros i n hc.
  - cbn. by rewrite Hl.
  - cbn [app scan_header].
    destruct (startswith (strip x) "element vertex").
    + destruct (match last (split (strip x)) with
                | Some tok => int tok
                | None => Raise (builtin IndexError)
                end) as [m|e]; cbn [mbind result_bind]; [apply IH | done].
    + destruct (startswith (strip x) "property uchar red"); [apply IH|].
      destruct (String.eqb (strip x) "end_header"); [done | apply IH].
Qed.

Lemma scan_header_first_end pre l i n hc h n' hc' :
  Forall (fun x => strip x ≠ "end_header"%string) pre →
  strip l = "end_header"%string →
  scan_header (pre ++ [l]) i n hc = Ok (h, n', hc') → h = S (i + length pre).
Proof.
  intros Hpre Hl. revert i n hc. induction Hpre as [|x pre Hx Hpre IH]; intros i n hc H.
  - cbn in H. rewrite Hl in H. cbn in H. injection H as Hh _ _. cbn. lia.
  - cbn [app scan_header] in H.
    destruct (startswith (strip x) "element vertex").
    + apply bind_Ok in H as (m & _ & H). apply IH in H. cbn. lia.
    + destruct (startswith (strip x) "property uchar red"); [apply IH in H; cbn; lia|].
      destruct (String.eqb (strip x) "end_header") eqn:E.
      * by apply String.eqb_eq in E.
      * apply IH in H. cbn. lia.
Qed.

Lemma scan_header_no_end lines i n hc h n' hc' :
  Forall (fun x => strip x ≠ "end_header"%string) lines →
  scan_header lines i n hc = Ok (h, n', hc') → h = 0%nat.
Proof.
  intros Hl. revert i n hc. induction Hl as [|x lines Hx Hl IH]; intros i n hc H.
  - cbn in H. injection H as Hh _ _. by subst.
  - cbn [scan_header] in H.
    destruct (startswith (strip x) "element vertex").
    + apply bind_Ok in H as (m & _ & H). by apply IH in H.
    + destruct (startswith (strip x) "property uchar red"); [by apply IH in H|].
      destruct (String.eqb (strip x) "end_header") eqn:E.
      * by apply String.eqb_eq in E.
      * by apply IH in H.
Qed.

Lemma scan_header_no_vertex lines i n hc :
  Forall (fun x => startswith (strip x) "element vertex" = false) lines →
  ∃ h hc', scan_header lines i n hc = Ok (h, n, hc').
Proof.
  intros Hl. revert i hc. induction Hl as [|x lines Hx Hl IH]; intros i hc.
  - cbn. by eauto.
  - cbn [scan_header]. rewrite Hx.
    destruct (startswith (strip x) "property uchar red"); [apply IH|].
    destruct (String.eqb (strip x) "end_header"); [by eauto | apply IH].
Qed.

Lemma scan_header_no_colors lines i n h n' hc' :
  Forall (fun x => startswith (strip x) "property uchar red" = false) lines →
  scan_header lines i n false = Ok (h, n', hc') → hc' = false.
Proof.
  intros Hl. revert i n. induction Hl as [|x lines Hx Hl IH]; intros i n H.
  - cbn in H. injection H as _ _ Hc. by subst.
  - cbn [scan_header] in H. rewrite Hx in H.
    destruct (startswith (strip x) "element vertex").
    + apply bind_Ok in H as (m & _ & H). by apply IH in H.
    + destruct (String.eqb (strip x) "end_header").
      * injection H as _ _ Hc. by subst.
      * by apply IH in H.
Qed.

End header_scan.

Section load_ply_file_extras.
Import Ply RenderFullVideo.

(** One record gives at most one point, of three coordinates, and at most
    one colour, of three components. *)
Lemma parse_record_rows has_colors parts ps cs :
  parse_record has_colors parts = Ok (ps, cs) →
  Forall (fun row => length row = 3%nat) ps ∧ Forall (fun row => length row = 3%nat) cs.
Proof.
  intros H. apply parse_record_Ok in H.
  destruct (decide (3 ≤ length parts)%nat).
  - destruct H as [(x & y & z & ->) Hc]. split; [by repeat constructor|].
    destruct has_colors; [|by subst].
    destruct (decide (6 ≤ length parts)%nat).
    + destruct Hc as (r & g & b & _ & _ & _ & ->). by repeat constructor.
    + subst cs. by repeat constructor.
  - by destruct H as [-> ->].
Qed.

Lemma parse_records_rows has_colors records ps cs :
  parse_records has_colors records = Ok (ps, cs) →
  Forall (fun row => length row = 3%nat) ps ∧ Forall (fun row => length row = 3%nat) cs.
Proof.
  revert ps cs. induction records as [|parts rest IH]; intros ps cs H.
  - cbn in H. injection H as <- <-. by split.
  - cbn [parse_records] in H.
    apply bind_Ok in H as ([ps1 cs1] & H1 & H).
    apply bind_Ok in H as ([ps2 cs2] & H2 & H). injection H as <- <-.
    destruct (parse_record_rows _ _ _ _ H1), (IH _ _ H2).
    split; by apply Forall_app.
Qed.

(** X1.  When [load_ply_file] returns a colour array, it has as many rows as
    the position array, and that is at least one: every point has its
    colour. *)
Theorem load_ply_file_colors_match_points (fs : gmap string file) path points colors c :
  load_ply_file fs path = Ok (points, colors) → colors = Some c →
  Np.len c = Np.len points ∧ (0 < Np.len points)%nat.
Proof.
  intros H ->. unfold load_ply_file in H. apply bind_Ok in H as (lines & _ & H).
  apply load_lines_Ok in H as (h & n & hc & ps & cs & _ & Hp & -> & Hc).
  destruct cs as [|c0 cs]; [discriminate|].
  assert (Ec : c = Np.array (c0 :: cs)) by congruence. subst c.
  apply parse_records_lengths in Hp as [Hps Hcs].
  rewrite !len_array. destruct hc; [|discriminate].
  rewrite Hps, <- Hcs. split; [reflexivity|]. cbn [length]. lia.
Qed.

Lemma load_ply_file_colors_match_points_witness :
  ∃ points c, load_ply_file Samples.fs "colored.ply" = Ok (points, Some c) ∧
    Np.len c = Np.len points ∧ (0 < Np.len points)%nat.
Proof.
  assert (H : load_ply_file Samples.fs "colored.ply"
    = Ok (Np.Arr2 Np.float64 3 [[Fin 0; Fin 0; Fin 0]; [Fin 1; Fin (1 # 2); Fin 2]],
          Some (Np.Arr2 Np.float64 3 [[Fin 1; Fin 0; Fin (1 # 5)];
                                      [Fin 0; Fin (128 # 255); Fin (1 # 255)]])))
    by (vm_compute; reflexivity).
  eexists _, _. split; [exact H|].
  exact (load_ply_file_colors_match_points _ _ _ _ _ H eq_refl).
Defined.

(** X2.  The position array that [load_ply_file] returns is the empty
    one-dimensional array or a two-dimensional array of rows of three
    values; so is the colour array, when there is one. *)
Theorem load_ply_file_shapes (fs : gmap string file) path points colors :
  load_ply_file fs path = Ok (points, colors) →
  (points = Np.Arr1 Np.float64 [] ∨
   ∃ rows, points = Np.Arr2 Np.float64 3 rows ∧ rows ≠ [] ∧
           Forall (fun row => length row = 3%nat) rows) ∧
  (∀ c, colors = Some c →
     ∃ rows, c = Np.Arr2 Np.float64 3 rows ∧ rows ≠ [] ∧
             Forall (fun row => length row = 3%nat) rows).
Proof.
  intros H. unfold load_ply_file in H. apply bind_Ok in H as (lines & _ & H).
  apply load_lines_Ok in H as (h & n & hc & ps & cs & _ & Hp & -> & ->).
  apply parse_records_rows in Hp as [Hps Hcs]. split.
  - destruct ps as [|p ps]; [by left|]. right. by exists (p :: ps).
  - intros c Hc. destruct cs as [|c0 cs]; [discriminate|]. injection Hc as <-.
    by exists (c0 :: cs).
Qed.

Lemma load_ply_file_shapes_witness :
  ∃ points colors, load_ply_file Samples.fs "truncated.ply" = Ok (points, colors) ∧
    ∃ rows, points = Np.Arr2 Np.float64 3 rows ∧ Forall (fun row => length row = 3%nat) rows.
Proof.
  assert (H : load_ply_file Samples.fs "truncated.ply"
    = Ok (Np.Arr2 Np.float64 3 [[Fin 0; Fin 0; Fin 0]; [Fin 1; Fin (1 # 2); Fin 0];
                                [Fin 2; Fin 2; Fin 2]], None)) by (vm_compute; reflexivity).
  eexists _, _. split; [exact H|].
  destruct (load_ply_file_shapes _ _ _ _ H) as [[Hp|(rows & Hr & _ & Hf)] _];
    [discriminate|]. by exists rows.
Defined.

(** X3.  When no line of the file is [end_header], the header scan leaves
    [header_end] at 0: the vertex loop starts at the first line of the
    file. *)
Theorem header_end_without_end_header lines header_end vertex_count has_colors :
  Forall (fun line => strip line ≠ "end_header"%string) lines →
  scan_header lines 0 0 false = Ok (header_end, vertex_count, has_colors) →
  header_end = 0%nat ∧
  load_lines lines =
    '(points, colors) ← parse_records has_colors (window lines 0 (Z.to_nat vertex_count));
    Ok (Np.array points, match colors with [] => None | _ => Some (Np.array colors) end).
Proof.
  intros Hl Hh. pose proof (scan_header_no_end _ _ _ _ _ _ _ Hl Hh) as ->.
  split; [done|]. by apply load_lines_header.
Qed.

Lemma header_end_without_end_header_witness :
  scan_header MoreSamples.endless_lines 0 0 false = Ok (0%nat, 1%Z, false) ∧
  load_lines MoreSamples.endless_lines = Ok (Np.Arr1 Np.float64 [], None).
Proof.
  assert (Hh : scan_header MoreSamples.endless_lines 0 0 false = Ok (0%nat, 1%Z, false))
    by (vm_compute; reflexivity).
  split; [exact Hh|].
  destruct (header_end_without_end_header MoreSamples.endless_lines 0 1 false) as [_ ->];
    [repeat constructor; vm_compute; congruence | exact Hh |].
  vm_compute. reflexivity.
Defined.

(** X4.  The header scan looks at nothing after the first [end_header]
    line, and [header_end] is the index of the line after it. *)
Theorem header_scan_stops_at_end_header pre line post :
  strip line = "end_header"%string →
  Forall (fun x => strip x ≠ "end_header"%string) pre →
  scan_header (pre ++ line :: post) 0 0 false = scan_header (pre ++ [line]) 0 0 false ∧
  ∀ header_end vertex_count has_colors,
    scan_header (pre ++ line :: post) 0 0 false = Ok (header_end, vertex_count, has_colors) →
    header_end = S (length pre).
Proof.
  intros Hl Hpre. split; [by apply scan_header_after_end|].
  intros h n hc H. rewrite scan_header_after_end in H by done.
  by apply (scan_header_first_end pre line 0 0 false h n hc) in H.
Qed.

Lemma header_scan_stops_at_end_header_witness :
  scan_header (Samples.text (Samples.header "2" true) ++ ["element vertex 9"; "end_header"]%string)
    0 0 false = Ok (10%nat, 2%Z, true).
Proof.
  destruct (header_scan_stops_at_end_header
              (Samples.text (removelast (Samples.header "2" true)))
              (String.append "end_header" (String (ascii_of_nat 10) EmptyString))
              ["element vertex 9"; "end_header"]%string) as [Heq _].
  - vm_compute. reflexivity.
  - repeat constructor; vm_compute; congruence.
  - etransitivity; [exact Heq|]. vm_compute. reflexivity.
Defined.

(** X5.  Colours are read only if a header line starts with
    [property uchar red]: without such a line, [load_ply_file] returns no
    colour array, whatever the records hold. *)
Theorem no_uchar_red_no_colors (fs : gmap string file) path lines points colors :
  readlines fs path = Ok lines →
  Forall (fun line => startswith (strip line) "property uchar red" = false) lines →
  load_ply_file fs path = Ok (points, colors) → colors = None.
Proof.
  intros Hr Hl H. unfold load_ply_file in H. rewrite Hr in H. cbn [mbind result_bind] in H.
  apply load_lines_Ok in H as (h & n & hc & ps & cs & Hh & Hp & _ & ->).
  apply (scan_header_no_colors _ _ _ _ _ _ Hl) in Hh. subst hc.
  apply parse_records_lengths in Hp as [_ Hcs]. by destruct cs.
Qed.

Lemma no_uchar_red_no_colors_witness :
  load_ply_file MoreSamples.fs "uint8.ply"
  = Ok (Np.Arr2 Np.float64 3 [[Fin 0; Fin 0; Fin 0]], None).
Proof.
  assert (H : ∃ colors, load_ply_file MoreSamples.fs "uint8.ply"
                        = Ok (Np.Arr2 Np.float64 3 [[Fin 0; Fin 0; Fin 0]], colors))
    by (eexists; vm_compute; reflexivity).
  destruct H as [colors H]. rewrite H. do 2 f_equal.
  apply (no_uchar_red_no_colors MoreSamples.fs "uint8.ply" MoreSamples.uint8_colored_lines
           (Np.Arr2 Np.float64 3 [[Fin 0; Fin 0; Fin 0]]) colors);
    [vm_compute; reflexivity | repeat constructor | exact H].
Defined.

(** X6.  A file none of whose lines starts with [element vertex] is loaded
    as an empty point cloud, without an error: the vertex count stays 0. *)
Theorem no_vertex_element_empty_cloud (fs : gmap string file) path lines :
  readlines fs path = Ok lines →
  Forall (fun line => startswith (strip line) "element vertex" = false) lines →
  load_ply_file fs path = Ok (Np.Arr1 Np.float64 [], None).
Proof.
  intros Hr Hl. rewrite (load_ply_file_lines _ _ _ Hr).
  destruct (scan_header_no_vertex lines 0 0 false Hl) as (h & hc & Hh).
  rewrite (load_lines_header _ _ _ _ Hh). unfold window. by rewrite take_0.
Qed.

Lemma no_vertex_element_empty_cloud_witness :
  load_ply_file MoreSamples.fs "faces.ply" = Ok (Np.Arr1 Np.float64 [], None).
Proof.
  apply (no_vertex_element_empty_cloud _ _ MoreSamples.faces_only_lines).
  - vm_compute. reflexivity.
  - repeat constructor.
Defined.

End load_ply_file_extras.

(** ** The spheres and the frame loop of render_full_video.py *)

Section format_facts.
Import RenderFrames.

Lemma pretty_N_go_head (x : N) s :
  (0 < x)%N → ∃ c r, pretty_N_go x s = String c r ∧ c ≠ "0"%char.
Proof.
  revert s. induction (N.lt_wf_0 x) as [x _ IH]; intros s Hx.
  rewrite pretty_N_go_step by done.
  destruct (decide (x `div` 10 = 0)%N) as [Hd|Hd].
  - rewrite Hd, pretty_N_go_0. eexists _, _. split; [done|].
    pose proof (proj1 (N.div_small_iff x 10 ltac:(done)) Hd) as Hlt.
    rewrite N.mod_small by done.
    assert (x = 1 ∨ x = 2 ∨ x = 3 ∨ x = 4 ∨ x = 5 ∨ x = 6 ∨ x = 7 ∨ x = 8 ∨ x = 9)%N
      as Hcases by lia.
    destruct Hcases as [->|[->|[->|[->|[->|[->|[->|[->| ->]]]]]]]]; discriminate.
  - apply IH; [apply N.div_lt; lia | by apply N.neq_0_lt_0].
Qed.

(** A decimal numeral is not empty and has no zero in front, unless it is
    ["0"]. *)
Lemma pretty_nat_head (n : nat) :
  pretty n ≠ EmptyString ∧ ∀ r, pretty n = String "0" r → r = EmptyString.
Proof.
  unfold pretty, pretty_nat, pretty, pretty_N.
  destruct (decide (N.of_nat n = 0)%N) as [H0|H0].
  - split; [done|]. by intros r [= <-].
  - destruct (pretty_N_go_head (N.of_nat n) "") as (c & r & -> & Hc); [lia|].
    split; [done|]. intros r' [= Hc' _]. by destruct Hc.
Qed.

Lemma zeros_app_inj a b s t :
  s ≠ EmptyString → t ≠ EmptyString →
  (∀ r, s = String "0" r → r = EmptyString) →
  (∀ r, t = String "0" r → r = EmptyString) →
  (zeros a +:+ s = zeros b +:+ t)%string → s = t.
Proof.
  intros Hs Ht Hs0 Ht0. revert b. induction a as [|a IH]; intros [|b] H; cbn in H.
  - done.
  - apply Hs0 in H. destruct b, t; cbn in H; done.
  - symmetry in H. apply Ht0 in H. destruct a, s; cbn in H; done.
  - injection H as H. by apply (IH b).
Qed.

Lemma format_04d_inj n m : format_04d n = format_04d m → n = m.
Proof.
  unfold format_04d. intros H.
  destruct (pretty_nat_head n) as [Hn Hn0], (pretty_nat_head m) as [Hm Hm0].
  apply zeros_app_inj in H; [|done..]. by apply (inj pretty).
Qed.

End format_facts.

Section sphere_facts.
Import Ply RenderFullVideo RenderFrames.

Lemma ltb_one_normalized (r : Z) :
  num_ltb (Fin 1) (Fin (Qred (inject_Z r / 255))) = (255 <? r)%Z.
Proof.
  cbn [num_ltb]. apply eq_true_iff_eq.
  rewrite negb_true_iff, Z.ltb_lt, <- not_true_iff_false, Qle_bool_iff, Qred_correct.
  unfold Qle, Qdiv, Qmult, Qinv, inject_Z. cbn. lia.
Qed.

(** X7.  The base colour given to a sphere for the loaded colour
    [(r/255.0, g/255.0, b/255.0)]: the colour itself with alpha 1.0 when no
    channel is above 255; when a channel is above 255, the colour is divided
    by 255 a second time. *)
Theorem base_color_normalized (r g b : Z) :
  base_color (normalized r g b)
  = Ok ((if (255 <? Z.max r (Z.max g b))%Z
         then (fun x => num_div_pos x 255) <$> normalized r g b
         else normalized r g b) ++ [Fin 1]).
Proof.
  unfold base_color, normalized, Np.reduce. cbn [mbind result_bind].
  assert (Hmax : num_ltb (Fin 1)
            (foldl Np.maximum (Fin (Qred (inject_Z r / 255)))
               [Fin (Qred (inject_Z g / 255)); Fin (Qred (inject_Z b / 255))])
            = (255 <? Z.max r (Z.max g b))%Z).
  { apply eq_true_iff_eq.
    rewrite num_ltb_foldl_maximum by (repeat constructor).
    rewrite !Exists_cons, Exists_nil, !ltb_one_normalized, !Z.ltb_lt. lia. }
  by rewrite Hmax.
Qed.

Lemma base_color_unit color :
  color ≠ [] → Forall Np.in_unit color → base_color color = Ok (color ++ [Fin 1]).
Proof.
  intros Hne Hu. unfold base_color, Np.reduce. destruct color as [|x xs]; [done|].
  cbn [mbind result_bind].
  assert (Hfin : ∀ v, Np.in_unit v → Np.finite v ∧ num_ltb (Fin 1) v = false).
  { intros [q| |]; cbn; try done. intros [_ Hq]. split; [done|].
    apply negb_false_iff. by apply Qle_bool_iff. }
  apply Forall_cons in Hu as [Hx Hxs].
  destruct (num_ltb (Fin 1) (foldl Np.maximum x xs)) eqn:E; [|done].
  apply num_ltb_foldl_maximum in E.
  - destruct E as [E|E].
    + destruct (Hfin _ Hx) as [_ Hx']. congruence.
    + apply Exists_exists in E as (v & Hv & E). rewrite Forall_forall in Hxs.
      destruct (Hfin _ (Hxs _ Hv)) as [_ Hv']. congruence.
  - by apply Hfin.
  - eapply Forall_impl; [exact Hxs|]. intros v Hv. by apply Hfin.
Qed.

Lemma create_spheres_unit points colors k :
  Forall (fun row => row ≠ [] ∧ Forall Np.in_unit row) colors →
  ∃ spheres,
    create_spheres points (Some colors) k = Ok spheres ∧
    length spheres = length points ∧
    ∀ i point, points !! i = Some point →
      spheres !! i = Some {| sphere_name := "Sphere_" +:+ format_04d (k + i);
                             sphere_location := point;
                             sphere_base_color :=
                               (fun c => c ++ [Fin 1]) <$> colors !! (k + i)%nat |}.
Proof.
  intros Hc. revert k. induction points as [|p points IH]; intros k.
  - exists []. split; [done|]. split; [done|]. intros i point Hi.
    by rewrite lookup_nil in Hi.
  - destruct (IH (S k)) as (spheres & Hs & Hlen & Hlook).
    cbn [create_spheres]. rewrite Hs.
    assert (Hcol : match colors !! k with
                   | Some color => base_color color ≫= λ col, Ok (Some col)
                   | None => Ok None
                   end = Ok ((fun c => c ++ [Fin 1]) <$> colors !! k)).
    { destruct (colors !! k) as [color|] eqn:Ek; [|done].
      rewrite Forall_forall in Hc.
      destruct (Hc color) as [Hne Hu]; [by eapply list_elem_of_lookup_2|].
      by rewrite (base_color_unit _ Hne Hu). }
    rewrite Hcol. cbn [mbind result_bind]. eexists. split; [reflexivity|].
    split; [cbn; lia|]. intros [|i] point Hi; cbn in Hi.
    + injection Hi as <-. cbn. by rewrite Nat.add_0_r.
    + etransitivity; [exact (Hlook i point Hi)|]. by rewrite Nat.add_succ_r.
Qed.

(** X8.  With a colour array whose values are in [[0.0, 1.0]],
    [create_sphere_objects] makes one sphere per point, in order: sphere [i]
    is named [Sphere_] followed by the index in four digits, lies at point
    [i], and has the colour of row [i] unchanged, with alpha 1.0, or no
    colour of its own when the colour array is shorter. *)
Theorem create_sphere_objects_unit_colors points colors :
  Forall (fun row => row ≠ [] ∧ Forall Np.in_unit row) colors →
  ∃ spheres,
    create_sphere_objects points (Some colors) = Ok spheres ∧
    length spheres = length points ∧
    ∀ i point, points !! i = Some point →
      spheres !! i = Some {| sphere_name := "Sphere_" +:+ format_04d i;
                             sphere_location := point;
                             sphere_base_color := (fun c => c ++ [Fin 1]) <$> colors !! i |}.
Proof. intros Hc. apply (create_spheres_unit points colors 0 Hc). Qed.

Lemma create_sphere_objects_unit_colors_witness :
  ∃ spheres,
    create_sphere_objects [[Fin 0; Fin 0; Fin 0]; [Fin 1; Fin (1 # 2); Fin 2]]
      (Some [[Fin 1; Fin 0; Fin (1 # 5)]; [Fin 0; Fin (128 # 255); Fin (1 # 255)]])
    = Ok spheres ∧
    spheres !! 1%nat
    = Some {| sphere_name := "Sphere_0001"; sphere_location := [Fin 1; Fin (1 # 2); Fin 2];
              sphere_base_color := Some [Fin 0; Fin (128 # 255); Fin (1 # 255); Fin 1] |}.
Proof.
  destruct (create_sphere_objects_unit_colors
              [[Fin 0; Fin 0; Fin 0]; [Fin 1; Fin (1 # 2); Fin 2]]
              [[Fin 1; Fin 0; Fin (1 # 5)]; [Fin 0; Fin (128 # 255); Fin (1 # 255)]])
    as (spheres & Hs & _ & Hlook).
  - repeat constructor; try discriminate; cbn; try discriminate.
  - exists spheres. split; [exact Hs|]. exact (Hlook 1%nat _ eq_refl).
Defined.

End sphere_facts.

Section frame_loop_facts.
Import Ply RenderFullVideo RenderFrames.

Lemma frame_ok_cons fs f ply_files i fr :
  frame_ok fs ply_files (S i) fr → frame_ok fs (f :: ply_files) i fr.
Proof.
  intros (j & Hn & Hm & Hf & Hrest). exists (S j).
  split; [lia|]. split; [by rewrite Nat.add_succ_r|]. by split.
Qed.

Lemma render_loop_frames fs ply_files i :
  Forall (frame_ok fs ply_files i) (render_loop fs ply_files i).1 ∧
  Forall (fun fr => (i < frame_number fr)%nat) (render_loop fs ply_files i).1 ∧
  StronglySorted (fun a b => (frame_number a < frame_number b)%nat)
    (render_loop fs ply_files i).1.
Proof.
  revert i. induction ply_files as [|f rest IH]; intros i.
  - cbn. repeat split; constructor.
  - destruct (IH (S i)) as (Hok & Hlt & Hsorted).
    assert (Hskip : Forall (frame_ok fs (f :: rest) i) (render_loop fs rest (S i)).1 ∧
      Forall (fun fr => (i < frame_number fr)%nat) (render_loop fs rest (S i)).1 ∧
      StronglySorted (fun a b => (frame_number a < frame_number b)%nat)
        (render_loop fs rest (S i)).1).
    { split; [|split; [|done]].
      - eapply Forall_impl; [exact Hok|]. intros fr. apply frame_ok_cons.
      - eapply Forall_impl; [exact Hlt|]. intros fr ?. cbn beta in *. lia. }
    cbn [render_loop].
    destruct (negb (i mod STEP =? 0)%nat) eqn:Estep; [exact Hskip|].
    destruct (load_ply_file fs f) as [[points colors]|e] eqn:Eload;
      [|cbn; repeat split; constructor].
    destruct (Np.len points =? 0)%nat eqn:Elen; [exact Hskip|].
    destruct (create_sphere_objects _ _) as [spheres|e];
      [|cbn; repeat split; constructor].
    destruct (render_loop fs rest (S i)) as [frames r]. cbn [fst] in *.
    destruct Hskip as (Hok' & Hlt' & _).
    split; [|split].
    + constructor; [|exact Hok']. exists 0%nat. cbn.
      apply negb_false_iff, Nat.eqb_eq in Estep. apply Nat.eqb_neq in Elen.
      rewrite Nat.add_0_r. repeat split; try done.
      exists points, colors. split; [done | lia].
    + constructor; [cbn; lia | exact Hlt'].
    + constructor; [exact Hsorted|].
      eapply Forall_impl; [exact Hlt|]. intros fr ?. cbn in *. lia.
Qed.

(** X9.  The frames that [main] renders are taken from every tenth file of
    the sequence, starting with the first: a rendered frame has the number
    [j + 1] of a file at an index [j] that is a multiple of 10, from which
    at least one point was loaded, and is written to
    [output/full_video_working/frame_] followed by its number in four
    digits; the frames are rendered by increasing number. *)
Theorem main_renders_every_tenth_file (fs : gmap string file) (ply_files : list string) :
  Forall (fun fr =>
    ∃ j, frame_number fr = (j + 1)%nat ∧ (j mod 10 = 0)%nat ∧
         ply_files !! j = Some (frame_file fr) ∧
         frame_filepath fr
           = ("output/full_video_working/frame_" +:+ format_04d (frame_number fr))%string ∧
         ∃ points colors, load_ply_file fs (frame_file fr) = Ok (points, colors) ∧
                          (0 < Np.len points)%nat)
    (main fs ply_files).1 ∧
  StronglySorted (fun a b => (frame_number a < frame_number b)%nat) (main fs ply_files).1.
Proof.
  destruct (render_loop_frames fs ply_files 0) as (Hok & _ & Hsorted).
  split; [|exact Hsorted].
  eapply Forall_impl; [exact Hok|]. intros fr (j & Hn & Hm & Hf & Hp & Hl).
  exists j. by repeat split.
Qed.

(** X10.  A file of the sequence that is not at a multiple of 10 is never
    opened: what [main] does is the same in two directories that agree on
    the files at the multiples of 10. *)
Theorem main_reads_every_tenth_file_only (fs fs' : gmap string file) ply_files :
  (∀ j f, ply_files !! j = Some f → (j mod STEP = 0)%nat → fs !! f = fs' !! f) →
  main fs ply_files = main fs' ply_files.
Proof.
  assert (H : ∀ i, (∀ j f, ply_files !! j = Some f → ((i + j) mod STEP = 0)%nat →
                      fs !! f = fs' !! f) →
                   render_loop fs ply_files i = render_loop fs' ply_files i).
  { induction ply_files as [|f rest IH]; intros i Hagree; [done|].
    cbn [render_loop].
    assert (Hrest : render_loop fs rest (S i) = render_loop fs' rest (S i)).
    { apply IH. intros j g Hj Hm. apply (Hagree (S j) g Hj).
      by rewrite Nat.add_succ_r. }
    destruct (negb (i mod STEP =? 0)%nat) eqn:Estep; [exact Hrest|].
    apply negb_false_iff, Nat.eqb_eq in Estep.
    assert (Hf : load_ply_file fs f = load_ply_file fs' f).
    { unfold load_ply_file, readlines. rewrite (Hagree 0%nat f eq_refl); [done|].
      by rewrite Nat.add_0_r. }
    by rewrite Hf, Hrest. }
  intros Hagree. apply (H 0%nat). intros j f Hj Hm. by apply (Hagree j f).
Qed.

End frame_loop_facts.

Section frame_loop_claims.
Import Ply RenderFullVideo RenderFrames.

Lemma main_reads_every_tenth_file_only_witness :
  main Samples.fs MoreSamples.eleven_files
  = main MoreSamples.fs_with_bad_second MoreSamples.eleven_files.
Proof.
  apply main_reads_every_tenth_file_only. intros j f Hj Hm.
  do 11 (destruct j as [|j];
         [cbn in Hj, Hm; try discriminate; injection Hj as <-; vm_compute; reflexivity|]).
  discriminate.
Defined.

Lemma render_loop_abort fs ply_files i j f :
  ply_files !! j = Some f → ((i + j) mod STEP = 0)%nat → raises (load_ply_file fs f) →
  raises (render_loop fs ply_files i).2 ∧
  Forall (fun fr => (frame_number fr ≤ i + j)%nat) (render_loop fs ply_files i).1.
Proof.
  intros Hj Hm [e He]. revert i j Hj Hm.
  induction ply_files as [|g rest IH]; intros i j Hj Hm; [by rewrite lookup_nil in Hj|].
  cbn [render_loop]. destruct j as [|j].
  - cbn in Hj. injection Hj as ->. rewrite Nat.add_0_r in Hm.
    rewrite Hm. cbn [Nat.eqb negb]. rewrite He. cbn. split; [by eexists | constructor].
  - cbn in Hj. destruct (IH (S i) j Hj) as [Hr Hf]; [by rewrite Nat.add_succ_r in Hm|].
    assert (Hf' : Forall (fun fr => (frame_number fr ≤ i + S j)%nat)
                    (render_loop fs rest (S i)).1).
    { eapply Forall_impl; [exact Hf|]. intros fr ?. cbn beta in *. lia. }
    destruct (negb (i mod STEP =? 0)%nat); [done|].
    destruct (load_ply_file fs g) as [[points colors]|e'];
      [|cbn; split; [by eexists | constructor]].
    destruct (Np.len points =? 0)%nat; [done|].
    destruct (create_sphere_objects _ _) as [spheres|e'];
      [|cbn; split; [by eexists | constructor]].
    destruct (render_loop fs rest (S i)) as [frames r]. cbn [fst snd] in *.
    split; [done|]. constructor; [cbn; lia | done].
Qed.

(** X11.  When a file at a multiple of 10 cannot be loaded, the exception
    ends [main]: the run stops with an exception, and no frame of that file
    or of a later one is rendered. *)
Theorem main_stops_at_first_load_error (fs : gmap string file) ply_files j f :
  ply_files !! j = Some f → (j mod STEP = 0)%nat → raises (load_ply_file fs f) →
  raises (main fs ply_files).2 ∧
  Forall (fun fr => (frame_number fr ≤ j)%nat) (main fs ply_files).1.
Proof. intros Hj Hm He. by apply (render_loop_abort fs ply_files 0 j f). Qed.

Lemma main_stops_at_first_load_error_witness :
  raises (main Samples.fs MoreSamples.bad_first_files).2 ∧
  Forall (fun fr => (frame_number fr ≤ 0)%nat) (main Samples.fs MoreSamples.bad_first_files).1.
Proof.
  apply (main_stops_at_first_load_error Samples.fs MoreSamples.bad_first_files
           0%nat "bad.ply").
  - reflexivity.
  - reflexivity.
  - eexists. vm_compute. reflexivity.
Defined.

End frame_loop_claims.

Section frame_paths.
Import Ply RenderFullVideo RenderFrames.

Lemma StronglySorted_lookup_lt {A} (R : A → A → Prop) l a b x y :
  StronglySorted R l → (a < b)%nat → l !! a = Some x → l !! b = Some y → R x y.
Proof.
  intros Hs. revert a b. induction Hs as [|z l Hs IH Hz]; intros a b Hab Ha Hb.
  - by rewrite lookup_nil in Ha.
  - destruct b as [|b]; [lia|]. cbn in Hb. destruct a as [|a].
    + cbn in Ha. injection Ha as <-. rewrite Forall_forall in Hz.
      by eapply Hz, list_elem_of_lookup_2.
    + cbn in Ha. apply (IH a b); [lia | done | done].
Qed.

Example main_eleven_files :
  (fun fr => (frame_number fr, frame_filepath fr)) <$> (main Samples.fs MoreSamples.eleven_files).1
  = [(1%nat, "output/full_video_working/frame_0001"%string);
     (11%nat, "output/full_video_working/frame_0011"%string)] ∧
  (main Samples.fs MoreSamples.eleven_files).2 = Ok tt.
Proof. split; vm_compute; reflexivity. Qed.

(** X12.  Two different frames that [main] renders are written to
    different paths. *)
Theorem main_output_paths_distinct (fs : gmap string file) ply_files a b fr1 fr2 :
  (main fs ply_files).1 !! a = Some fr1 → (main fs ply_files).1 !! b = Some fr2 →
  a ≠ b → frame_filepath fr1 ≠ frame_filepath fr2.
Proof.
  intros Ha Hb Hab Hpath.
  destruct (render_loop_frames fs ply_files 0) as (Hok & _ & Hsorted).
  fold (main fs ply_files) in Hok, Hsorted. rewrite Forall_forall in Hok.
  destruct (Hok fr1) as (j1 & _ & _ & _ & Hp1 & _); [by eapply list_elem_of_lookup_2|].
  destruct (Hok fr2) as (j2 & _ & _ & _ & Hp2 & _); [by eapply list_elem_of_lookup_2|].
  rewrite Hp1, Hp2 in Hpath.
  apply (inj (String.app OUTPUT_DIR)), (inj (String.app "frame_")), format_04d_inj in Hpath.
  destruct (Nat.lt_trichotomy a b) as [Hlt|[Heq|Hgt]]; [|done|].
  - pose proof (StronglySorted_lookup_lt _ _ _ _ _ _ Hsorted Hlt Ha Hb). cbn beta in *. lia.
  - pose proof (StronglySorted_lookup_lt _ _ _ _ _ _ Hsorted Hgt Hb Ha). cbn beta in *. lia.
Qed.

Lemma main_output_paths_distinct_witness :
  ∃ fr1 fr2,
    (main Samples.fs MoreSamples.eleven_files).1 !! 0%nat = Some fr1 ∧
    (main Samples.fs MoreSamples.eleven_files).1 !! 1%nat = Some fr2 ∧
    frame_filepath fr1 ≠ frame_filepath fr2.
Proof.
  eexists _, _. split; [vm_compute; reflexivity|]. split; [vm_compute; reflexivity|].
  eapply (main_output_paths_distinct Samples.fs MoreSamples.eleven_files 0 1);
    [vm_compute; reflexivity | vm_compute; reflexivity | lia].
Defined.

End frame_paths.

(** ** More on [PLYProcessor] *)

Section ply_processor_extras.
Import Ply PLYProcessor.

Lemma zip_columns3_shape xs ys zs :
  length ys = length xs → length zs = length xs →
  length (Np.zip_columns (length xs) [xs; ys; zs]) = length xs ∧
  Forall (fun row => length row = 3%nat) (Np.zip_columns (length xs) [xs; ys; zs]).
Proof.
  revert ys zs. induction xs as [|x xs IH]; intros ys zs Hy Hz.
  - split; [done | constructor].
  - destruct ys as [|y ys]; [done|]. destruct zs as [|z zs]; [done|].
    cbn [length]. rewrite zip_columns3_cons. cbn in Hy, Hz.
    destruct (IH ys zs) as [Hl Hr]; [lia | lia |].
    split; [cbn; by rewrite Hl | by constructor].
Qed.

Lemma ravel_divide a dt d :
  Np.ravel (Np.divide (Np.astype a dt) d)
  = (fun x => Np.cast dt (num_div_pos (Np.cast dt x) d)) <$> Np.ravel a.
Proof.
  destruct a as [dt' xs|dt' n rows]; cbn [Np.ravel Np.astype Np.divide];
    [by rewrite <- list_fmap_compose|].
  induction rows as [|row rows IH]; cbn; [done|].
  rewrite fmap_app. cbn in IH. rewrite IH. by rewrite <- list_fmap_compose.
Qed.

(** The vertex element behind a successful [try] block of [get_ply_info],
    with its columns, under the well-formedness of the record array. *)
Lemma get_ply_info_try_vertices fs path i :
  wf_fs fs → get_ply_info_try fs path = Ok i →
  ∃ d el px xs py ys pz zs,
    PlyData_read fs path = Ok d ∧ element d "vertex" = Ok el ∧ wf_element el ∧
    field el "x" = Ok (Np.Arr1 (prop_dtype px) xs) ∧
    field el "y" = Ok (Np.Arr1 (prop_dtype py) ys) ∧
    field el "z" = Ok (Np.Arr1 (prop_dtype pz) zs) ∧
    length xs = el_count el ∧ length ys = el_count el ∧ length zs = el_count el ∧
    xs ≠ [] ∧ point_count i = el_count el ∧
    has_colors i = has_name "red" (prop_name <$> properties el)
                   && has_name "green" (prop_name <$> properties el)
                   && has_name "blue" (prop_name <$> properties el).
Proof.
  intros Hwf Htry. unfold get_ply_info_try in Htry.
  apply bind_Ok in Htry as (d & Hd & H). apply bind_Ok in H as (el & Hel & H).
  apply bind_Ok in H as (x & Hx & H). apply bind_Ok in H as (y & Hy & H).
  apply bind_Ok in H as (z & Hz & H). apply bind_Ok in H as (b0 & Hb0 & H).
  apply bind_Ok in H as (size & Hsize & H). injection H as <-.
  destruct (PlyData_read_Ok _ _ _ Hd) as (f & Hf & Hply).
  assert (Hel_wf : wf_element el).
  { pose proof (Hwf _ _ Hf) as Hfile. unfold wf_file in Hfile. rewrite Hply in Hfile.
    unfold wf_data in Hfile. rewrite Forall_forall in Hfile.
    by apply Hfile, (element_Ok _ _ _ Hel). }
  destruct (field_Ok _ _ _ Hx) as (px & xs & -> & Hpx & _).
  destruct (field_Ok _ _ _ Hy) as (py & ys & -> & Hpy & _).
  destruct (field_Ok _ _ _ Hz) as (pz & zs & -> & Hpz & _).
  exists d, el, px, xs, py, ys, pz, zs.
  pose proof (bounds_of_Ok_nonempty _ _ _ _ _ _ _ Hb0).
  repeat split; try done; by eapply wf_column.
Qed.

(** X13.  For a file that [get_ply_info] reads successfully, [load_ply]
    succeeds too and agrees with it: the position array has [point_count]
    rows, and a colour array is returned exactly when [has_colors] is set. *)
Theorem get_ply_info_agrees_with_load_ply (fs : gmap string file) path i :
  wf_fs fs → get_ply_info_try fs path = Ok i →
  ∃ points colors,
    (load_ply fs path).1 = Ok (Some points, colors) ∧
    Np.len points = point_count i ∧
    (has_colors i = true ↔ is_Some colors) ∧
    ∀ c, colors = Some c → Np.len c = point_count i.
Proof.
  intros Hwf Htry.
  destruct (get_ply_info_try_vertices _ _ _ Hwf Htry)
    as (d & el & px & xs & py & ys & pz & zs & Hd & Hel & Hel_wf & Hx & Hy & Hz
        & Lx & Ly & Lz & Hne & -> & ->).
  assert (Hy' : length ys = length xs) by congruence.
  assert (Hz' : length zs = length xs) by congruence.
  unfold load_ply, load_ply_try. rewrite Hd. cbn [mbind result_bind]. rewrite Hel.
  cbn [mbind result_bind]. rewrite Hx, Hy, Hz. cbn [mbind result_bind].
  rewrite (column_stack3 _ _ _ _ _ _ Hy' Hz'). cbn [mbind result_bind].
  destruct (zip_columns3_shape xs ys zs Hy' Hz') as [Hlen _].
  destruct (has_name "red" _ && has_name "green" _ && has_name "blue" _) eqn:Hdecl.
  - apply andb_true_iff in Hdecl as [Hrg Hbl]. apply andb_true_iff in Hrg as [Hr Hg].
    destruct (field_declared _ _ Hr) as [r Er]. destruct (field_declared _ _ Hg) as [g Eg].
    destruct (field_declared _ _ Hbl) as [bl Ebl]. rewrite Er, Eg, Ebl.
    cbn [mbind result_bind].
    destruct (field_Ok _ _ _ Er) as (pr & rs & -> & Hpr & _).
    destruct (field_Ok _ _ _ Eg) as (pg & gs & -> & Hpg & _).
    destruct (field_Ok _ _ _ Ebl) as (pb & bs & -> & Hpb & _).
    pose proof (wf_column _ _ _ Hel_wf Hpr) as Lr.
    pose proof (wf_column _ _ _ Hel_wf Hpg) as Lg.
    pose proof (wf_column _ _ _ Hel_wf Hpb) as Lb.
    assert (Hg' : length gs = length rs) by congruence.
    assert (Hb' : length bs = length rs) by congruence.
    rewrite (column_stack3 _ _ _ _ _ _ Hg' Hb'). cbn [mbind result_bind].
    assert (Hrs : rs ≠ []).
    { intros ->. cbn in Lr. rewrite <- Lr in Lx. by destruct xs. }
    destruct (max_stack (Np.result_type (prop_dtype pr) [prop_dtype pg; prop_dtype pb])
                rs gs bs Hrs) as [m ->].
    cbn [mbind result_bind].
    destruct (zip_columns3_shape rs gs bs Hg' Hb') as [Hclen _].
    destruct (num_ltb (Fin 1) m); cbn [fst]; eexists _, _;
      (split; [reflexivity|]); (split; [cbn; lia|]); (split; [by split; eauto|]);
      intros c [= <-]; cbn; rewrite ?length_fmap; lia.
  - cbn [fst]. eexists _, _. split; [reflexivity|]. split; [cbn; lia|].
    split; [|done]. split; [done|]. by intros [c Hc].
Qed.

Lemma get_ply_info_agrees_with_load_ply_witness :
  ∃ points colors,
    (load_ply Samples.fs "colored.ply").1 = Ok (Some points, colors) ∧
    Np.len points = 2%nat ∧ is_Some colors.
Proof.
  assert (Hwf : wf_fs Samples.fs).
  { unfold wf_fs, Samples.fs.
    repeat (apply map_Forall_insert_2; [unfold wf_file; cbn; repeat constructor|]).
    apply map_Forall_empty. }
  assert (Hi : ∃ i, get_ply_info_try Samples.fs "colored.ply" = Ok i ∧
                    point_count i = 2%nat ∧ has_colors i = true)
    by (eexists; repeat split; vm_compute; reflexivity).
  destruct Hi as (i & Hi & Hn & Hc).
  destruct (get_ply_info_agrees_with_load_ply Samples.fs "colored.ply" i Hwf Hi)
    as (points & colors & Hl & Hlen & Hcol & _).
  exists points, colors. split; [exact Hl|]. split; [congruence | by apply Hcol].
Defined.

End ply_processor_extras.

Section ply_processor_colors.
Import Ply PLYProcessor.

Lemma div255_in_unit z :
  (0 ≤ z ≤ 255)%Z →
  Np.in_unit (Np.cast Np.float32 (num_div_pos (Np.cast Np.float32 (Fin (inject_Z z))) 255)).
Proof.
  intros Hz. cbn [Np.cast]. destruct (byte_quotient z Hz) as [-> (q & -> & Hq & _)].
  exact Hq.
Qed.

Lemma ltb_one_inject_Z z : num_ltb (Fin 1) (Fin (inject_Z z)) = (1 <? z)%Z.
Proof.
  cbn [num_ltb]. apply eq_true_iff_eq.
  rewrite negb_true_iff, Z.ltb_lt, <- not_true_iff_false, Qle_bool_iff.
  unfold Qle, inject_Z. cbn. lia.
Qed.

(** X14.  When the raw colour channels of the file are 8-bit values, every
    value of the colour array that [load_ply] returns is in [[0.0, 1.0]],
    whether the array was divided by 255 or left as it was. *)
Theorem load_ply_colors_in_unit (fs : gmap string file) path points colors raw :
  load_ply_try fs path = Ok (Some points, Some colors) →
  raw_colors fs path = Ok raw →
  Forall (fun v => ∃ z, v = Fin (inject_Z z) ∧ (0 ≤ z ≤ 255)%Z) (Np.ravel raw) →
  Forall Np.in_unit (Np.ravel colors).
Proof.
  intros Hl Hraw Hbytes.
  apply load_ply_try_Ok in Hl as (x & y & z & pts & _ & _ & _ & Hc).
  destruct Hc as [|(raw' & m & Hraw' & Hm & Hc)]; [discriminate|].
  assert (raw' = raw) by congruence. subst raw'.
  assert (Ec : colors = if num_ltb (Fin 1) m
                        then Np.divide (Np.astype raw Np.float32) 255 else raw)
    by congruence.
  rewrite Ec. destruct (num_ltb (Fin 1) m) eqn:Em.
  - rewrite ravel_divide. apply Forall_fmap.
    eapply Forall_impl; [exact Hbytes|]. intros v (c & -> & Hc'). by apply div255_in_unit.
  - assert (Hfin : Forall Np.finite (Np.ravel raw)).
    { eapply Forall_impl; [exact Hbytes|]. by intros v (c & -> & _). }
    pose proof (max_exceeds 1 raw m Hfin Hm) as Hmax.
    rewrite Forall_forall in Hbytes. apply Forall_forall. intros v Hv.
    destruct (Hbytes v Hv) as (c & -> & Hc').
    assert (Hle : (c <=? 1)%Z = true).
    { apply Z.leb_le. destruct (Z.ltb_spec 1 c) as [Hgt|]; [|lia]. exfalso.
      assert (Hex : Exists (fun v => num_ltb (Fin 1) v = true) (Np.ravel raw)).
      { apply Exists_exists. exists (Fin (inject_Z c)). split; [done|].
        rewrite ltb_one_inject_Z. by apply Z.ltb_lt. }
      apply Hmax in Hex. congruence. }
    apply Z.leb_le in Hle. cbn [Np.in_unit]. unfold Qle, inject_Z. cbn. lia.
Qed.

Lemma load_ply_colors_in_unit_witness :
  ∃ colors, (∃ points, load_ply_try Samples.fs "binary.ply" = Ok (Some points, Some colors)) ∧
    Forall Np.in_unit (Np.ravel colors).
Proof.
  assert (H : load_ply_try Samples.fs "binary.ply"
    = Ok (Some (Np.Arr2 Np.float32 3 [[Fin 0; Fin 0; Fin 0]; [Fin 1; Fin (1 # 2); Fin 2]]),
          Some (Np.Arr2 Np.uint8 3 [[Fin 1; Fin 0; Fin 0]; [Fin 0; Fin 1; Fin 0]])))
    by (vm_compute; reflexivity).
  eexists. split; [eexists; exact H|].
  apply (load_ply_colors_in_unit Samples.fs "binary.ply" _ _
           (Np.Arr2 Np.uint8 3 [[Fin 1; Fin 0; Fin 0]; [Fin 0; Fin 1; Fin 0]]) H).
  - vm_compute. reflexivity.
  - cbn. repeat constructor;
      (by exists 1%Z; split; [reflexivity | lia])
      || (by exists 0%Z; split; [reflexivity | lia]).
Defined.

(** X15.  A file whose vertex element has the three coordinate properties
    and no record: [get_ply_info] fails on the minimum of an empty array,
    logs the ValueError and returns the record of zeros; [load_ply] returns
    an array of no rows when the element has no colour properties, and
    fails likewise on the maximum of the colours, returning [(None, None)],
    when it has. *)
Theorem no_vertices_info_fails (fs : gmap string file) path d el x y z :
  PlyData_read fs path = Ok d → element d "vertex" = Ok el →
  wf_element el → el_count el = 0%nat →
  field el "x" = Ok x → field el "y" = Ok y → field el "z" = Ok z →
  get_ply_info fs path
  = (Ok (empty_info path),
     [LogError "Error getting PLY info for " path (builtin ValueError)]) ∧
  load_ply fs path
  = if has_name "red" (prop_name <$> properties el)
       && has_name "green" (prop_name <$> properties el)
       && has_name "blue" (prop_name <$> properties el)
    then (Ok (None, None), [LogError "Error loading PLY file " path (builtin ValueError)])
    else (Ok (Some (Np.Arr2 (Np.result_type (Np.nd_dtype x) [Np.nd_dtype y; Np.nd_dtype z])
                      3 []), None), []).
Proof.
  intros Hd Hel Hwf H0 Hx Hy Hz.
  destruct (field_Ok _ _ _ Hx) as (px & xs & -> & Hpx & _).
  destruct (field_Ok _ _ _ Hy) as (py & ys & -> & Hpy & _).
  destruct (field_Ok _ _ _ Hz) as (pz & zs & -> & Hpz & _).
  pose proof (wf_column _ _ _ Hwf Hpx) as Lx. pose proof (wf_column _ _ _ Hwf Hpy) as Ly.
  pose proof (wf_column _ _ _ Hwf Hpz) as Lz. rewrite H0 in Lx, Ly, Lz.
  destruct xs; [|discriminate]. destruct ys; [|discriminate]. destruct zs; [|discriminate].
  split.
  - unfold get_ply_info, get_ply_info_try. rewrite Hd. cbn [mbind result_bind].
    rewrite Hel. cbn [mbind result_bind]. by rewrite Hx, Hy, Hz.
  - unfold load_ply, load_ply_try. rewrite Hd. cbn [mbind result_bind].
    rewrite Hel. cbn [mbind result_bind]. rewrite Hx, Hy, Hz. cbn [mbind result_bind].
    rewrite (column_stack3 _ [] _ [] _ []) by done. cbn [mbind result_bind].
    destruct (has_name "red" _) eqn:Hr; cbn [andb]; [|done].
    destruct (has_name "green" _) eqn:Hg; cbn [andb]; [|done].
    destruct (has_name "blue" _) eqn:Hbl; cbn [andb]; [|done].
    destruct (field_declared _ _ Hr) as [r Er]. destruct (field_declared _ _ Hg) as [g Eg].
    destruct (field_declared _ _ Hbl) as [bl Ebl]. rewrite Er, Eg, Ebl.
    cbn [mbind result_bind].
    destruct (field_Ok _ _ _ Er) as (pr & rs & -> & Hpr & _).
    destruct (field_Ok _ _ _ Eg) as (pg & gs & -> & Hpg & _).
    destruct (field_Ok _ _ _ Ebl) as (pb & bs & -> & Hpb & _).
    pose proof (wf_column _ _ _ Hwf Hpr) as Lr. pose proof (wf_column _ _ _ Hwf Hpg) as Lg.
    pose proof (wf_column _ _ _ Hwf Hpb) as Lb. rewrite H0 in Lr, Lg, Lb.
    destruct rs; [|discriminate]. destruct gs; [|discriminate]. destruct bs; [|discriminate].
    done.
Qed.

Lemma no_vertices_info_fails_witness :
  get_ply_info MoreSamples.empty_fs "empty.ply"
  = (Ok (empty_info "empty.ply"),
     [LogError "Error getting PLY info for " "empty.ply" (builtin ValueError)]) ∧
  load_ply MoreSamples.empty_fs "empty.ply"
  = (Ok (Some (Np.Arr2 Np.float32 3 []), None), []).
Proof.
  destruct (no_vertices_info_fails MoreSamples.empty_fs "empty.ply"
              [MoreSamples.no_vertices] MoreSamples.no_vertices
              (Np.Arr1 Np.float32 []) (Np.Arr1 Np.float32 []) (Np.Arr1 Np.float32 []))
    as [Hinfo Hload]; try (vm_compute; reflexivity).
  - repeat constructor.
  - split; [exact Hinfo | exact Hload].
Defined.

End ply_processor_colors.

(** ** More on the camera trajectory *)

Section trajectory_extras.
Import CameraTrajectory.

Lemma update_override (d : gmap string pyval) items1 items2 :
  NoDup items2.*1 →
  (list_to_set items1.*1 : gset string) = list_to_set items2.*1 →
  update (update d items1) items2 = update d items2.
Proof.
  intros Hnd Hkeys. apply map_eq. intros k.
  destruct (decide (k ∈ items2.*1)) as [Hin|Hout].
  - apply list_elem_of_fmap in Hin as ([k' v] & -> & Hin). cbn.
    by rewrite !(update_lookup_in _ items2 k' v).
  - rewrite !(update_lookup_notin _ items2) by done.
    apply update_lookup_notin. intros Hin. apply Hout.
    apply (elem_of_list_to_set (C := gset string)). rewrite <- Hkeys.
    by apply elem_of_list_to_set.
Qed.

(** X16.  A second [set_trajectory] call for the same type overrides the
    first one completely: the object and the outcome are those of the second
    call alone.  In particular, repeating a call changes nothing. *)
Theorem set_trajectory_same_type_overrides (self : t) ty kwargs1 kwargs2 :
  set_trajectory (set_trajectory self ty kwargs1).1 ty kwargs2
  = set_trajectory self ty kwargs2.
Proof.
  assert (Hstate : (set_trajectory (set_trajectory self ty kwargs1).1 ty kwargs2).1
                   = (set_trajectory self ty kwargs2).1).
  { rewrite !set_trajectory_state. cbn. f_equal.
    apply update_override; [apply variant_items_NoDup|].
    by rewrite !variant_items_keys. }
  assert (Hres : ∀ s s', (set_trajectory s ty kwargs2).2 = (set_trajectory s' ty kwargs2).2).
  { intros s s'. unfold set_trajectory. by repeat case_match. }
  destruct (set_trajectory (set_trajectory self ty kwargs1).1 ty kwargs2) as [s1 r1] eqn:E1.
  destruct (set_trajectory self ty kwargs2) as [s2 r2] eqn:E2.
  cbn in Hstate. subst s2. f_equal.
  pose proof (Hres (set_trajectory self ty kwargs1).1 self) as Hr.
  by rewrite E1, E2 in Hr.
Qed.

End trajectory_extras.

Section rotation_extras.
Import CameraTrajectory.

Lemma euler_entries (pitch yaw roll : R) :
  euler_to_rotation_matrix (pitch, yaw, roll)
  = [[cos roll * cos yaw;
      cos roll * sin yaw * sin pitch - sin roll * cos pitch;
      cos roll * sin yaw * cos pitch + sin roll * sin pitch];
     [sin roll * cos yaw;
      sin roll * sin yaw * sin pitch + cos roll * cos pitch;
      sin roll * sin yaw * cos pitch - cos roll * sin pitch];
     [- sin yaw; cos yaw * sin pitch; cos yaw * cos pitch]]%R.
Proof.
  unfold euler_to_rotation_matrix, matmul, dot. cbn. repeat (f_equal; try ring).
Qed.

(** X17.  The matrix of [euler_to_rotation_matrix] is a rotation: its
    transpose is its inverse, and its determinant is 1. *)
Theorem euler_matrix_is_rotation (pitch yaw roll : R) :
  matmul (euler_to_rotation_matrix (pitch, yaw, roll))
         (Matrix3.transpose (euler_to_rotation_matrix (pitch, yaw, roll)))
    = Matrix3.identity ∧
  matmul (Matrix3.transpose (euler_to_rotation_matrix (pitch, yaw, roll)))
         (euler_to_rotation_matrix (pitch, yaw, roll))
    = Matrix3.identity ∧
  Matrix3.det (euler_to_rotation_matrix (pitch, yaw, roll)) = 1%R.
Proof.
  rewrite euler_entries.
  pose proof (sin2_cos2 pitch) as Hp. pose proof (sin2_cos2 yaw) as Hy.
  pose proof (sin2_cos2 roll) as Hr. unfold Rsqr in Hp, Hy, Hr.
  set (sp := sin pitch) in *. set (cp := cos pitch) in *.
  set (sy := sin yaw) in *. set (cy := cos yaw) in *.
  set (sr := sin roll) in *. set (cr := cos roll) in *.
  unfold Matrix3.transpose, Matrix3.identity, Matrix3.det, matmul, dot. cbn.
  repeat split; repeat (f_equal; try nsatz); nsatz.
Qed.

(** X18.  With two angles at zero the matrix is the rotation about the axis
    of the third angle, and with all three at zero it is the identity. *)
Theorem euler_matrix_single_axis (angle : R) :
  euler_to_rotation_matrix (angle, 0, 0)%R = Rx_std angle ∧
  euler_to_rotation_matrix (0, angle, 0)%R = Ry_std angle ∧
  euler_to_rotation_matrix (0, 0, angle)%R = Rz_std angle ∧
  euler_to_rotation_matrix (0, 0, 0)%R = Matrix3.identity.
Proof.
  rewrite !euler_entries, Rx_std_entries, Ry_std_entries, Rz_std_entries.
  rewrite cos_0, sin_0. unfold Matrix3.identity.
  repeat split; repeat (f_equal; try ring).
Qed.

(** X19.  At a yaw of a quarter turn the matrix depends on the pitch and
    the roll through their difference only: the two angles then turn about
    the same axis. *)
Theorem euler_matrix_gimbal_lock (pitch roll : R) :
  euler_to_rotation_matrix (pitch, PI / 2, roll)%R
  = euler_to_rotation_matrix (pitch - roll, PI / 2, 0)%R.
Proof.
  rewrite !euler_entries, cos_PI2, sin_PI2, cos_0, sin_0, cos_minus, sin_minus.
  repeat (f_equal; try ring).
Qed.

End rotation_extras.

(** ** The renderer of point_cloud_renderer.py *)

Section renderer_extras.
Import Ply PointCloudRenderer.

Lemma search_paths_Some h paths p :
  search_paths h paths = Some p →
  ∃ pre post, paths = pre ++ p :: post ∧
    Forall (fun q => which h q || path_exists h q = false) pre ∧
    which h p || path_exists h p = true.
Proof.
  induction paths as [|q paths IH]; cbn; [discriminate|].
  destruct (which h q || path_exists h q) eqn:Eq.
  - intros [= <-]. exists [], paths. by repeat split.
  - intros H. destruct (IH H) as (pre & post & -> & Hpre & Hp).
    exists (q :: pre), post. repeat split; [by constructor | done].
Qed.

Lemma search_paths_None h paths :
  Forall (fun q => which h q || path_exists h q = false) paths → search_paths h paths = None.
Proof. induction 1 as [|q paths Hq _ IH]; cbn; [done|]. by rewrite Hq. Qed.

(** X20.  Without an explicit path (none, or the empty string),
    [_find_blender] returns the first of the common locations that is on the
    search path or exists, and logs it; it raises FileNotFoundError when
    there is none. *)
Theorem find_blender_first_common_path (h : host) (exe : option string) :
  exe = None ∨ exe = Some EmptyString →
  (∀ p logs, _find_blender h exe = (inr p, logs) →
     ∃ pre post, common_paths = pre ++ p :: post ∧
       Forall (fun q => which h q || path_exists h q = false) pre ∧
       which h p || path_exists h p = true ∧
       logs = [LogInfo ("Found Blender executable: " +:+ p)]) ∧
  (Forall (fun q => which h q || path_exists h q = false) common_paths →
   _find_blender h exe
   = (inl (FileNotFound
        "Blender executable not found. Please install Blender or specify the path."), [])).
Proof.
  intros Hexe.
  assert (Hfind : _find_blender h exe =
    match search_paths h common_paths with
    | Some path => (inr path, [LogInfo ("Found Blender executable: " +:+ path)])
    | None => (inl (FileNotFound
        "Blender executable not found. Please install Blender or specify the path."), [])
    end) by (destruct Hexe as [-> | ->]; reflexivity).
  rewrite Hfind. split.
  - intros p logs H. destruct (search_paths h common_paths) as [q|] eqn:Es; [|discriminate].
    injection H as -> <-. destruct (search_paths_Some _ _ _ Es) as (pre & post & E & Hpre & Hq).
    by exists pre, post.
  - intros Hnone. by rewrite (search_paths_None _ _ Hnone).
Qed.

Lemma find_blender_first_common_path_witness :
  _find_blender MoreSamples.working_host None
  = (inr "/usr/bin/blender"%string, [LogInfo "Found Blender executable: /usr/bin/blender"]).
Proof.
  destruct (find_blender_first_common_path MoreSamples.working_host None) as [Hfirst _];
    [by left|].
  destruct (_find_blender MoreSamples.working_host None) as [[e|p] logs] eqn:E;
    [vm_compute in E; discriminate|].
  destruct (Hfirst p logs eq_refl) as (pre & post & _ & _ & _ & ->).
  vm_compute in E. by injection E as <- _.
Defined.

Lemma get_ply_info_returns fs path :
  ∃ info, PLYProcessor.get_ply_info fs path
          = (Ok info, (PLYProcessor.get_ply_info fs path).2).
Proof.
  unfold PLYProcessor.get_ply_info.
  destruct (PLYProcessor.get_ply_info_try fs path); by eexists.
Qed.

Lemma load_loop_entries fs ply_files i :
  length (load_loop fs ply_files i).1 = length ply_files ∧
  (∀ k path, ply_files !! k = Some path →
     ∃ info, (PLYProcessor.get_ply_info fs path).1 = Ok info ∧
       (load_loop fs ply_files i).1 !! k
       = Some {| pc_frame_number := i + k + 1; pc_file_path := path; pc_data := info |}) ∧
  Forall (fun l => ∃ r, l = PlyLog r) (load_loop fs ply_files i).2.
Proof.
  revert i. induction ply_files as [|f rest IH]; intros i.
  - cbn. split; [done|]. split; [|constructor]. intros k path Hk.
    by rewrite lookup_nil in Hk.
  - destruct (IH (S i)) as (Hlen & Hlook & Hlogs). cbn [load_loop].
    destruct (get_ply_info_returns fs f) as [info Hinfo]. rewrite Hinfo.
    destruct (load_loop fs rest (S i)) as [pcs logs]. cbn [fst snd] in *.
    split; [cbn; lia|]. split.
    + intros [|k] path Hk; cbn in Hk.
      * injection Hk as <-. exists info. rewrite Hinfo. split; [done|].
        rewrite lookup_cons. cbn. by rewrite Nat.add_0_r.
      * destruct (Hlook k path Hk) as (info' & Hi' & Hp). exists info'.
        split; [done|]. rewrite lookup_cons. cbn [Nat.pred]. rewrite Hp.
        do 2 f_equal. lia.
    + apply Forall_app. split; [|done]. apply Forall_fmap, Forall_forall.
      intros r _. by exists r.
Qed.

(** X21.  With at least one PLY file, [load_point_cloud_sequence] returns
    one entry per file, in order, numbered from 1, each with what
    [get_ply_info] gives for the file; a file that cannot be read is not left
    out, its entry holds the record of zeros.  The renderer's own logger
    gets no error, and the last message counts all the files as loaded. *)
Theorem load_point_cloud_sequence_keeps_all (h : host) (self : t) (ply_files : list string) :
  ply_files ≠ [] →
  ∃ point_clouds logs,
    load_point_cloud_sequence h self ply_files = (inr point_clouds, logs) ∧
    length point_clouds = length ply_files ∧
    (∀ k path, ply_files !! k = Some path →
       ∃ info, (PLYProcessor.get_ply_info (files h) path).1 = Ok info ∧
         point_clouds !! k
         = Some {| pc_frame_number := k + 1; pc_file_path := path; pc_data := info |}) ∧
    Forall (fun l => ∀ text e, l ≠ LogErrorExn text e) logs ∧
    last logs = Some (LogInfo ("Successfully loaded " +:+ pretty (length ply_files)
                               +:+ " point clouds")).
Proof.
  intros Hne. unfold load_point_cloud_sequence.
  destruct ply_files as [|f rest] eqn:Efiles; [done|]. rewrite <- Efiles.
  destruct (load_loop_entries (files h) ply_files 0) as (Hlen & Hlook & Hlogs).
  destruct (load_loop (files h) ply_files 0) as [pcs logs]. cbn [fst snd] in *.
  eexists _, _. split; [reflexivity|]. split; [done|]. split; [exact Hlook|]. split.
  - repeat (apply Forall_cons; split; [by intros text e|]).
    apply Forall_app. split.
    + eapply Forall_impl; [exact Hlogs|]. intros l [r ->] text e. discriminate.
    + by repeat constructor.
  - rewrite Hlen. by rewrite app_assoc, last_snoc.
Qed.

Lemma load_point_cloud_sequence_keeps_all_witness :
  ∃ point_clouds logs,
    load_point_cloud_sequence MoreSamples.working_host MoreSamples.renderer
      MoreSamples.mixed_files = (inr point_clouds, logs) ∧
    length point_clouds = 3%nat ∧
    point_clouds !! 1%nat
    = Some {| pc_frame_number := 2; pc_file_path := "missing.ply";
              pc_data := PLYProcessor.empty_info "missing.ply" |} ∧
    last logs = Some (LogInfo "Successfully loaded 3 point clouds").
Proof.
  destruct (load_point_cloud_sequence_keeps_all MoreSamples.working_host MoreSamples.renderer
              MoreSamples.mixed_files) as (pcs & logs & H & Hlen & Hlook & _ & Hlast);
    [discriminate|].
  exists pcs, logs. split; [exact H|]. split; [exact Hlen|]. split; [|exact Hlast].
  destruct (Hlook 1%nat "missing.ply"%string eq_refl) as (info & Hinfo & Hp).
  rewrite Hp. vm_compute in Hinfo. by injection Hinfo as <-.
Defined.

Lemma render_loaded_cases h self pcs ds bg r effects logs :
  render_loaded h self pcs ds bg = (r, effects, logs) →
  let script := joinpath (output_dir self) "render_script.py" in
  let cmd := blender_cmd self bg script in
  let three := [Mkdir (output_dir self);
                GenerateScript pcs (camera_trajectory self) ds script;
                Run cmd (output_dir self)] in
  effects `prefix_of` three ∧ effects ≠ [] ∧
  (∀ out, r = inr out →
     out = output_dir self ∧ effects = three ∧
     (∃ stderr, subprocess_run h cmd (output_dir self) = Ok (0%Z, stderr)) ∧
     logs = [LogInfo "Starting Blender rendering...";
             LogInfo "Blender rendering completed successfully!"]) ∧
  (∀ message, r = inl (Runtime message) →
     effects = three ∧
     (∃ returncode stderr,
        subprocess_run h cmd (output_dir self) = Ok (returncode, stderr) ∧
        returncode ≠ 0%Z ∧ message = ("Blender rendering failed: " +:+ stderr)%string) ∧
     logs = [LogInfo "Starting Blender rendering..."; LogErrorMsg message;
             LogErrorExn "Error running Blender: " (Runtime message)]).
Proof.
  intros H script cmd three. unfold render_loaded in H.
  destruct (mkdir h (output_dir self)) as [[]|e1].
  2:{ injection H as <- <- <-. split; [by eexists|]. by split; [|split]. }
  fold script in H. destruct (generate_script h script) as [[]|e2].
  2:{ injection H as <- <- <-. split; [by eexists|]. by split; [|split]. }
  fold cmd in H. destruct (subprocess_run h cmd (output_dir self)) as [[rc err]|e3] eqn:Erun.
  2:{ injection H as <- <- <-. split; [by exists []|]. by split; [|split]. }
  destruct (rc =? 0)%Z eqn:Erc; injection H as <- <- <-.
  - apply Z.eqb_eq in Erc as ->.
    split; [by exists []|]. split; [done|]. split; [|done].
    intros out [= <-]. split; [done|]. split; [done|]. split; [by eexists | done].
  - apply Z.eqb_neq in Erc.
    split; [by exists []|]. split; [done|]. split; [done|].
    intros message [= <-]. split; [done|]. split; [by exists rc, err | done].
Qed.

(** X22.  [render_sequence] returns a path only when Blender ran and exited
    with code 0, and the path is the output directory.  By then it has
    created the output directory, had the script written for the point
    clouds (those given, or those loaded from the input directory) and run
    Blender on [render_script.py] of the output directory, with the output
    directory as working directory, in this order and nothing else. *)
Theorem render_sequence_returns_after_blender_success (h : host) (self : t)
    (ply_files : list string) (point_clouds : option (list point_cloud))
    (default_settings background : bool) out effects logs :
  render_sequence h self ply_files point_clouds default_settings background
  = (inr out, effects, logs) →
  let script := joinpath (output_dir self) "render_script.py" in
  let cmd := blender_cmd self background script in
  out = output_dir self ∧
  (∃ pcs, (point_clouds = Some pcs ∨
           point_clouds = None ∧
           (load_point_cloud_sequence h self ply_files).1 = inr pcs) ∧
     effects = [Mkdir (output_dir self);
                GenerateScript pcs (camera_trajectory self) default_settings script;
                Run cmd (output_dir self)]) ∧
  (∃ stderr, subprocess_run h cmd (output_dir self) = Ok (0%Z, stderr)) ∧
  last logs = Some (LogInfo "Blender rendering completed successfully!").
Proof.
  intros H script cmd. unfold render_sequence in H. destruct point_clouds as [pcs|].
  - destruct (render_loaded_cases _ _ _ _ _ _ _ _ H) as (_ & _ & Hok & _).
    destruct (Hok out eq_refl) as (-> & -> & Hrun & ->).
    split; [done|]. split; [|done]. exists pcs. split; [by left | done].
  - destruct (load_point_cloud_sequence h self ply_files) as [[e|pcs] logs0] eqn:Eload;
      [discriminate|].
    destruct (render_loaded h self pcs default_settings background) as [[r effs] logs']
      eqn:Er.
    injection H as -> -> <-.
    destruct (render_loaded_cases _ _ _ _ _ _ _ _ Er) as (_ & _ & Hok & _).
    destruct (Hok out eq_refl) as (-> & -> & Hrun & ->).
    split; [done|]. split; [|split; [done|]].
    + exists pcs. split; [by right | done].
    + change (logs0 ++ [?a; ?b]) with (logs0 ++ [a] ++ [b]).
      by rewrite app_assoc, last_snoc.
Qed.

Lemma render_sequence_returns_after_blender_success_witness :
  ∃ stderr,
    subprocess_run MoreSamples.working_host
      ["/usr/bin/blender"; "--background"; "--python"; "output/render_script.py"; "--"]%string
      "output" = Ok (0%Z, stderr).
Proof.
  destruct (render_sequence MoreSamples.working_host MoreSamples.renderer
              MoreSamples.mixed_files None true true) as [[[e|out] effects] logs] eqn:E;
    [vm_compute in E; discriminate|].
  exact (proj1 (proj2 (proj2
    (render_sequence_returns_after_blender_success _ _ _ _ _ _ _ _ _ E)))).
Defined.


(** X24.  The renderer's own RuntimeError comes only from a Blender that
    ran and exited with a code other than 0: its message is
    ["Blender rendering failed: "] followed by what Blender wrote to its
    standard error, and the failure is logged twice, once with this message
    and once more as ["Error running Blender: "] with the same message. *)
Theorem render_sequence_runtime_error (h : host) (self : t)
    (ply_files : list string) (point_clouds : option (list point_cloud))
    (default_settings background : bool) message effects logs :
  render_sequence h self ply_files point_clouds default_settings background
  = (inl (Runtime message), effects, logs) →
  let cmd := blender_cmd self background (joinpath (output_dir self) "render_script.py") in
  (∃ returncode stderr,
     subprocess_run h cmd (output_dir self) = Ok (returncode, stderr) ∧
     returncode ≠ 0%Z ∧ message = ("Blender rendering failed: " +:+ stderr)%string) ∧
  last effects = Some (Run cmd (output_dir self)) ∧
  ∃ before, logs = before ++ [LogErrorMsg message;
                              LogErrorExn "Error running Blender: " (Runtime message)].
Proof.
  intros H cmd. unfold render_sequence in H. destruct point_clouds as [pcs|].
  - destruct (render_loaded_cases _ _ _ _ _ _ _ _ H) as (_ & _ & _ & Herr).
    destruct (Herr message eq_refl) as (-> & Hrun & ->).
    split; [done|]. split; [done|]. by exists [LogInfo "Starting Blender rendering..."].
  - destruct (load_point_cloud_sequence h self ply_files) as [[e|pcs] logs0] eqn:Eload.
    + injection H as -> _ _. unfold load_point_cloud_sequence in Eload.
      destruct ply_files; [discriminate|].
      by destruct (load_loop (files h) (s :: ply_files) 0).
    + destruct (render_loaded h self pcs default_settings background) as [[r effs] logs']
        eqn:Er.
      injection H as -> -> <-.
      destruct (render_loaded_cases _ _ _ _ _ _ _ _ Er) as (_ & _ & _ & Herr).
      destruct (Herr message eq_refl) as (-> & Hrun & ->).
      split; [done|]. split; [done|].
      exists (logs0 ++ [LogInfo "Starting Blender rendering..."]).
      by rewrite <- app_assoc.
Qed.

Lemma render_sequence_runtime_error_witness :
  ∃ before,
    (render_sequence MoreSamples.failing_host MoreSamples.renderer [] (Some []) true true).2
    = before ++ [LogErrorMsg "Blender rendering failed: no GPU";
                 LogErrorExn "Error running Blender: "
                   (Runtime "Blender rendering failed: no GPU")].
Proof.
  assert (E : render_sequence MoreSamples.failing_host MoreSamples.renderer [] (Some [])
                true true
              = (inl (Runtime "Blender rendering failed: no GPU"),
                 (render_sequence MoreSamples.failing_host MoreSamples.renderer [] (Some [])
                    true true).1.2,
                 (render_sequence MoreSamples.failing_host MoreSamples.renderer [] (Some [])
                    true true).2)) by (vm_compute; reflexivity).
  exact (proj2 (proj2 (render_sequence_runtime_error _ _ _ _ _ _ _ _ _ E))).
Defined.

End renderer_extras.
